(** * Agent messaging core and ranking engine: a shallow embedding

    This development embeds, as executable Rocq definitions, the parts of the
    job-matching system that carry protocol structure:

    - [agents/agent_protocol.py]: the message envelope, the agent registry and
      the synchronous message bus with its retry policy;
    - [agents/ranking_agent.py]: the scoring engine and [rank_applications];
    - [agents/communication_agent.py]: the choice of the notification variant;
    - [agents/comparison_agent.py]: the validation of a comparison and the
      loop over the applications of a job.

    Conventions of the embedding.
    - Python values that the code inspects dynamically ([isinstance], [.get],
      truthiness) are values of the type [pyval].
    - A Python [float] is an exact rational of [Q]: [PyFloat q] is a finite
      float, and the arithmetic is not rounded.  The values nan and the
      infinities have no representation; [float] of an integer that is too
      large raises [OverflowError], as in Python.
    - A [datetime] is a number of microseconds in [Z].
    - An exception is a value [Raise e] of the result type [res]; a
      [try/except] is a [match] on it.
    - Dictionaries and messages are values: the comparison results of one
      run are separate objects, as the comparison agent builds them, and a
      list of the bus holds each message as it was when appended.
    - A handler is known to the bus by its outcome, a return or an
      exception; what a handler itself sends is described by the functions
      of the agents.  The functions of the bus deliver to handlers that
      send nothing; those of the module [Reentrant] also deliver what a
      handler sends while it runs, inside the delivery that called it.
    - Logging has no counterpart. *)

From Stdlib Require Import ZArith QArith Qminmax Lqa Lia List String Bool.
From Stdlib Require Import Permutation Sorted.
From stdpp Require Import gmap strings list fin_maps.

Set Warnings "-register-all".

Import ListNotations.
Local Open Scope string_scope.
Local Open Scope Z_scope.

(** ** Python values *)

Module Py.

Inductive pyval : Type :=
| PyNone
| PyBool (b : bool)
| PyInt (n : Z)
| PyFloat (q : Q)
| PyStr (s : string)
| PyList (l : list pyval)
| PyDict (d : list (string * pyval)).

(** A dictionary keeps its items in insertion order; keys are strings in
    every dictionary the modelled code builds or reads. *)
Definition pydict : Type := list (string * pyval).

Inductive exn : Type :=
| ValueError
| TypeError
| KeyError (key : string)
| AttributeError
| OverflowError.

Inductive res (A : Type) : Type :=
| Ok (a : A)
| Raise (e : exn).
Arguments Ok {A} a.
Arguments Raise {A} e.

Definition bind {A B : Type} (r : res A) (k : A -> res B) : res B :=
  match r with
  | Ok a => k a
  | Raise e => Raise e
  end.

(** [d.get(key)] as an option, first binding wins (keys are unique in a
    Python dictionary). *)
Fixpoint dict_find (d : pydict) (key : string) : option pyval :=
  match d with
  | [] => None
  | (k, v) :: d' => if String.eqb k key then Some v else dict_find d' key
  end.

(** [d.get(key, default)] *)
Definition dict_get (d : pydict) (key : string) (default : pyval) : pyval :=
  match dict_find d key with
  | Some v => v
  | None => default
  end.

(** [d[key]] *)
Definition dict_item (d : pydict) (key : string) : res pyval :=
  match dict_find d key with
  | Some v => Ok v
  | None => Raise (KeyError key)
  end.

(** [d[key] = v]: an existing key keeps its place, a new one goes last. *)
Fixpoint dict_set (d : pydict) (key : string) (v : pyval) : pydict :=
  match d with
  | [] => [(key, v)]
  | (k, w) :: d' =>
      if String.eqb k key then (k, v) :: d' else (k, w) :: dict_set d' key v
  end.

(** [obj.get(key, default)] on an arbitrary value: only a dictionary has
    the method. *)
Definition get (obj : pyval) (key : string) (default : pyval) : res pyval :=
  match obj with
  | PyDict d => Ok (dict_get d key default)
  | _ => Raise AttributeError
  end.

Definition is_none (v : pyval) : bool :=
  match v with PyNone => true | _ => false end.

Definition is_dict (v : pyval) : bool :=
  match v with PyDict _ => true | _ => false end.

Definition is_list (v : pyval) : bool :=
  match v with PyList _ => true | _ => false end.

(** Truth value of an object, as tested by [if v:] and [not v]. *)
Definition truthy (v : pyval) : bool :=
  match v with
  | PyNone => false
  | PyBool b => b
  | PyInt n => negb (n =? 0)
  | PyFloat q => negb (Qeq_bool q 0)
  | PyStr s => negb (String.eqb s "")
  | PyList l => match l with [] => false | _ => true end
  | PyDict d => match d with [] => false | _ => true end
  end.

(** [v == s] for a string literal [s]. *)
Definition eq_str (v : pyval) (s : string) : bool :=
  match v with
  | PyStr s' => String.eqb s' s
  | _ => false
  end.

Definition Qltb (a b : Q) : bool :=
  match (a ?= b)%Q with Lt => true | _ => false end.

(** [float(n)] raises [OverflowError] for an integer whose nearest float
    would be 2^1024: from 2^1024 - 2^970 on, in absolute value. *)
Definition float_overflows (n : Z) : bool := 2 ^ 1024 - 2 ^ 970 <=? Z.abs n.
Arguments float_overflows : simpl never.

Section Float.
(** The conversion of a string by [float(s)]: [None] stands for the
    [ValueError] of a string that is not a number.  The strings that spell
    nan or an infinity, or a number beyond the floats, are converted by
    Python to values that [Q] does not have: the statements that depend on
    the value of a float keep strings out of the places that are
    converted. *)
Variable str_to_float : string -> option Q.

(** [float(v)] *)
Definition float (v : pyval) : res Q :=
  match v with
  | PyNone => Raise TypeError
  | PyBool b => Ok (if b then 1 else 0)%Q
  | PyInt n => if float_overflows n then Raise OverflowError else Ok (inject_Z n)
  | PyFloat q => Ok q
  | PyStr s =>
      match str_to_float s with
      | Some q => Ok q
      | None => Raise ValueError
      end
  | PyList _ => Raise TypeError
  | PyDict _ => Raise TypeError
  end.
End Float.

End Py.

Notation "'let*' x := c1 'in' c2" := (Py.bind c1 (fun x => c2))
  (at level 10, x name, c1 at level 100, c2 at level 200).

Import Py.

(** ** The scoring engine ([RankingAgent._calculate_enhanced_score]) *)

Section ScoringEngine.
Variable str_to_float : string -> option Q.
Local Open Scope Q_scope.

(** Lines 258-269: the skills bonus and penalty. *)
Definition skills_adjustment (comparison_details : pydict) (enhanced_score : Q) : Q :=
  match dict_get comparison_details "skills_match" (PyDict []) with
  | PyDict skills_match =>
      let matched_skills := dict_get skills_match "matched_skills" (PyList []) in
      let missing_skills := dict_get skills_match "missing_skills" (PyList []) in
      let enhanced_score :=
        match matched_skills with
        | PyList l =>
            if (0 <? Z.of_nat (length l))%Z
            then enhanced_score + Qmin (1 # 10) (inject_Z (Z.of_nat (length l)) * (2 # 100))
            else enhanced_score
        | _ => enhanced_score
        end in
      match missing_skills with
      | PyList l =>
          if (0 <? Z.of_nat (length l))%Z
          then enhanced_score - Qmin (1 # 10) (inject_Z (Z.of_nat (length l)) * (15 # 1000))
          else enhanced_score
      | _ => enhanced_score
      end
  | _ => enhanced_score
  end.

(** Lines 272-280: the experience bonus; the inner [try] swallows the
    [ValueError] and [TypeError] of the conversion. *)
Definition experience_adjustment (comparison_details : pydict) (enhanced_score : Q) : res Q :=
  match dict_get comparison_details "experience_match" (PyDict []) with
  | PyDict experience_match =>
      let relevance_score := dict_get experience_match "relevance_score" (PyInt 0) in
      match float str_to_float relevance_score with
      | Ok relevance_score =>
          if Qltb (7 # 10) relevance_score
          then Ok (enhanced_score + (5 # 100))
          else Ok enhanced_score
      | Raise ValueError => Ok enhanced_score
      | Raise TypeError => Ok enhanced_score
      | Raise e => Raise e
      end
  | _ => Ok enhanced_score
  end.

(** Lines 283-287: the education bonus. *)
Definition education_adjustment (comparison_details : pydict) (enhanced_score : Q) : Q :=
  match dict_get comparison_details "education_match" (PyDict []) with
  | PyDict education_match =>
      let meets_requirements := dict_get education_match "meets_requirements" (PyBool false) in
      if truthy meets_requirements then enhanced_score + (3 # 100) else enhanced_score
  | _ => enhanced_score
  end.

(** Lines 290-299: the impact of the overall recommendation. *)
Definition assessment_adjustment (comparison_details : pydict) (enhanced_score : Q) : Q :=
  match dict_get comparison_details "overall_assessment" (PyDict []) with
  | PyDict overall_assessment =>
      let recommendation := dict_get overall_assessment "recommendation" (PyStr "") in
      if eq_str recommendation "highly_recommended" then enhanced_score + (8 # 100)
      else if eq_str recommendation "recommended" then enhanced_score + (4 # 100)
      else if eq_str recommendation "not_recommended" then enhanced_score - (5 # 100)
      else enhanced_score
  | _ => enhanced_score
  end.

(** The body of the outer [try] (lines 244-304). *)
Definition enhanced_score_try (result : pyval) : res Q :=
  let* base_score := get result "similarity_score" (PyFloat 0) in
  let base_score := if is_none base_score then PyFloat 0 else base_score in
  let* base_score := float str_to_float base_score in
  let* comparison_details := get result "comparison_details" (PyDict []) in
  match comparison_details with
  | PyDict comparison_details =>
      let enhanced_score := base_score in
      let enhanced_score := skills_adjustment comparison_details enhanced_score in
      let* enhanced_score := experience_adjustment comparison_details enhanced_score in
      let enhanced_score := education_adjustment comparison_details enhanced_score in
      let enhanced_score := assessment_adjustment comparison_details enhanced_score in
      (* Ensure score stays within bounds *)
      Ok (Qmax 0 (Qmin 1 enhanced_score))
  | _ =>
      (* Invalid comparison_details: the base score is returned as it is *)
      Ok base_score
  end.

(** The handler of [except Exception] (lines 306-312). *)
Definition enhanced_score_except (result : pyval) : res Q :=
  let* base_score := get result "similarity_score" (PyFloat 0) in
  match (if is_none base_score then Ok 0 else float str_to_float base_score) with
  | Ok q => Ok q
  | Raise ValueError => Ok 0
  | Raise TypeError => Ok 0
  | Raise e => Raise e
  end.

Definition _calculate_enhanced_score (result : pyval) : res Q :=
  match enhanced_score_try result with
  | Ok q => Ok q
  | Raise _ => enhanced_score_except result
  end.

End ScoringEngine.

(** ** The ranking record ([models/ranking.py]) *)

Module Ranking.
Record Ranking : Type := mkRanking {
  id : option Z;
  job_id : pyval;
  application_id : pyval;
  similarity_score : Q;
  rank_position : Z;
  ranking_details : pydict;
  applicant_name : pyval
}.
End Ranking.

(** ** [sorted(..., key=..., reverse=True)]

    Python's sort is stable, also with [reverse=True]: items with equal keys
    stay in their original order.  The model inserts the items from the
    right, each one in front of the first item whose key is not greater. *)

Fixpoint insert_desc {A : Type} (key : A -> Q) (x : A) (l : list A) : list A :=
  match l with
  | [] => [x]
  | y :: l' => if Qltb (key x) (key y) then y :: insert_desc key x l' else x :: l
  end.

Definition sorted_reverse {A : Type} (key : A -> Q) (l : list A) : list A :=
  fold_right (insert_desc key) [] l.

(** ** [RankingAgent.rank_applications] *)

(** The key of the sort, [lambda x: x.get('enhanced_score', 0)]; the entry
    is the float stored by the scoring loop just before. *)
Definition enhanced_score_key (x : pydict) : Q :=
  match dict_get x "enhanced_score" (PyInt 0) with
  | PyFloat q => q
  | PyInt n => inject_Z n
  | _ => 0%Q
  end.

Section RankingAgent.
Variable str_to_float : string -> option Q.
(** The text of [str(e)] for an exception. *)
Variable exn_str : exn -> string.
(** The database behind [db_connection]. *)
Context {Database : Type}.
(** [DELETE FROM rankings WHERE job_id = %s]; a failure is logged only. *)
Variable _clear_existing_rankings : Database -> pyval -> Database.
(** [INSERT INTO rankings ... RETURNING id]: the new row's id, or [None]
    when the statement fails or returns no row. *)
Variable _save_ranking : Database -> Ranking.Ranking -> option Z * Database.
(** The insert into [agent_logs] of [BaseAgent.log_activity]. *)
Variable log_activity : Database -> string -> pydict -> Database.
(** The insights dictionary; its rounding of floats has no exact model. *)
Variable _generate_ranking_insights : list Ranking.Ranking -> pyval.
(** [time.time()] at the iteration that assigns a rank position. *)
Variable time_time : Z -> Q.

(** Lines 129-133: the scoring loop. *)
Fixpoint score_results (comparison_results : list pyval) : res (list pydict) :=
  match comparison_results with
  | [] => Ok []
  | result :: rest =>
      let* enhanced_score := _calculate_enhanced_score str_to_float result in
      match result with
      | PyDict d =>
          let* scored_results := score_results rest in
          Ok (dict_set d "enhanced_score" (PyFloat enhanced_score) :: scored_results)
      | _ => Raise TypeError
      end
  end.

(** Lines 153-159: both scores as floats; the [except] resets both. *)
Definition valid_floats (similarity_score enhanced_score : pyval) : res (Q * Q) :=
  let attempt :=
    let* similarity_score :=
      (if is_none similarity_score then Ok 0%Q else float str_to_float similarity_score) in
    let* enhanced_score :=
      (if is_none enhanced_score then Ok similarity_score else float str_to_float enhanced_score) in
    Ok (similarity_score, enhanced_score) in
  match attempt with
  | Ok p => Ok p
  | Raise ValueError => Ok (0%Q, 0%Q)
  | Raise TypeError => Ok (0%Q, 0%Q)
  | Raise e => Raise e
  end.

(** Lines 148-179: the ranking built for the [i]-th result. *)
Definition build_ranking (job_id : pyval) (total_candidates : Z) (i : Z) (result : pydict)
  : res Ranking.Ranking :=
  let similarity_score := dict_get result "similarity_score" (PyFloat 0) in
  let enhanced_score := dict_get result "enhanced_score" similarity_score in
  let comparison_details := dict_get result "comparison_details" (PyDict []) in
  let* scores := valid_floats similarity_score enhanced_score in
  let similarity_score := fst scores in
  let enhanced_score := snd scores in
  let comparison_details :=
    match comparison_details with PyDict d => d | _ => [] end in
  let comparison_details :=
    dict_set comparison_details "ranking_metadata"
      (PyDict [("original_similarity_score", PyFloat similarity_score);
               ("enhanced_score", PyFloat enhanced_score);
               ("rank_position", PyInt i);
               ("total_candidates", PyInt total_candidates);
               ("ranking_timestamp", PyFloat (time_time i))]) in
  let* application_id := dict_item result "application_id" in
  Ok (Ranking.mkRanking None job_id application_id
        enhanced_score (* Use enhanced score *)
        i comparison_details PyNone).

(** Lines 147-189: the loop over [enumerate(ranked_results, 1)].  An
    exception leaves the loop with the database as it is by then. *)
Fixpoint save_rankings (db : Database) (job_id : pyval) (total_candidates : Z)
    (i : Z) (ranked_results : list pydict) : res (list Ranking.Ranking) * Database :=
  match ranked_results with
  | [] => (Ok [], db)
  | result :: rest =>
      match build_ranking job_id total_candidates i result with
      | Raise e => (Raise e, db)
      | Ok ranking =>
          let (ranking_id, db) := _save_ranking db ranking in
          let saved :=
            match ranking_id with
            | Some n =>
                if n =? 0 then []
                else [Ranking.mkRanking (Some n) (Ranking.job_id ranking)
                        (Ranking.application_id ranking)
                        (Ranking.similarity_score ranking)
                        (Ranking.rank_position ranking)
                        (Ranking.ranking_details ranking)
                        (dict_get result "applicant_name" (PyStr "Unknown"))]
            | None => []
            end in
          let (later, db) := save_rankings db job_id total_candidates (i + 1) rest in
          (let* rankings := later in Ok (saved ++ rankings)%list, db)
      end
  end.

(** Lines 212-220: one entry of the response's [rankings] list. *)
Definition format_ranking (r : Ranking.Ranking) : pyval :=
  PyDict [("rank", PyInt (Ranking.rank_position r));
          ("applicant_name", Ranking.applicant_name r);
          ("similarity_score", PyFloat (Ranking.similarity_score r));
          ("application_id", Ranking.application_id r);
          ("enhanced_score",
            match dict_get (Ranking.ranking_details r) "ranking_metadata" (PyDict []) with
            | PyDict metadata =>
                dict_get metadata "enhanced_score" (PyFloat (Ranking.similarity_score r))
            | _ => PyNone
            end);
          ("ranking_details", PyDict (Ranking.ranking_details r))].

Definition error_response (message : string) (job_id : pyval) : pydict :=
  [("status", PyStr "error"); ("message", PyStr message);
   ("job_id", job_id); ("rankings", PyList [])].

(** The body of the [try] of [rank_applications] (lines 126-230).  A value
    that is not a list fails at once: a number has no length, and the items
    of a string or of a dictionary are strings, which have no [get]. *)
Definition rank_applications_try (db : Database) (job_id comparison_results : pyval)
  : res pydict * Database :=
  match comparison_results with
  | PyList comparison_results =>
      match score_results comparison_results with
      | Raise e => (Raise e, db)
      | Ok scored_results =>
          let ranked_results := sorted_reverse enhanced_score_key scored_results in
          let db := _clear_existing_rankings db job_id in
          let (saved, db) :=
            save_rankings db job_id (Z.of_nat (length ranked_results)) 1 ranked_results in
          match saved with
          | Raise e => (Raise e, db)
          | Ok [] => (Ok (error_response "Failed to save rankings to database" job_id), db)
          | Ok rankings =>
              let insights := _generate_ranking_insights rankings in
              let db :=
                log_activity db "ranking_completed"
                  [("job_id", job_id);
                   ("total_ranked", PyInt (Z.of_nat (length rankings)));
                   ("avg_score",
                     PyFloat (fold_right Qplus 0%Q (map Ranking.similarity_score rankings)
                              / inject_Z (Z.of_nat (length rankings))))] in
              (Ok [("status", PyStr "success");
                   ("job_id", job_id);
                   ("total_ranked", PyInt (Z.of_nat (length rankings)));
                   ("insights", insights);
                   ("rankings", PyList (map format_ranking rankings))], db)
          end
      end
  | PyStr _ => (Raise AttributeError, db)
  | PyDict _ => (Raise AttributeError, db)
  | _ => (Raise TypeError, db)
  end.

Definition rank_applications (db : Database) (task_data : pydict) : pydict * Database :=
  let job_id := dict_get task_data "job_id" PyNone in
  let comparison_results := dict_get task_data "comparison_results" (PyList []) in
  if negb (truthy job_id) then
    ([("status", PyStr "error"); ("message", PyStr "Job ID required")], db)
  else if negb (truthy comparison_results) then
    ([("status", PyStr "error"); ("message", PyStr "No comparison results to rank")], db)
  else
    match rank_applications_try db job_id comparison_results with
    | (Ok response, db) => (response, db)
    | (Raise e, db) => (error_response (exn_str e) job_id, db)
    end.

End RankingAgent.

(** ** Messages and registrations ([agents/agent_protocol.py]) *)

Module MessageType.
Inductive MessageType : Type :=
| REQUEST | RESPONSE | NOTIFICATION | ERROR | HEARTBEAT | ACK.
End MessageType.

Module MessagePriority.
Inductive MessagePriority : Type := LOW | NORMAL | HIGH | CRITICAL.
End MessagePriority.

Module AgentStatus.
Inductive AgentStatus : Type := ACTIVE | BUSY | INACTIVE | ERROR.

Definition eqb (a b : AgentStatus) : bool :=
  match a, b with
  | ACTIVE, ACTIVE | BUSY, BUSY | INACTIVE, INACTIVE | ERROR, ERROR => true
  | _, _ => false
  end.
End AgentStatus.

(** The settings read by the protocol ([config/settings.py]); the values
    come from the environment, with the defaults below. *)
Record Settings : Type := mkSettings {
  A2A_MESSAGE_TIMEOUT : Z;
  A2A_MAX_RETRIES : Z;
  A2A_ENABLE_LOGGING : bool
}.

Definition default_settings : Settings := mkSettings 30 3 true.

(** [timedelta(seconds=s)], in microseconds. *)
Definition timedelta_seconds (s : Z) : Z := s * 1000000.

Record AgentCapability : Type := mkAgentCapability {
  name : string;
  description : string;
  input_schema : pydict;
  output_schema : pydict
}.

Record AgentMessage : Type := mkAgentMessage {
  sender : string;
  receiver : string;
  message_type : MessageType.MessageType;
  payload : pyval;
  message_id : string;
  timestamp : Z;
  correlation_id : option string;
  priority : MessagePriority.MessagePriority;
  retry_count : Z;
  expires_at : option Z;
  requires_ack : bool
}.

(** The generated [__init__] followed by [__post_init__]: only a missing
    [expires_at] is filled in.  The defaults of [message_id] (a fresh uuid)
    and [timestamp] (the current time) are chosen by the caller here. *)
Definition new_AgentMessage (settings : Settings)
    (sender receiver : string) (message_type : MessageType.MessageType)
    (payload : pyval) (message_id : string) (timestamp : Z)
    (correlation_id : option string) (priority : MessagePriority.MessagePriority)
    (retry_count : Z) (expires_at : option Z) (requires_ack : bool) : AgentMessage :=
  mkAgentMessage sender receiver message_type payload message_id timestamp
    correlation_id priority retry_count
    (match expires_at with
     | None => Some (timestamp + timedelta_seconds (A2A_MESSAGE_TIMEOUT settings))
     | Some e => Some e
     end)
    requires_ack.

(** [AgentMessage.is_expired], at the time [now]. *)
Definition is_expired (message : AgentMessage) (now : Z) : bool :=
  match expires_at message with
  | Some e => now >? e
  | None => false
  end.

Definition with_retry_count (message : AgentMessage) (n : Z) : AgentMessage :=
  mkAgentMessage (sender message) (receiver message) (message_type message)
    (payload message) (message_id message) (timestamp message)
    (correlation_id message) (priority message) n
    (expires_at message) (requires_ack message).

(** What a call of a handler does, as far as the bus can tell: it returns,
    or it raises. *)
Inductive HandlerOutcome : Type := Returns | Raises.

Definition Handler : Type := AgentMessage -> HandlerOutcome.

(** A registration; [agent_instance] is the instance's [receive_message]
    method, the only use the bus makes of it. *)
Record AgentRegistration : Type := mkAgentRegistration {
  agent_name : string;
  agent_instance : Handler;
  capabilities : list AgentCapability;
  status : AgentStatus.AgentStatus;
  last_heartbeat : Z;
  message_handler : option Handler
}.

Definition with_status (r : AgentRegistration) (s : AgentStatus.AgentStatus)
  : AgentRegistration :=
  mkAgentRegistration (agent_name r) (agent_instance r) (capabilities r) s
    (last_heartbeat r) (message_handler r).

Definition with_last_heartbeat (r : AgentRegistration) (t : Z) : AgentRegistration :=
  mkAgentRegistration (agent_name r) (agent_instance r) (capabilities r) (status r)
    t (message_handler r).

(** [AgentRegistration.is_alive], at the time [now]. *)
Definition is_alive (settings : Settings) (r : AgentRegistration) (now : Z) : bool :=
  now - last_heartbeat r <? timedelta_seconds (A2A_MESSAGE_TIMEOUT settings * 2).

(** A started [retry_later] thread that has not run yet: the delay it
    sleeps and the message it closes over. *)
Record RetryThread : Type := mkRetryThread {
  retry_delay : Q;
  retry_message : AgentMessage
}.

(** The protocol object.  [retry_threads] stands for the daemon threads it
    has started; the lists hold each message as it was when appended. *)
Record AgentProtocol : Type := mkAgentProtocol {
  registered_agents : gmap string AgentRegistration;
  message_history : list AgentMessage;
  failed_messages : list AgentMessage;
  retry_threads : list RetryThread
}.

Definition init_AgentProtocol : AgentProtocol := mkAgentProtocol ∅ [] [] [].

Definition with_registered_agents (p : AgentProtocol)
    (m : gmap string AgentRegistration) : AgentProtocol :=
  mkAgentProtocol m (message_history p) (failed_messages p) (retry_threads p).

Definition with_message_history (p : AgentProtocol) (l : list AgentMessage)
  : AgentProtocol :=
  mkAgentProtocol (registered_agents p) l (failed_messages p) (retry_threads p).

Definition with_failed_messages (p : AgentProtocol) (l : list AgentMessage)
  : AgentProtocol :=
  mkAgentProtocol (registered_agents p) (message_history p) l (retry_threads p).

Definition with_retry_threads (p : AgentProtocol) (l : list RetryThread)
  : AgentProtocol :=
  mkAgentProtocol (registered_agents p) (message_history p) (failed_messages p) l.

(** [self.registered_agents[agent_name].status = s] *)
Definition set_status (p : AgentProtocol) (agent_name : string)
    (s : AgentStatus.AgentStatus) : AgentProtocol :=
  with_registered_agents p
    (alter (fun r => with_status r s) agent_name (registered_agents p)).

Definition status_of (p : AgentProtocol) (agent_name : string)
  : option AgentStatus.AgentStatus :=
  status <$> registered_agents p !! agent_name.

(** ** The message bus *)

(** [AgentProtocol._validate_message] *)
Definition _validate_message (message : AgentMessage) (now : Z) : bool :=
  if (String.eqb (sender message) "" || String.eqb (receiver message) "")%bool then false
  else if is_expired message now then false
  else if negb (is_dict (payload message)) then false
  else true.

(** [AgentProtocol._deliver_message_sync]: a missing receiver is the
    [KeyError] caught by the outer [except]. *)
Definition _deliver_message_sync (p : AgentProtocol) (message : AgentMessage)
  : bool * AgentProtocol :=
  match registered_agents p !! receiver message with
  | None => (false, p)
  | Some receiver_reg =>
      let old_status := status receiver_reg in
      let p := set_status p (receiver message) AgentStatus.BUSY in
      let result :=
        match message_handler receiver_reg with
        | Some handler => handler message
        | None => agent_instance receiver_reg message
        end in
      match result with
      | Returns => (true, set_status p (receiver message) old_status)
      | Raises => (false, set_status p (receiver message) AgentStatus.ERROR)
      end
  end.

(** [AgentProtocol._handle_delivery_failure]: either a [retry_later]
    thread is started for the message with its count bumped, or the message
    goes to the failed list.  The result is the message as the call leaves
    it. *)
Definition _handle_delivery_failure (settings : Settings) (p : AgentProtocol)
    (message : AgentMessage) : AgentMessage * AgentProtocol :=
  if retry_count message <? A2A_MAX_RETRIES settings then
    let message := with_retry_count message (retry_count message + 1) in
    let retry_delay := Qmin (Qpower 2 (retry_count message)) 5 in
    (message,
     with_retry_threads p (retry_threads p ++ [mkRetryThread retry_delay message])%list)
  else
    (message, with_failed_messages p (failed_messages p ++ [message])%list).

(** The body of a [retry_later] thread once its sleep is over. *)
Definition retry_later (settings : Settings) (p : AgentProtocol)
    (message : AgentMessage) : AgentProtocol :=
  let (delivered, p) := _deliver_message_sync p message in
  if delivered then p
  else snd (_handle_delivery_failure settings p message).

(** [AgentProtocol.send_message], called at the time [now]. *)
Definition send_message (settings : Settings) (p : AgentProtocol)
    (message : AgentMessage) (now : Z) : bool * AgentProtocol :=
  if negb (_validate_message message now) then (false, p)
  else
    match registered_agents p !! receiver message with
    | None => (false, with_failed_messages p (failed_messages p ++ [message])%list)
    | Some _ =>
        let p := with_message_history p (message_history p ++ [message])%list in
        let (success, p) := _deliver_message_sync p message in
        if success then (true, p)
        else (false, snd (_handle_delivery_failure settings p message))
    end.

Section Registry.
Variable settings : Settings.
(** The uuid drawn for the notification sent to a receiver. *)
Variable uuid4 : string -> string.
(** [datetime.isoformat] *)
Variable isoformat : Z -> string.

(** [AgentProtocol._broadcast_agent_event]: one notification per other
    agent whose status is ACTIVE when its turn comes, delivered at once. *)
Definition _broadcast_agent_event (p : AgentProtocol) (agent_name event_type : string)
    (now : Z) : AgentProtocol :=
  foldl
    (fun p reg_name =>
       match status_of p reg_name with
       | Some AgentStatus.ACTIVE =>
           if String.eqb reg_name agent_name then p
           else
             let event_message :=
               new_AgentMessage settings "system" reg_name MessageType.NOTIFICATION
                 (PyDict [("event_type", PyStr event_type);
                          ("agent_name", PyStr agent_name);
                          ("timestamp", PyStr (isoformat now))])
                 (uuid4 reg_name) now None MessagePriority.NORMAL 0 None false in
             snd (_deliver_message_sync p event_message)
       | _ => p
       end)
    p (map fst (map_to_list (registered_agents p))).

(** [AgentProtocol.register_agent] *)
Definition register_agent (p : AgentProtocol) (agent_name : string)
    (agent_instance : Handler) (capabilities : option (list AgentCapability))
    (message_handler : option Handler) (now : Z) : AgentProtocol :=
  let registration :=
    mkAgentRegistration agent_name agent_instance
      (match capabilities with Some l => l | None => [] end)
      AgentStatus.ACTIVE now message_handler in
  let p := with_registered_agents p (<[agent_name := registration]> (registered_agents p)) in
  _broadcast_agent_event p agent_name "agent_registered" now.

(** [AgentProtocol.unregister_agent] *)
Definition unregister_agent (p : AgentProtocol) (agent_name : string) (now : Z)
  : AgentProtocol :=
  match registered_agents p !! agent_name with
  | Some _ =>
      let p := with_registered_agents p (delete agent_name (registered_agents p)) in
      _broadcast_agent_event p agent_name "agent_unregistered" now
  | None => p
  end.

(** [AgentProtocol.send_heartbeat] *)
Definition send_heartbeat (p : AgentProtocol) (agent_name : string) (now : Z)
  : AgentProtocol :=
  with_registered_agents p
    (alter
       (fun r =>
          let r := with_last_heartbeat r now in
          if AgentStatus.eqb (status r) AgentStatus.INACTIVE
          then with_status r AgentStatus.ACTIVE else r)
       agent_name (registered_agents p)).

(** [AgentProtocol.get_agent_capabilities] *)
Definition get_agent_capabilities (p : AgentProtocol) (agent_name : string)
  : list AgentCapability :=
  match registered_agents p !! agent_name with
  | Some r => capabilities r
  | None => []
  end.

(** One pass of the loop of [_monitor_agent_heartbeats]. *)
Definition _monitor_agent_heartbeats (p : AgentProtocol) (now : Z) : AgentProtocol :=
  with_registered_agents p
    ((fun registration =>
        if negb (is_alive settings registration now)
        then if AgentStatus.eqb (status registration) AgentStatus.ACTIVE
             then with_status registration AgentStatus.INACTIVE
             else registration
        else registration) <$> registered_agents p).

(** One pass of the loop of [_cleanup_expired_messages]. *)
Definition _cleanup_expired_messages (p : AgentProtocol) (now : Z) : AgentProtocol :=
  let history :=
    if (1000 <? length (message_history p))%nat
    then drop (length (message_history p) - 500) (message_history p)
    else message_history p in
  let one_hour_ago := now - timedelta_seconds 3600 in
  mkAgentProtocol (registered_agents p) history
    (filter (fun msg => one_hour_ago <= timestamp msg) (failed_messages p))
    (retry_threads p).

(** What can happen to the protocol object: a call of one of its public
    methods, the wake-up of a retry thread, or a pass of a background task. *)
Inductive Event : Type :=
| EvRegister (agent_name : string) (agent_instance : Handler)
    (capabilities : option (list AgentCapability)) (message_handler : option Handler)
    (now : Z)
| EvUnregister (agent_name : string) (now : Z)
| EvSend (message : AgentMessage) (now : Z)
| EvRetry (n : nat)
| EvHeartbeat (agent_name : string) (now : Z)
| EvMonitor (now : Z)
| EvCleanup (now : Z).

(** The [n]-th pending retry thread wakes up and runs. *)
Definition run_retry_thread (p : AgentProtocol) (n : nat) : AgentProtocol :=
  match retry_threads p !! n with
  | Some t =>
      retry_later settings
        (with_retry_threads p (take n (retry_threads p) ++ drop (S n) (retry_threads p))%list)
        (retry_message t)
  | None => p
  end.

Definition step (p : AgentProtocol) (e : Event) : AgentProtocol :=
  match e with
  | EvRegister agent_name agent_instance capabilities message_handler now =>
      register_agent p agent_name agent_instance capabilities message_handler now
  | EvUnregister agent_name now => unregister_agent p agent_name now
  | EvSend message now => snd (send_message settings p message now)
  | EvRetry n => run_retry_thread p n
  | EvHeartbeat agent_name now => send_heartbeat p agent_name now
  | EvMonitor now => _monitor_agent_heartbeats p now
  | EvCleanup now => _cleanup_expired_messages p now
  end.

Definition run (p : AgentProtocol) (events : list Event) : AgentProtocol :=
  foldl step p events.

(** The pending retry threads run one after the other, oldest first, with
    nothing in between: the delays slept, in order, and the protocol at the
    end.  The fuel bounds the number of wake-ups followed. *)
Fixpoint run_retries (fuel : nat) (p : AgentProtocol) : list Q * AgentProtocol :=
  match fuel with
  | O => ([], p)
  | S fuel =>
      match retry_threads p with
      | t :: threads =>
          let p := retry_later settings (with_retry_threads p threads) (retry_message t) in
          let (delays, p) := run_retries fuel p in
          (retry_delay t :: delays, p)
      | [] => ([], p)
      end
  end.

End Registry.

(** ** Deliveries nested in a handler

    The bus calls a handler while it holds its re-entrant lock, and the
    handlers of the agents call [protocol.send_message] from there: the
    ranking agent answers the sender and hands the ranking to the
    communication agent before its [receive_message] returns.  The
    functions of this module follow such nested calls.  Whether a handler
    returns or raises is given by the registered [Handler]; what it sends
    while it runs is given apart. *)

Module Reentrant.

(** What the handler of an agent passes to [protocol.send_message] while
    it handles a message: the messages, in the order of the calls, each
    with the time of its call.  A handler that raises sends what it sent
    before the exception. *)
Definition Sends : Type := string -> AgentMessage -> list (AgentMessage * Z).

(** A handler that sends nothing. *)
Definition silent : Sends := fun _ _ => [].

Section Reentrant.
Variable settings : Settings.
Variable sends : Sends.

(** [AgentProtocol.send_message] around a given delivery. *)
Definition send_message_with
    (deliver : AgentProtocol -> AgentMessage -> option (bool * AgentProtocol))
    (p : AgentProtocol) (message : AgentMessage) (now : Z)
  : option (bool * AgentProtocol) :=
  if negb (_validate_message message now) then Some (false, p)
  else
    match registered_agents p !! receiver message with
    | None => Some (false, with_failed_messages p (failed_messages p ++ [message])%list)
    | Some _ =>
        let p := with_message_history p (message_history p ++ [message])%list in
        match deliver p message with
        | None => None
        | Some (true, p) => Some (true, p)
        | Some (false, p) => Some (false, snd (_handle_delivery_failure settings p message))
        end
    end.

(** The calls of [send_message] that a handler makes, one after the other,
    each on the protocol as the previous one left it. *)
Fixpoint handler_sends
    (send : AgentProtocol -> AgentMessage -> Z -> option (bool * AgentProtocol))
    (p : AgentProtocol) (calls : list (AgentMessage * Z)) : option AgentProtocol :=
  match calls with
  | [] => Some p
  | (message, now) :: calls =>
      match send p message now with
      | None => None
      | Some (_, p) => handler_sends send p calls
      end
  end.

(** [AgentProtocol._deliver_message_sync] with the handler's own sends
    delivered inside it.  [depth] bounds the nesting of deliveries; the
    answer is [None] when the calls nest deeper. *)
Fixpoint _deliver_message_sync (depth : nat) (p : AgentProtocol) (message : AgentMessage)
  : option (bool * AgentProtocol) :=
  match depth with
  | O => None
  | S depth =>
      match registered_agents p !! receiver message with
      | None => Some (false, p)
      | Some receiver_reg =>
          let old_status := status receiver_reg in
          let p := set_status p (receiver message) AgentStatus.BUSY in
          let handler :=
            match message_handler receiver_reg with
            | Some handler => handler
            | None => agent_instance receiver_reg
            end in
          match handler_sends (send_message_with (_deliver_message_sync depth)) p
                  (sends (receiver message) message) with
          | None => None
          | Some p =>
              match handler message with
              | Returns => Some (true, set_status p (receiver message) old_status)
              | Raises => Some (false, set_status p (receiver message) AgentStatus.ERROR)
              end
          end
      end
  end.

(** [AgentProtocol.send_message], called at the time [now]. *)
Definition send_message (depth : nat) (p : AgentProtocol) (message : AgentMessage)
    (now : Z) : option (bool * AgentProtocol) :=
  send_message_with (_deliver_message_sync depth) p message now.

(** The body of a [retry_later] thread once its sleep is over. *)
Definition retry_later (depth : nat) (p : AgentProtocol) (message : AgentMessage)
  : option AgentProtocol :=
  match _deliver_message_sync depth p message with
  | None => None
  | Some (true, p) => Some p
  | Some (false, p) => Some (snd (_handle_delivery_failure settings p message))
  end.

(** The [n]-th pending retry thread wakes up and runs. *)
Definition run_retry_thread (depth : nat) (p : AgentProtocol) (n : nat)
  : option AgentProtocol :=
  match retry_threads p !! n with
  | Some t =>
      retry_later depth
        (with_retry_threads p (take n (retry_threads p) ++ drop (S n) (retry_threads p))%list)
        (retry_message t)
  | None => Some p
  end.

Variable uuid4 : string -> string.
Variable isoformat : Z -> string.

(** One event on the protocol.  The handlers send while a message or a
    retry is delivered to them; the other events are those of [step] (on a
    notification of the bus the agents send nothing). *)
Definition step (depth : nat) (p : AgentProtocol) (e : Event) : option AgentProtocol :=
  match e with
  | EvSend message now => snd <$> send_message depth p message now
  | EvRetry n => run_retry_thread depth p n
  | _ => Some (step settings uuid4 isoformat p e)
  end.

End Reentrant.

End Reentrant.

(** ** The comparison agent's neutral result
    ([ComparisonAgent._create_minimal_comparison_result]) *)

Definition _create_minimal_comparison_result : pydict :=
  [("similarity_score", PyFloat 0);
   ("skills_match",
     PyDict [("matched_skills", PyList []);
             ("missing_skills", PyList []);
             ("additional_skills", PyList [])]);
   ("experience_match",
     PyDict [("level_match", PyBool false);
             ("years_required", PyStr "Unknown");
             ("years_candidate", PyStr "Unknown");
             ("relevance_score", PyFloat 0)]);
   ("education_match",
     PyDict [("meets_requirements", PyBool false);
             ("education_score", PyFloat 0)]);
   ("overall_assessment",
     PyDict [("strengths", PyList [PyStr "Resume submitted"]);
             ("weaknesses", PyList [PyStr "Text extraction failed"]);
             ("recommendation", PyStr "not_recommended")]);
   ("detailed_feedback", PyStr "Unable to analyze resume - text extraction failed")].

(** The entry appended to [comparison_results] for an application
    (lines 159-165 of [compare_job_applications]). *)
Definition comparison_result_entry (app_id user_id : Z) (full_name : string)
    (comparison : pydict) : pydict :=
  [("application_id", PyInt app_id);
   ("user_id", PyInt user_id);
   ("applicant_name", PyStr full_name);
   ("similarity_score", dict_get comparison "similarity_score" PyNone);
   ("comparison_details", PyDict comparison)].

(** ** Messages an agent asks the bus to send ([BaseAgent.send_message] and
    direct calls of [protocol.send_message]) *)

Record SendRequest : Type := mkSendRequest {
  to : string;
  kind : MessageType.MessageType;
  body : pyval;
  in_reply_to : option string
}.

(** ** [RankingAgent.receive_message] *)

Section RankingHandler.
Variable str_to_float : string -> option Q.
Variable exn_str : exn -> string.
(** The text an f-string gives for a value. *)
Variable format_value : pyval -> string.
Context {Database : Type}.
Variable _clear_existing_rankings : Database -> pyval -> Database.
Variable _save_ranking : Database -> Ranking.Ranking -> option Z * Database.
Variable log_activity : Database -> string -> pydict -> Database.
Variable _generate_ranking_insights : list Ranking.Ranking -> pyval.
Variable time_time : Z -> Q.

(** The request sent on to the communication agent (lines 55-65). *)
Definition comm_message (message : AgentMessage) (job_id rankings : pyval) : SendRequest :=
  mkSendRequest "communication_agent" MessageType.REQUEST
    (PyDict [("action", PyStr "send_ranking_notification");
             ("job_id", job_id);
             ("rankings", rankings)])
    (Some (message_id message)).

(** The messages the handler sends, in order, and the database after. *)
Definition ranking_receive_message (db : Database) (message : AgentMessage)
  : list SendRequest * Database :=
  let error_reply (e : exn) :=
    mkSendRequest (sender message) MessageType.ERROR
      (PyDict [("status", PyStr "error"); ("message", PyStr (exn_str e))])
      (Some (message_id message)) in
  match message_type message with
  | MessageType.REQUEST =>
      match payload message with
      | PyDict task_data =>
          let action := dict_get task_data "action" PyNone in
          if eq_str action "rank_applications" then
            let (result, db) :=
              rank_applications str_to_float exn_str _clear_existing_rankings
                _save_ranking log_activity _generate_ranking_insights time_time
                db task_data in
            let response :=
              mkSendRequest (sender message) MessageType.RESPONSE (PyDict result)
                (Some (message_id message)) in
            match dict_item result "status" with
            | Ok status =>
                if (eq_str status "success"
                    && truthy (dict_get result "rankings" PyNone))%bool
                then
                  ([response;
                    comm_message message (dict_get task_data "job_id" PyNone)
                      (dict_get result "rankings" (PyList []))], db)
                else ([response], db)
            | Raise e => ([response; error_reply e], db)
            end
          else
            ([mkSendRequest (sender message) MessageType.ERROR
                (PyDict [("status", PyStr "error");
                         ("message", PyStr ("Unknown action: " ++ format_value action))])
                (Some (message_id message))], db)
      | _ => ([error_reply AttributeError], db)
      end
  | MessageType.NOTIFICATION =>
      match payload message with
      | PyDict _ => ([], db)
      | _ => ([error_reply AttributeError], db)
      end
  | _ => ([], db)
  end.

End RankingHandler.

(** ** [CommunicationAgent.send_ranking_notification] *)

(** A row of the [jobs] table as [_get_job_details] returns it. *)
Record JobDetails : Type := mkJobDetails {
  title : string;
  company_name : pyval;
  location : pyval;
  experience_level : pyval;
  posted_by : pyval
}.

(** One candidate block of the ranking email. *)
Record CandidateCard : Type := mkCandidateCard {
  card_position : Z;
  card_applicant_name : pyval;
  card_match_score : Q;
  card_application_id : pyval
}.

(** The two bodies a ranking notification can have; the HTML around the
    data is not modelled. *)
Inductive EmailContent : Type :=
| ranking_email_content (job_details : JobDetails) (cards : list CandidateCard)
| no_matches_email_content (job_details : JobDetails).

(** What is handed to [_send_email], which sends it over SMTP or, when
    SMTP is not configured or fails, logs it as a simulated send; it returns
    [True] on every path. *)
Record Email : Type := mkEmail {
  to_email : string;
  subject : string;
  content : EmailContent
}.

(** [len(v)] *)
Definition len (v : pyval) : res Z :=
  match v with
  | PyStr s => Ok (Z.of_nat (String.length s))
  | PyList l => Ok (Z.of_nat (length l))
  | PyDict d => Ok (Z.of_nat (length d))
  | _ => Raise TypeError
  end.

(** The items of [v[:3]] for a value that has a length: a list gives its
    first three items, a string its first three characters, a dictionary
    cannot be sliced. *)
Definition first_three (v : pyval) : res (list pyval) :=
  match v with
  | PyList l => Ok (take 3 l)
  | PyStr s =>
      Ok (map (fun c => PyStr (String c EmptyString)) (take 3 (list_ascii_of_string s)))
  | _ => Raise TypeError
  end.

(** [x * 100] followed by the comparisons with 80 and 60 and the
    [:.1f] format: defined on numbers only; the format converts an integer
    to a float. *)
Definition percent (x : pyval) : res Q :=
  match x with
  | PyBool b => Ok (if b then 100 else 0)%Q
  | PyInt n =>
      if float_overflows (n * 100) then Raise OverflowError
      else Ok (inject_Z (n * 100))
  | PyFloat q => Ok (q * 100)%Q
  | _ => Raise TypeError
  end.

(** The loop body of [_generate_ranking_email_content] (lines 373-387). *)
Definition candidate_card (i : Z) (candidate : pyval) : res CandidateCard :=
  match candidate with
  | PyDict candidate =>
      let* match_score :=
        match dict_find candidate "similarity_score" with
        | Some _ => percent (dict_get candidate "similarity_score" (PyInt 0))
        | None =>
            percent (dict_get candidate "enhanced_score"
                       (dict_get candidate "rank" (PyInt 0)))
        end in
      Ok (mkCandidateCard i (dict_get candidate "applicant_name" (PyStr "Unknown"))
            match_score (dict_get candidate "application_id" (PyStr "N/A")))
  | _ => Ok (mkCandidateCard i (PyStr "Unknown") 0 (PyStr "N/A"))
  end.

Fixpoint candidate_cards (i : Z) (candidates : list pyval) : res (list CandidateCard) :=
  match candidates with
  | [] => Ok []
  | candidate :: rest =>
      let* card := candidate_card i candidate in
      let* cards := candidate_cards (i + 1) rest in
      Ok (card :: cards)
  end.

Section CommunicationAgent.
Variable exn_str : exn -> string.
(** [SELECT ... FROM jobs WHERE id = %s]; [None] when there is no such row
    or the query fails. *)
Variable _get_job_details : pyval -> option JobDetails.
(** [SELECT email FROM users WHERE id = %s AND role = 'admin'] *)
Variable _get_recruiter_email : pyval -> option string.

(** The body of the [try] of [send_ranking_notification]: the response and
    the emails handed to [_send_email]. *)
Definition send_ranking_notification_try (task_data : pydict) : res (pydict * list Email) :=
  let job_id := dict_get task_data "job_id" PyNone in
  let rankings := dict_get task_data "rankings" (PyList []) in
  let* _n := len rankings in
  if negb (truthy job_id) then
    Ok ([("status", PyStr "error"); ("message", PyStr "Job ID required")], [])
  else
    match _get_job_details job_id with
    | None => Ok ([("status", PyStr "error"); ("message", PyStr "Job not found")], [])
    | Some job_details =>
        let recruiter_email :=
          match _get_recruiter_email (posted_by job_details) with
          | Some e => if String.eqb e "" then "admin@jobmatch.com" else e
          | None => "admin@jobmatch.com"
          end in
        let* top_candidates := (if truthy rankings then first_three rankings else Ok []) in
        let* email :=
          match top_candidates with
          | _ :: _ =>
              let* cards := candidate_cards 1 top_candidates in
              Ok (mkEmail recruiter_email
                    ("Top Candidates Found for " ++ title job_details)
                    (ranking_email_content job_details cards))
          | [] =>
              Ok (mkEmail recruiter_email
                    ("No Suitable Candidates Found for " ++ title job_details)
                    (no_matches_email_content job_details))
          end in
        Ok ([("status", PyStr "success");
             ("message", PyStr "Ranking notification sent successfully");
             ("recipient", PyStr recruiter_email);
             ("candidates_notified", PyInt (Z.of_nat (length top_candidates)))],
            [email])
    end.

Definition send_ranking_notification (task_data : pydict) : pydict * list Email :=
  match send_ranking_notification_try task_data with
  | Ok r => r
  | Raise e => ([("status", PyStr "error"); ("message", PyStr (exn_str e))], [])
  end.

(** The ranking emails the communication agent hands to [_send_email] when
    the bus delivers it the message [r]: the [send_ranking_notification]
    action of a request and the [ranking_completed] notification, as
    dispatched by [CommunicationAgent.receive_message] and
    [handle_notification].  The emails of the other actions are outside this
    model. *)
Definition communication_emails (r : SendRequest) : list Email :=
  match kind r, body r with
  | MessageType.REQUEST, PyDict task_data =>
      if eq_str (dict_get task_data "action" PyNone) "send_ranking_notification"
      then snd (send_ranking_notification task_data)
      else []
  | MessageType.NOTIFICATION, PyDict payload =>
      if eq_str (dict_get payload "type" PyNone) "ranking_completed"
      then snd (send_ranking_notification payload)
      else []
  | _, _ => []
  end.

End CommunicationAgent.

(** ** Sample collaborators and inputs

    An in-memory stand-in for the database of one job, and the inputs used
    by the examples below. *)

Definition sample_str_to_float (s : string) : option Q :=
  if String.eqb s "0.5" then Some (1 # 2) else None.

Definition sample_exn_str (e : exn) : string :=
  match e with
  | ValueError => "ValueError"
  | TypeError => "TypeError"
  | KeyError key => "'" ++ key ++ "'"
  | AttributeError => "AttributeError"
  | OverflowError => "int too large to convert to float"
  end.

Definition sample_clear (db : list Ranking.Ranking) (job_id : pyval) : list Ranking.Ranking :=
  [].

Definition sample_save (db : list Ranking.Ranking) (r : Ranking.Ranking)
  : option Z * list Ranking.Ranking :=
  (Some (Z.of_nat (S (length db))), (db ++ [r])%list).

Definition sample_log (db : list Ranking.Ranking) (action : string) (details : pydict)
  : list Ranking.Ranking := db.

Definition sample_insights (rankings : list Ranking.Ranking) : pyval := PyDict [].

Definition sample_time (i : Z) : Q := 0.

Definition sample_rank_applications (task_data : pydict) : pydict * list Ranking.Ranking :=
  rank_applications sample_str_to_float sample_exn_str sample_clear sample_save
    sample_log sample_insights sample_time [] task_data.

(** A result whose similarity score is out of range and whose details are
    not a dictionary. *)
Definition out_of_range_result : pyval :=
  PyDict [("application_id", PyInt 7);
          ("similarity_score", PyFloat (3 # 2));
          ("comparison_details", PyNone)].

(** Half similar and highly recommended. *)
Definition recommended_result : pydict :=
  [("application_id", PyInt 11);
   ("applicant_name", PyStr "Asha");
   ("similarity_score", PyFloat (1 # 2));
   ("comparison_details",
     PyDict [("overall_assessment",
               PyDict [("recommendation", PyStr "highly_recommended")])])].

(** The scores, as Python values, of the entries of a response's
    [rankings] list under a given key. *)
Definition response_scores (key : string) (response : pydict) : list pyval :=
  match dict_get response "rankings" (PyList []) with
  | PyList l =>
      map (fun entry =>
             match entry with
             | PyDict d => dict_get d key PyNone
             | _ => PyNone
             end) l
  | _ => []
  end.

(** ** Vocabulary of the statements about ranking *)

(** The enhanced score of a comparison result that is a dictionary. *)
Definition enhanced_score_of (str_to_float : string -> option Q) (result : pydict) : Q :=
  match _calculate_enhanced_score str_to_float (PyDict result) with
  | Ok q => q
  | Raise _ => 0%Q
  end.

(** The result as the scoring loop leaves it. *)
Definition scored (str_to_float : string -> option Q) (result : pydict) : pydict :=
  dict_set result "enhanced_score" (PyFloat (enhanced_score_of str_to_float result)).

Definition has_application_id (result : pydict) : Prop :=
  exists v, dict_find result "application_id" = Some v.

(** Every insert into the rankings table succeeds and returns a usable id. *)
Definition saves_succeed {Database : Type}
    (_save_ranking : Database -> Ranking.Ranking -> option Z * Database) : Prop :=
  forall db r, exists n db', _save_ranking db r = (Some n, db') /\ n <> 0.

(** The rank positions [first], [first + 1], ... of [n] candidates. *)
Fixpoint positions (first : Z) (n : nat) : list Z :=
  match n with
  | O => []
  | S n => first :: positions (first + 1) n
  end.

(** The enhanced score recorded in a ranking's metadata. *)
Definition metadata_entry (r : Ranking.Ranking) (key : string) : pyval :=
  match dict_get (Ranking.ranking_details r) "ranking_metadata" (PyDict []) with
  | PyDict metadata => dict_get metadata key PyNone
  | _ => PyNone
  end.

(** The ranking [r] is the one built for the comparison result [d]: its
    application id, and the enhanced score of [d] in both score fields. *)
Definition ranking_of (str_to_float : string -> option Q) (d : pydict)
    (r : Ranking.Ranking) : Prop :=
  dict_find d "application_id" = Some (Ranking.application_id r)
  /\ Ranking.similarity_score r = enhanced_score_of str_to_float d
  /\ metadata_entry r "enhanced_score" = PyFloat (enhanced_score_of str_to_float d)
  /\ metadata_entry r "rank_position" = PyInt (Ranking.rank_position r)
  /\ exists s, metadata_entry r "original_similarity_score" = PyFloat s
       /\ (float str_to_float (dict_get d "similarity_score" (PyFloat 0)) = Ok s
           \/ (s = 0%Q /\ forall q, float str_to_float
                                      (dict_get d "similarity_score" (PyFloat 0)) <> Ok q)
           \/ (s = 0%Q /\ dict_get d "similarity_score" (PyFloat 0) = PyNone)).

(** The ranking kept for a saved one: the identifier the insert returned
    and the applicant's name are filled in (lines 184-186). *)
Definition stored (r : Ranking.Ranking) (n : Z) (applicant_name : pyval)
  : Ranking.Ranking :=
  Ranking.mkRanking (Some n) (Ranking.job_id r) (Ranking.application_id r)
    (Ranking.similarity_score r) (Ranking.rank_position r)
    (Ranking.ranking_details r) applicant_name.

(** [kept_by_saves _save_ranking str_to_float job_id i db ranked rankings db']:
    a ranking of the job is built for each result of [ranked] at the
    positions [i], [i + 1], ... and handed to [_save_ranking] in that order,
    each save starting from the database the previous one left; [rankings]
    holds the rankings whose save returned an identifier other than 0, and
    [db'] is the database after the last save. *)
Inductive kept_by_saves {Database : Type}
    (_save_ranking : Database -> Ranking.Ranking -> option Z * Database)
    (str_to_float : string -> option Q) (job_id : pyval)
  : Z -> Database -> list pydict -> list Ranking.Ranking -> Database -> Prop :=
| kept_done i db : kept_by_saves _save_ranking str_to_float job_id i db [] [] db
| kept_saved i db d ranked r n db1 rankings db' :
    ranking_of str_to_float d r ->
    Ranking.job_id r = job_id ->
    Ranking.rank_position r = i ->
    Ranking.id r = None ->
    _save_ranking db r = (Some n, db1) ->
    n <> 0 ->
    kept_by_saves _save_ranking str_to_float job_id (i + 1) db1 ranked rankings db' ->
    kept_by_saves _save_ranking str_to_float job_id i db (d :: ranked)
      (stored r n (dict_get d "applicant_name" (PyStr "Unknown")) :: rankings) db'
| kept_failed i db d ranked r ranking_id db1 rankings db' :
    ranking_of str_to_float d r ->
    Ranking.job_id r = job_id ->
    Ranking.rank_position r = i ->
    Ranking.id r = None ->
    _save_ranking db r = (ranking_id, db1) ->
    ranking_id = None \/ ranking_id = Some 0 ->
    kept_by_saves _save_ranking str_to_float job_id (i + 1) db1 ranked rankings db' ->
    kept_by_saves _save_ranking str_to_float job_id i db (d :: ranked) rankings db'.

(** Descending order of the keys. *)
Definition descending {A : Type} (key : A -> Q) (l : list A) : Prop :=
  StronglySorted (fun a b => (key b <= key a)%Q) l.

(** The items of [l] whose key equals [v], in the order of [l]. *)
Definition with_key {A : Type} (key : A -> Q) (v : Q) (l : list A) : list A :=
  List.filter (fun x => Qeq_bool (key x) v) l.

(** A field of an entry of the response's [rankings] list. *)
Definition entry_field (entry : pyval) (key : string) : pyval :=
  match entry with
  | PyDict d => dict_get d key PyNone
  | _ => PyNone
  end.

(** A field of [entry['ranking_details']['ranking_metadata']]. *)
Definition entry_metadata (entry : pyval) (key : string) : pyval :=
  match entry_field entry "ranking_details" with
  | PyDict details =>
      match dict_get details "ranking_metadata" PyNone with
      | PyDict metadata => dict_get metadata key PyNone
      | _ => PyNone
      end
  | _ => PyNone
  end.

(** A job with two applications: the first scores lower than the second. *)
Definition sample_results : list pydict :=
  [comparison_result_entry 21 5 "Ben" _create_minimal_comparison_result;
   recommended_result].

Definition sample_task : pydict :=
  [("job_id", PyInt 1);
   ("comparison_results", PyList (map PyDict sample_results))].

Definition sample_response : pydict := fst (sample_rank_applications sample_task).

Definition sample_entries : list pyval :=
  match dict_get sample_response "rankings" (PyList []) with
  | PyList l => l
  | _ => []
  end.

(** ** Vocabulary of the statements about the bus *)

(** The handler the bus calls for a registration. *)
Definition handler_of (r : AgentRegistration) : Handler :=
  match message_handler r with
  | Some handler => handler
  | None => agent_instance r
  end.

(** The agent is registered and its handler raises on every message. *)
Definition always_raises (p : AgentProtocol) (agent_name : string) : Prop :=
  exists r, registered_agents p !! agent_name = Some r
            /\ forall m, handler_of r m = Raises.

(** The agents registered stay registered. *)
Definition keeps_registered (p q : AgentProtocol) : Prop :=
  forall x, is_Some (registered_agents p !! x) -> is_Some (registered_agents q !! x).

(** The messages of the history stay in the history. *)
Definition keeps_history (p q : AgentProtocol) : Prop :=
  forall id, In id (map message_id (message_history p)) ->
             In id (map message_id (message_history q)).

(** No agent other than those ACTIVE before is ACTIVE after. *)
Definition activates_nobody (x : string) (p q : AgentProtocol) : Prop :=
  status_of q x = Some AgentStatus.ACTIVE -> status_of p x = Some AgentStatus.ACTIVE.

(** The delays [min(2^N, 5)] for [N = first, first + 1, ...], [n] of them. *)
Definition retry_delays (first : Z) (n : nat) : list Q :=
  map (fun N => Qmin (Qpower 2 N) 5) (positions first n).

(** A pending retry obeys the policy: its message's count is within the
    bound and it sleeps [min(2^count, 5)]. *)
Definition within_policy (settings : Settings) (t : RetryThread) : Prop :=
  retry_count (retry_message t) <= A2A_MAX_RETRIES settings
  /\ retry_delay t = Qmin (Qpower 2 (retry_count (retry_message t))) 5.

(** ** Sample agents and messages *)

Definition failing_handler : Handler := fun _ => Raises.

Definition accepting_handler : Handler := fun _ => Returns.

(** A bus with the ranking agent registered, under a given handler and
    status. *)
Definition sample_protocol (h : Handler) (s : AgentStatus.AgentStatus) : AgentProtocol :=
  mkAgentProtocol
    {[ "ranking_agent" := mkAgentRegistration "ranking_agent" h [] s 0 None ]}
    [] [] [].

(** A request built at time 0 under the default settings: it expires 30
    seconds later. *)
Definition sample_message : AgentMessage :=
  new_AgentMessage default_settings "comparison_agent" "ranking_agent"
    MessageType.REQUEST (PyDict [("action", PyStr "rank_applications")])
    "m-1" 0 None MessagePriority.NORMAL 0 None false.

(** The same request addressed to an agent nobody registered. *)
Definition stray_message : AgentMessage :=
  new_AgentMessage default_settings "comparison_agent" "archive_agent"
    MessageType.REQUEST (PyDict [("action", PyStr "rank_applications")])
    "m-2" 0 None MessagePriority.NORMAL 0 None false.

(** A message built at time 1000 s with an expiry the caller set to 0. *)
Definition backdated_message : AgentMessage :=
  new_AgentMessage default_settings "comparison_agent" "ranking_agent"
    MessageType.REQUEST (PyDict []) "m-3" 1000000000 None
    MessagePriority.NORMAL 0 (Some 0) false.


(** A handler that returns on a request and raises on everything else. *)
Definition requests_only_handler : Handler :=
  fun message =>
    match message_type message with
    | MessageType.REQUEST => Returns
    | _ => Raises
    end.

(** A bus with two agents, both ACTIVE: the comparison agent, whose
    handler raises on what is not a request, and the ranking agent. *)
Definition nested_protocol : AgentProtocol :=
  mkAgentProtocol
    {[ "comparison_agent" :=
         mkAgentRegistration "comparison_agent" requests_only_handler [] AgentStatus.ACTIVE
           0 None;
       "ranking_agent" :=
         mkAgentRegistration "ranking_agent" accepting_handler [] AgentStatus.ACTIVE
           0 None ]}
    [] [] [].

(** The request that starts a comparison. *)
Definition start_message : AgentMessage :=
  new_AgentMessage default_settings "web_app" "comparison_agent"
    MessageType.REQUEST (PyDict [("action", PyStr "compare_applications")])
    "m-0" 0 None MessagePriority.NORMAL 0 None false.

(** The answer of the ranking agent to the sender of the sample request. *)
Definition ranking_answer : AgentMessage :=
  new_AgentMessage default_settings "ranking_agent" "comparison_agent"
    MessageType.RESPONSE (PyDict [("status", PyStr "success")])
    "m-5" 0 (Some "m-1") MessagePriority.NORMAL 0 None false.

(** The comparison agent passes the sample request on to the ranking agent
    while it handles the start request; the ranking agent answers the
    sender while it handles the sample request. *)
Definition nested_sends : Reentrant.Sends :=
  fun agent_name message =>
    if (String.eqb agent_name "comparison_agent"
        && String.eqb (message_id message) "m-0")%bool
    then [(sample_message, 1000000)]
    else if (String.eqb agent_name "ranking_agent"
             && String.eqb (message_id message) "m-1")%bool
    then [(ranking_answer, 1000000)]
    else [].

(** The protocol when the handler of the comparison agent is about to
    return from the start request. *)
Definition nested_inside : option AgentProtocol :=
  Reentrant.handler_sends
    (Reentrant.send_message default_settings nested_sends 2)
    (set_status
       (with_message_history nested_protocol [start_message])
       "comparison_agent" AgentStatus.BUSY)
    (nested_sends "comparison_agent" start_message).

(** The recipient of a ranking notification: the recruiter, or the
    administrator when the recruiter has no address. *)
Definition recipient_of (_get_recruiter_email : pyval -> option string)
    (job_details : JobDetails) : string :=
  match _get_recruiter_email (posted_by job_details) with
  | Some e => if String.eqb e "" then "admin@jobmatch.com" else e
  | None => "admin@jobmatch.com"
  end.

(** ** A sample run of the pipeline on neutral comparison results *)

(** Two applications for which the comparison agent produced its neutral
    result: similarity score 0, nothing matched, not recommended. *)
Definition zero_results : list pydict :=
  [comparison_result_entry 21 5 "Ben" _create_minimal_comparison_result;
   comparison_result_entry 22 6 "Cy" _create_minimal_comparison_result].

(** The request the comparison agent sends on to the ranking agent. *)
Definition rank_request : AgentMessage :=
  new_AgentMessage default_settings "comparison_agent" "ranking_agent"
    MessageType.REQUEST
    (PyDict [("action", PyStr "rank_applications");
             ("job_id", PyInt 1);
             ("comparison_results", PyList (map PyDict zero_results))])
    "m-4" 0 (Some "m-0") MessagePriority.NORMAL 0 None false.

Definition sample_job : JobDetails :=
  mkJobDetails "Engineer" (PyStr "Acme") (PyStr "Pune") (PyStr "Senior") (PyInt 9).

Definition sample_get_job_details (job_id : pyval) : option JobDetails :=
  match job_id with
  | PyInt 1 => Some sample_job
  | _ => None
  end.

Definition sample_get_recruiter_email (user_id : pyval) : option string :=
  Some "hr@acme.example".

Definition sample_format_value (v : pyval) : string := "?".

(** What the ranking agent sends when the bus hands it [rank_request]. *)
Definition sample_ranking_sends : list SendRequest :=
  fst (ranking_receive_message sample_str_to_float sample_exn_str sample_format_value
         sample_clear sample_save sample_log sample_insights sample_time []
         rank_request).

(** The emails the communication agent produces for those messages. *)
Definition sample_pipeline_emails : list Email :=
  flat_map
    (communication_emails sample_exn_str sample_get_job_details
       sample_get_recruiter_email)
    sample_ranking_sends.

(** The ranked entries carried by a request to the communication agent. *)
Definition request_scores (key : string) (r : SendRequest) : list pyval :=
  match body r with
  | PyDict d => response_scores key d
  | _ => []
  end.

(** ** Vocabulary of the statements about scoring *)

(** The value is an integer that [float] does not convert. *)
Definition oversized (v : pyval) : bool :=
  match v with
  | PyInt n => float_overflows n
  | _ => false
  end.

(** The value is not a string.  A string may spell nan, an infinity or a
    number beyond the floats, which [float] converts to a value that is
    not a finite float. *)
Definition not_text (v : pyval) : Prop :=
  match v with
  | PyStr _ => False
  | _ => True
  end.

(** The similarity score of the result is not an integer too large for a
    float: the scoring engine returns a score for the result. *)
Definition scorable (result : pydict) : Prop :=
  oversized (dict_get result "similarity_score" (PyFloat 0)) = false.

(** The relevance score of the experience section, when there is one, is
    not an integer too large for a float. *)
Definition relevance_fits (details : pydict) : Prop :=
  match dict_get details "experience_match" (PyDict []) with
  | PyDict experience_match =>
      oversized (dict_get experience_match "relevance_score" (PyInt 0)) = false
  | _ => True
  end.

(** The scores that the scoring engine computes with are finite floats:
    the result is [scorable], and neither its similarity score nor the
    relevance score of its experience section is given as text. *)
Definition finite_scores (result : pydict) : Prop :=
  scorable result
  /\ not_text (dict_get result "similarity_score" (PyFloat 0))
  /\ match dict_get result "comparison_details" (PyDict []) with
     | PyDict details =>
         match dict_get details "experience_match" (PyDict []) with
         | PyDict experience_match =>
             not_text (dict_get experience_match "relevance_score" (PyInt 0))
         | _ => True
         end
     | _ => True
     end.

(** The similarity score as the scoring engine reads it (lines 244-248). *)
Definition base_score_of (str_to_float : string -> option Q) (result : pydict) : res Q :=
  if is_none (dict_get result "similarity_score" (PyFloat 0)) then Ok 0%Q
  else float str_to_float (dict_get result "similarity_score" (PyFloat 0)).

(** The score before the clamp of line 302, from the base score and the
    details (lines 255-299). *)
Definition adjusted_score (str_to_float : string -> option Q) (details : pydict) (b : Q)
  : res Q :=
  let* e := experience_adjustment str_to_float details (skills_adjustment details b) in
  Ok (assessment_adjustment details (education_adjustment details e)).

(** [max(0.0, min(1.0, q))] *)
Definition clamp (q : Q) : Q := Qmax 0 (Qmin 1 q).

(** The details hold nothing usable under [key]: no entry, or an entry that
    is not a dictionary. *)
Definition unusable (details : pydict) (key : string) : Prop :=
  match dict_find details key with
  | None => True
  | Some v => is_dict v = false
  end.

(** A result whose details hold a malformed skills entry and nothing else:
    similarity 9/10. *)
Definition malformed_details_result : pydict :=
  [("application_id", PyInt 31);
   ("similarity_score", PyFloat (9 # 10));
   ("comparison_details", PyDict [("skills_match", PyStr "n/a")])].

(** The same details as [recommended_result] with a lower similarity. *)
Definition less_similar_result : pydict :=
  [("application_id", PyInt 12);
   ("similarity_score", PyFloat (3 # 10));
   ("comparison_details",
     PyDict [("overall_assessment",
               PyDict [("recommendation", PyStr "highly_recommended")])])].

(** A save that fails for the candidate ranked first and succeeds for the
    others. *)
Definition flaky_save (db : list Ranking.Ranking) (r : Ranking.Ranking)
  : option Z * list Ranking.Ranking :=
  if Ranking.rank_position r =? 1 then (None, db)
  else (Some (Z.of_nat (S (length db))), (db ++ [r])%list).

(** A request whose second result is not a dictionary. *)
Definition broken_task : pydict :=
  [("job_id", PyInt 1);
   ("comparison_results", PyList [PyDict recommended_result; PyStr "lost"])].

(** The notification [_broadcast_agent_event] builds for a receiver. *)
Definition event_message (settings : Settings) (uuid4 : string -> string)
    (isoformat : Z -> string) (agent_name event_type : string) (now : Z)
    (reg_name : string) : AgentMessage :=
  new_AgentMessage settings "system" reg_name MessageType.NOTIFICATION
    (PyDict [("event_type", PyStr event_type);
             ("agent_name", PyStr agent_name);
             ("timestamp", PyStr (isoformat now))])
    (uuid4 reg_name) now None MessagePriority.NORMAL 0 None false.

(** One turn of the loop of [_broadcast_agent_event]. *)
Definition notify_one (settings : Settings) (uuid4 : string -> string)
    (isoformat : Z -> string) (agent_name event_type : string) (now : Z)
    (p : AgentProtocol) (reg_name : string) : AgentProtocol :=
  match status_of p reg_name with
  | Some AgentStatus.ACTIVE =>
      if String.eqb reg_name agent_name then p
      else snd (_deliver_message_sync p
                  (event_message settings uuid4 isoformat agent_name event_type now
                     reg_name))
  | _ => p
  end.

(** The status a registration has after a broadcast about [agent_name]:
    an ACTIVE agent other than [agent_name] is handed the notification and
    is in ERROR when its handler raises; any other agent is left alone. *)
Definition notified_status (settings : Settings) (uuid4 : string -> string)
    (isoformat : Z -> string) (agent_name event_type : string) (now : Z)
    (reg_name : string) (r : AgentRegistration) : AgentStatus.AgentStatus :=
  if (AgentStatus.eqb (status r) AgentStatus.ACTIVE
      && negb (String.eqb reg_name agent_name))%bool
  then match handler_of r (event_message settings uuid4 isoformat agent_name
                             event_type now reg_name) with
       | Returns => AgentStatus.ACTIVE
       | Raises => AgentStatus.ERROR
       end
  else status r.

(** A bus with three agents: the first raises on every message, the second
    returns, the third is INACTIVE. *)
Definition three_agents : AgentProtocol :=
  mkAgentProtocol
    (<["comparison_agent" :=
         mkAgentRegistration "comparison_agent" failing_handler [] AgentStatus.ACTIVE 0 None]>
       (<["ranking_agent" :=
            mkAgentRegistration "ranking_agent" accepting_handler [] AgentStatus.ACTIVE 0
              None]>
          {[ "communication_agent" :=
               mkAgentRegistration "communication_agent" failing_handler []
                 AgentStatus.INACTIVE 0 None ]}))
    [] [] [].

(** ** Serialisation of messages *)

(** [MessageType.value] and the lookup [MessageType(value)], which raises
    [ValueError] for anything that is not the value of a member. *)
Definition MessageType_value (t : MessageType.MessageType) : string :=
  match t with
  | MessageType.REQUEST => "request"
  | MessageType.RESPONSE => "response"
  | MessageType.NOTIFICATION => "notification"
  | MessageType.ERROR => "error"
  | MessageType.HEARTBEAT => "heartbeat"
  | MessageType.ACK => "acknowledgment"
  end.

Definition MessageType_of_value (v : pyval) : res MessageType.MessageType :=
  match v with
  | PyStr s =>
      if String.eqb s "request" then Ok MessageType.REQUEST
      else if String.eqb s "response" then Ok MessageType.RESPONSE
      else if String.eqb s "notification" then Ok MessageType.NOTIFICATION
      else if String.eqb s "error" then Ok MessageType.ERROR
      else if String.eqb s "heartbeat" then Ok MessageType.HEARTBEAT
      else if String.eqb s "acknowledgment" then Ok MessageType.ACK
      else Raise ValueError
  | _ => Raise ValueError
  end.

Definition MessagePriority_value (x : MessagePriority.MessagePriority) : Z :=
  match x with
  | MessagePriority.LOW => 1
  | MessagePriority.NORMAL => 2
  | MessagePriority.HIGH => 3
  | MessagePriority.CRITICAL => 4
  end.

Definition MessagePriority_of_int (n : Z) : res MessagePriority.MessagePriority :=
  if n =? 1 then Ok MessagePriority.LOW
  else if n =? 2 then Ok MessagePriority.NORMAL
  else if n =? 3 then Ok MessagePriority.HIGH
  else if n =? 4 then Ok MessagePriority.CRITICAL
  else Raise ValueError.

(** [MessagePriority(value)]: the lookup is by equality, so [True] and
    [1.0] find the member of value 1. *)
Definition MessagePriority_of_value (v : pyval) : res MessagePriority.MessagePriority :=
  match v with
  | PyInt n => MessagePriority_of_int n
  | PyBool b => MessagePriority_of_int (if b then 1 else 0)
  | PyFloat q =>
      if Qeq_bool q 1 then Ok MessagePriority.LOW
      else if Qeq_bool q 2 then Ok MessagePriority.NORMAL
      else if Qeq_bool q 3 then Ok MessagePriority.HIGH
      else if Qeq_bool q 4 then Ok MessagePriority.CRITICAL
      else Raise ValueError
  | _ => Raise ValueError
  end.

(** [datetime.fromisoformat(v)]: a [TypeError] when [v] is not a string, a
    [ValueError] when the string is not a date; the parser itself is the
    library's. *)
Definition datetime_fromisoformat (fromisoformat : string -> option Z) (v : pyval)
  : res Z :=
  match v with
  | PyStr s => match fromisoformat s with
               | Some t => Ok t
               | None => Raise ValueError
               end
  | _ => Raise TypeError
  end.

(** [AgentMessage.to_dict] *)
Definition to_dict (isoformat : Z -> string) (m : AgentMessage) : pydict :=
  [ ("sender", PyStr (sender m));
    ("receiver", PyStr (receiver m));
    ("message_type", PyStr (MessageType_value (message_type m)));
    ("payload", payload m);
    ("message_id", PyStr (message_id m));
    ("timestamp", PyStr (isoformat (timestamp m)));
    ("correlation_id",
       match correlation_id m with Some c => PyStr c | None => PyNone end);
    ("priority", PyInt (MessagePriority_value (priority m)));
    ("retry_count", PyInt (retry_count m));
    ("expires_at",
       match expires_at m with Some e => PyStr (isoformat e) | None => PyNone end);
    ("requires_ack", PyBool (requires_ack m)) ].

(** The dataclass does not check the types of its fields.  The arguments
    that [from_dict] passes on unchecked are typed here: a message whose
    fields do not have the declared types has no counterpart in
    [AgentMessage], and the result is [None] for it. *)
Definition typed_AgentMessage (settings : Settings)
    (sender receiver : pyval) (message_type : MessageType.MessageType)
    (payload message_id : pyval) (timestamp : Z) (correlation_id : pyval)
    (priority : MessagePriority.MessagePriority) (retry_count : pyval)
    (expires_at : option Z) (requires_ack : pyval) : option AgentMessage :=
  match sender, receiver, message_id, retry_count, requires_ack with
  | PyStr s, PyStr r, PyStr i, PyInt n, PyBool a =>
      match correlation_id with
      | PyNone =>
          Some (new_AgentMessage settings s r message_type payload i timestamp None
                  priority n expires_at a)
      | PyStr c =>
          Some (new_AgentMessage settings s r message_type payload i timestamp (Some c)
                  priority n expires_at a)
      | _ => None
      end
  | _, _, _, _, _ => None
  end.

(** [AgentMessage.from_dict]; the arguments of the constructor are
    evaluated in the order in which they are written. *)
Definition from_dict (settings : Settings) (fromisoformat : string -> option Z)
    (data : pydict) : res (option AgentMessage) :=
  let* sender := dict_item data "sender" in
  let* receiver := dict_item data "receiver" in
  let* message_type_value := dict_item data "message_type" in
  let* message_type := MessageType_of_value message_type_value in
  let* payload := dict_item data "payload" in
  let* message_id := dict_item data "message_id" in
  let* timestamp_value := dict_item data "timestamp" in
  let* timestamp := datetime_fromisoformat fromisoformat timestamp_value in
  let correlation_id := dict_get data "correlation_id" PyNone in
  let* priority :=
    MessagePriority_of_value
      (dict_get data "priority" (PyInt (MessagePriority_value MessagePriority.NORMAL))) in
  let retry_count := dict_get data "retry_count" (PyInt 0) in
  let* expires_at :=
    if truthy (dict_get data "expires_at" PyNone)
    then let* e := (let* v := dict_item data "expires_at" in
                    datetime_fromisoformat fromisoformat v) in
         Ok (Some e)
    else Ok None in
  let requires_ack := dict_get data "requires_ack" (PyBool false) in
  Ok (typed_AgentMessage settings sender receiver message_type payload message_id
        timestamp correlation_id priority retry_count expires_at requires_ack).

(** The keys that [from_dict] reads with [data[key]]. *)
Definition required_keys : list string :=
  ["sender"; "receiver"; "message_type"; "payload"; "message_id"; "timestamp"].

(** A calendar of two instants, enough to print and read back the sample
    message. *)
Definition sample_isoformat (t : Z) : string :=
  if t =? 0 then "1970-01-01T00:00:00"
  else if t =? 30000000 then "1970-01-01T00:00:30"
  else "".

Definition sample_fromisoformat (s : string) : option Z :=
  if String.eqb s "1970-01-01T00:00:00" then Some 0
  else if String.eqb s "1970-01-01T00:00:30" then Some 30000000
  else None.

(** ** The comparison agent ([agents/comparison_agent.py]) *)

(** [ComparisonAgent._create_error_comparison_result] *)
Definition _create_error_comparison_result (error_message : string) : pydict :=
  [("similarity_score", PyFloat 0);
   ("skills_match",
     PyDict [("matched_skills", PyList []);
             ("missing_skills", PyList []);
             ("additional_skills", PyList [])]);
   ("experience_match",
     PyDict [("level_match", PyBool false);
             ("years_required", PyStr "Unknown");
             ("years_candidate", PyStr "Unknown");
             ("relevance_score", PyFloat 0)]);
   ("education_match",
     PyDict [("meets_requirements", PyBool false);
             ("education_score", PyFloat 0)]);
   ("overall_assessment",
     PyDict [("strengths", PyList []);
             ("weaknesses", PyList [PyStr "Processing error"]);
             ("recommendation", PyStr "not_recommended")]);
   ("detailed_feedback", PyStr ("Error during analysis: " ++ error_message))].

(** [key in d] *)
Definition dict_has (d : pydict) (key : string) : bool :=
  match dict_find d key with
  | Some _ => true
  | None => false
  end.

(** [isinstance(v, (int, float))]; a [bool] is an [int]. *)
Definition is_number (v : pyval) : bool :=
  match v with
  | PyBool _ | PyInt _ | PyFloat _ => true
  | _ => false
  end.

(** [if key not in d: d[key] = v] *)
Definition ensure_key (d : pydict) (key : string) (v : pyval) : pydict :=
  if dict_has d key then d else dict_set d key v.

(** [v > 0] *)
Definition positive (v : pyval) : res bool :=
  match v with
  | PyBool b => Ok b
  | PyInt n => Ok (0 <? n)
  | PyFloat q => Ok (Qltb 0 q)
  | _ => Raise TypeError
  end.

(** [len([r for r in comparison_results if r['similarity_score'] > 0])] *)
Fixpoint successful_comparisons (comparison_results : list pydict) : res Z :=
  match comparison_results with
  | [] => Ok 0
  | r :: rest =>
      let* score := dict_item r "similarity_score" in
      let* b := positive score in
      let* n := successful_comparisons rest in
      Ok (if b then 1 + n else n)
  end.

Section ComparisonAgent.
Variable str_to_float : string -> option Q.
Variable exn_str : exn -> string.
Variable format_value : pyval -> string.
(** [s.strip()] *)
Variable strip : string -> string.
Context {Database : Type}.
(** The queries of the agent, which catch their own exceptions:
    [_get_job_details] answers [None] and [_get_job_applications] the empty
    list when the query fails. *)
Variable _get_job_details : Database -> pyval -> option pydict.
Variable _get_job_applications : Database -> pyval -> list pydict.
(** [_get_resume_text] reads a file and may update the application. *)
Variable _get_resume_text : Database -> pydict -> res string * Database.
(** [GeminiService.compare_resume_job]: whatever the service answers. *)
Variable compare_resume_job : string -> pyval -> res pyval.
Variable log_activity : Database -> string -> pydict -> Database.

(** [ComparisonAgent._validate_comparison_result]; on a value that is not
    a dictionary the membership test or the item assignment raises. *)
Definition _validate_comparison_result (comparison : pyval) : res pydict :=
  match comparison with
  | PyDict comparison =>
      let comparison :=
        if (negb (dict_has comparison "similarity_score")
            || negb (is_number (dict_get comparison "similarity_score" PyNone)))%bool
        then dict_set comparison "similarity_score" (PyFloat 0)
        else comparison in
      let* score := dict_item comparison "similarity_score" in
      let* score := float str_to_float score in
      let comparison :=
        dict_set comparison "similarity_score" (PyFloat (Qmax 0 (Qmin 1 score))) in
      let comparison :=
        ensure_key comparison "skills_match"
          (PyDict [("matched_skills", PyList []);
                   ("missing_skills", PyList []);
                   ("additional_skills", PyList [])]) in
      let comparison :=
        ensure_key comparison "experience_match"
          (PyDict [("level_match", PyBool false);
                   ("years_required", PyStr "Not specified");
                   ("years_candidate", PyStr "Not specified");
                   ("relevance_score", PyFloat 0)]) in
      let comparison :=
        ensure_key comparison "education_match"
          (PyDict [("meets_requirements", PyBool false);
                   ("education_score", PyFloat 0)]) in
      let comparison :=
        ensure_key comparison "overall_assessment"
          (PyDict [("strengths", PyList []);
                   ("weaknesses", PyList []);
                   ("recommendation", PyStr "not_recommended")]) in
      let comparison :=
        ensure_key comparison "detailed_feedback" (PyStr "Analysis completed") in
      Ok comparison
  | _ => Raise TypeError
  end.

(** The body of the inner [try] for one application (lines 143-172): the
    entry for [comparison_results], and the database after. *)
Definition compare_try (db : Database) (job_id : pyval) (job_details app : pydict)
  : res pydict * Database :=
  let (resume_text, db) := _get_resume_text db app in
  match resume_text with
  | Raise e => (Raise e, db)
  | Ok resume_text =>
      let comparison :=
        if (String.eqb resume_text ""
            || (Z.of_nat (String.length (strip resume_text)) <? 10))%bool
        then Ok (PyDict _create_minimal_comparison_result)
        else
          let* description := dict_item job_details "description" in
          compare_resume_job resume_text
            (if truthy description then description
             else PyStr "No job description available") in
      match (let* comparison := comparison in
             let* comparison := _validate_comparison_result comparison in
             let* id := dict_item app "id" in
             let* user_id := dict_item app "user_id" in
             let* full_name := dict_item app "full_name" in
             let* score := dict_item comparison "similarity_score" in
             Ok ([("application_id", id);
                  ("user_id", user_id);
                  ("applicant_name", full_name);
                  ("similarity_score", score);
                  ("comparison_details", PyDict comparison)], id, score)) with
      | Raise e => (Raise e, db)
      | Ok (entry, id, score) =>
          (Ok entry,
           log_activity db "resume_comparison"
             [("job_id", job_id); ("application_id", id); ("similarity_score", score)])
      end
  end.

(** One turn of the loop over the applications (lines 140-182): the log
    line that reads [app['id']] and [app['user_id']], then the inner [try]
    and its handler. *)
Definition compare_application (db : Database) (job_id : pyval)
    (job_details app : pydict) : res pydict * Database :=
  match (let* _ := dict_item app "id" in dict_item app "user_id") with
  | Raise e => (Raise e, db)
  | Ok _ =>
      let (attempt, db) := compare_try db job_id job_details app in
      match attempt with
      | Ok entry => (Ok entry, db)
      | Raise e =>
          (let* id := dict_item app "id" in
           let* user_id := dict_item app "user_id" in
           let* full_name := dict_item app "full_name" in
           Ok [("application_id", id);
               ("user_id", user_id);
               ("applicant_name", full_name);
               ("similarity_score", PyFloat 0);
               ("comparison_details",
                  PyDict (_create_error_comparison_result (exn_str e)))],
           db)
      end
  end.

Fixpoint compare_applications (db : Database) (job_id : pyval) (job_details : pydict)
    (applications : list pydict) : res (list pydict) * Database :=
  match applications with
  | [] => (Ok [], db)
  | app :: rest =>
      let (entry, db) := compare_application db job_id job_details app in
      match entry with
      | Raise e => (Raise e, db)
      | Ok entry =>
          let (entries, db) := compare_applications db job_id job_details rest in
          (let* entries := entries in Ok (entry :: entries), db)
      end
  end.

(** [ComparisonAgent.compare_job_applications]: the response and the
    database after. *)
Definition compare_job_applications (db : Database) (task_data : pydict)
  : pydict * Database :=
  let job_id := dict_get task_data "job_id" PyNone in
  if negb (truthy job_id)
  then ([("status", PyStr "error"); ("message", PyStr "Job ID required")], db)
  else
    let not_found :=
      [("status", PyStr "error");
       ("message", PyStr ("Job " ++ format_value job_id ++ " not found"))] in
    match _get_job_details db job_id with
    | None => (not_found, db)
    | Some [] => (not_found, db)
    | Some job_details =>
        match _get_job_applications db job_id with
        | [] =>
            ([("status", PyStr "error");
              ("message", PyStr "No applications found for this job")], db)
        | applications =>
            let (comparison_results, db) :=
              compare_applications db job_id job_details applications in
            match (let* comparison_results := comparison_results in
                   let* successful := successful_comparisons comparison_results in
                   Ok (comparison_results, successful)) with
            | Ok (comparison_results, successful) =>
                ([("status", PyStr "success");
                  ("job_id", job_id);
                  ("total_applications", PyInt (Z.of_nat (length applications)));
                  ("successful_comparisons", PyInt successful);
                  ("comparison_results", PyList (map PyDict comparison_results))], db)
            | Raise e =>
                ([("status", PyStr "error"); ("message", PyStr (exn_str e))], db)
            end
        end
    end.

(** The request sent on to the ranking agent (lines 57-67). *)
Definition ranking_message (message : AgentMessage) (job_id comparison_results : pyval)
  : SendRequest :=
  mkSendRequest "ranking_agent" MessageType.REQUEST
    (PyDict [("action", PyStr "rank_applications");
             ("job_id", job_id);
             ("comparison_results", comparison_results)])
    (Some (message_id message)).

(** [ComparisonAgent.receive_message]: the messages the handler sends, in
    order, and the database after. *)
Definition comparison_receive_message (db : Database) (message : AgentMessage)
  : list SendRequest * Database :=
  let error_reply (e : exn) :=
    mkSendRequest (sender message) MessageType.ERROR
      (PyDict [("status", PyStr "error"); ("message", PyStr (exn_str e))])
      (Some (message_id message)) in
  match message_type message with
  | MessageType.REQUEST =>
      match payload message with
      | PyDict task_data =>
          let action := dict_get task_data "action" PyNone in
          if eq_str action "compare_applications" then
            let (result, db) := compare_job_applications db task_data in
            let response :=
              mkSendRequest (sender message) MessageType.RESPONSE (PyDict result)
                (Some (message_id message)) in
            match dict_item result "status" with
            | Ok status =>
                if (eq_str status "success"
                    && truthy (dict_get result "comparison_results" PyNone))%bool
                then
                  ([response;
                    ranking_message message (dict_get task_data "job_id" PyNone)
                      (dict_get result "comparison_results" PyNone)], db)
                else ([response], db)
            | Raise e => ([response; error_reply e], db)
            end
          else
            ([mkSendRequest (sender message) MessageType.ERROR
                (PyDict [("status", PyStr "error");
                         ("message", PyStr ("Unknown action: " ++ format_value action))])
                (Some (message_id message))], db)
      | _ => ([error_reply AttributeError], db)
      end
  | MessageType.NOTIFICATION =>
      match payload message with
      | PyDict _ => ([], db)
      | _ => ([error_reply AttributeError], db)
      end
  | _ => ([], db)
  end.

End ComparisonAgent.

(** An application row has the columns the loop reads. *)
Definition application_row (app : pydict) : Prop :=
  dict_has app "id" = true /\ dict_has app "user_id" = true
  /\ dict_has app "full_name" = true.

(** The entry of [comparison_results] made for an application: it carries
    the application's id, user and name, and a score in the unit interval. *)
Definition entry_of (app entry : pydict) : Prop :=
  dict_find entry "application_id" = dict_find app "id"
  /\ dict_find entry "user_id" = dict_find app "user_id"
  /\ dict_find entry "applicant_name" = dict_find app "full_name"
  /\ exists q, dict_find entry "similarity_score" = Some (PyFloat q)
               /\ (0 <= q <= 1)%Q.

(** The keys every validated comparison holds. *)
Definition comparison_keys : list string :=
  ["similarity_score"; "skills_match"; "experience_match"; "education_match";
   "overall_assessment"; "detailed_feedback"].

(** The sections that [_validate_comparison_result] adds when they are
    missing (lines 263-293). *)
Definition with_default_sections (comparison : pydict) : pydict :=
  ensure_key
    (ensure_key
       (ensure_key
          (ensure_key
             (ensure_key comparison "skills_match"
                (PyDict [("matched_skills", PyList []);
                         ("missing_skills", PyList []);
                         ("additional_skills", PyList [])]))
             "experience_match"
             (PyDict [("level_match", PyBool false);
                      ("years_required", PyStr "Not specified");
                      ("years_candidate", PyStr "Not specified");
                      ("relevance_score", PyFloat 0)]))
          "education_match"
          (PyDict [("meets_requirements", PyBool false);
                   ("education_score", PyFloat 0)]))
       "overall_assessment"
       (PyDict [("strengths", PyList []);
                ("weaknesses", PyList []);
                ("recommendation", PyStr "not_recommended")]))
    "detailed_feedback" (PyStr "Analysis completed").

(** An answer of the service that lacks most sections and scores 3/2. *)
Definition partial_comparison : pydict :=
  [("similarity_score", PyFloat (3 # 2));
   ("detailed_feedback", PyStr "Strong match")].

(** The ids of the applications that a list of rankings covers, and the
    ids of the rows of a query. *)
Definition ranked_ids (rankings : list Ranking.Ranking) : list (option pyval) :=
  map (fun r => Some (Ranking.application_id r)) rankings.

Definition row_ids (applications : list pydict) : list (option pyval) :=
  map (fun app => dict_find app "id") applications.

(** Sample rows and services for the comparison agent: job 1 has two
    applications, the second without a stored resume; the service answers
    [partial_comparison] for every resume. *)
Definition sample_job_row (db : list Ranking.Ranking) (job_id : pyval) : option pydict :=
  match job_id with
  | PyInt 1 =>
      Some [("id", PyInt 1); ("title", PyStr "Engineer");
            ("description", PyStr "Builds services")]
  | _ => None
  end.

Definition sample_applications (db : list Ranking.Ranking) (job_id : pyval)
  : list pydict :=
  match job_id with
  | PyInt 1 =>
      [ [("id", PyInt 21); ("user_id", PyInt 5);
         ("resume_text", PyStr "Ten years of backend work");
         ("full_name", PyStr "Ben")];
        [("id", PyInt 22); ("user_id", PyInt 6);
         ("resume_text", PyNone);
         ("full_name", PyNone)] ]
  | _ => []
  end.

Definition sample_resume_text (db : list Ranking.Ranking) (app : pydict)
  : res string * list Ranking.Ranking :=
  match dict_find app "resume_text" with
  | Some (PyStr s) => (Ok s, db)
  | _ => (Raise AttributeError, db)
  end.

Definition sample_strip (s : string) : string := s.

Definition sample_compare_resume_job (resume_text : string) (job_description : pyval)
  : res pyval :=
  Ok (PyDict partial_comparison).

Definition compare_request : AgentMessage :=
  new_AgentMessage default_settings "admin" "comparison_agent"
    MessageType.REQUEST
    (PyDict [("action", PyStr "compare_applications"); ("job_id", PyInt 1)])
    "m-0" 0 None MessagePriority.NORMAL 0 None false.

(** ** The insights of a ranking ([RankingAgent._generate_ranking_insights]) *)

(** [sum(scores)]: the additions are made from the left, starting at 0. *)
Definition sum_of (scores : list Q) : Q := fold_left Qplus scores 0%Q.

(** [sum(1 for s in scores if p(s))] *)
Definition count_of (p : Q -> bool) (scores : list Q) : Z :=
  Z.of_nat (length (filter (fun s => p s = true) scores)).

(** The tests on a score: [s > 0.7], [0.5 <= s <= 0.7], [s < 0.5], and
    [s and s > 0.6] of the recommended candidates. *)
Definition high_quality (s : Q) : bool := Qltb (7 # 10) s.

Definition good_quality (s : Q) : bool := (Qle_bool (5 # 10) s && Qle_bool s (7 # 10))%bool.

Definition low_quality (s : Q) : bool := Qltb s (5 # 10).

Definition recommended (s : Q) : bool := (negb (Qeq_bool s 0) && Qltb (6 # 10) s)%bool.

(** [RankingAgent._calculate_variance], in exact arithmetic: the value the
    code computes differs from it by the rounding of the floats. *)
Definition _calculate_variance (scores : list Q) : Q :=
  if (length scores <? 2)%nat then 0%Q
  else
    let mean := (sum_of scores / inject_Z (Z.of_nat (length scores)))%Q in
    (sum_of (map (fun score => (score - mean) ^ 2) scores)
     / inject_Z (Z.of_nat (length scores)))%Q.

Section Insights.
(** [round(x, 3)] *)
Variable round3 : Q -> Q.
(** The text an f-string gives for a value. *)
Variable format_value : pyval -> string.

(** [RankingAgent._generate_hiring_recommendations] *)
Definition _generate_hiring_recommendations (rankings : list Ranking.Ranking)
  : list string :=
  match rankings with
  | [] => ["No candidates to evaluate"]
  | _ =>
      let top_candidates :=
        filter (fun r => (negb (Qeq_bool (Ranking.similarity_score r) 0)
                          && high_quality (Ranking.similarity_score r))%bool = true)
          rankings in
      let good_candidates :=
        filter (fun r => (negb (Qeq_bool (Ranking.similarity_score r) 0)
                          && good_quality (Ranking.similarity_score r))%bool = true)
          rankings in
      if (3 <=? length top_candidates)%nat then
        ["Excellent candidate pool: "
           ++ format_value (PyInt (Z.of_nat (length top_candidates)))
           ++ " high-quality matches found";
         "Recommend interviewing top 3-5 candidates"]
      else if (0 <? length top_candidates)%nat then
        ("Found " ++ format_value (PyInt (Z.of_nat (length top_candidates)))
           ++ " high-quality candidate(s)")
        :: (if (0 <? length good_candidates)%nat
            then ["Consider " ++ format_value (PyInt (Z.of_nat (length good_candidates)))
                    ++ " additional candidates for backup"]
            else [])
      else if (0 <? length good_candidates)%nat then
        ["Moderate candidate pool: "
           ++ format_value (PyInt (Z.of_nat (length good_candidates)))
           ++ " decent matches";
         "Consider expanding search or reviewing job requirements"]
      else
        ["Limited candidate pool - consider:";
         "• Revising job requirements";
         "• Expanding recruitment channels";
         "• Offering training for skill gaps"]
  end.

(** [RankingAgent._generate_ranking_insights], for rankings as
    [rank_applications] builds them: every ranking has a score. *)
Definition _generate_ranking_insights (rankings : list Ranking.Ranking) : pyval :=
  match rankings with
  | [] => PyDict [("message", PyStr "No rankings available for analysis")]
  | top_candidate :: _ =>
      let total_candidates := Z.of_nat (length rankings) in
      let scores := map Ranking.similarity_score rankings in
      match scores with
      | [] => PyDict [("message", PyStr "No valid scores available for analysis")]
      | _ =>
          let avg_score := (sum_of scores / inject_Z (Z.of_nat (length scores)))%Q in
          let high := count_of high_quality scores in
          let good := count_of good_quality scores in
          let low := count_of low_quality scores in
          let top_score :=
            if negb (Qeq_bool (Ranking.similarity_score top_candidate) 0)
            then Ranking.similarity_score top_candidate else 0%Q in
          let recommended_count := count_of recommended scores in
          PyDict
            [("summary",
               PyDict [("total_candidates", PyInt total_candidates);
                       ("average_score", PyFloat (round3 avg_score));
                       ("top_score", PyFloat (round3 top_score));
                       ("recommended_candidates", PyInt recommended_count)]);
             ("quality_distribution",
               PyDict [("high_quality", PyInt high);
                       ("good_quality", PyInt good);
                       ("low_quality", PyInt low)]);
             ("recommendations",
               PyList (map PyStr (_generate_hiring_recommendations rankings)));
             ("trends",
               PyDict [("score_variance", PyFloat (round3 (_calculate_variance scores)));
                       ("quality_ratio",
                          if 0 <? total_candidates
                          then PyFloat (round3 (inject_Z high / inject_Z total_candidates))
                          else PyInt 0)])]
      end
  end.

End Insights.

(** The entry [insights[section][key]]. *)
Definition insight (insights : pyval) (section key : string) : pyval :=
  match insights with
  | PyDict d =>
      match dict_get d section PyNone with
      | PyDict inner => dict_get inner key PyNone
      | _ => PyNone
      end
  | _ => PyNone
  end.

Definition sample_round3 (q : Q) : Q := q.

(** The card shows the ranking [r]: its applicant, its application and
    the score [score r] as a percentage. *)
Definition card_of (score : Ranking.Ranking -> Q) (r : Ranking.Ranking)
    (c : CandidateCard) : Prop :=
  card_applicant_name c = Ranking.applicant_name r
  /\ card_application_id c = Ranking.application_id r
  /\ card_match_score c = score r.

(** ** Facts about Python values *)

Lemma float_raises str_to_float v e :
  float str_to_float v = Raise e ->
  e = ValueError \/ e = TypeError \/ (e = OverflowError /\ oversized v = true).
Proof.
  destruct v as [|b|n|q|s|l|d]; simpl; try discriminate;
    try (intros [= <-]; auto; fail).
  - destruct (float_overflows n) eqn:E; [|discriminate]. intros [= <-]; auto.
  - destruct (str_to_float s); try discriminate. intros [= <-]; auto.
Qed.

Lemma float_oversized str_to_float v :
  oversized v = true -> float str_to_float v = Raise OverflowError.
Proof.
  destruct v as [|b|n|q|s|l|d]; simpl; try discriminate. now intros ->.
Qed.

Lemma float_caught str_to_float v e :
  oversized v = false ->
  float str_to_float v = Raise e -> e = ValueError \/ e = TypeError.
Proof.
  intros Hv He. destruct (float_raises _ _ _ He) as [H|[H|[_ H]]]; auto. congruence.
Qed.

Lemma dict_find_set_eq d key v : dict_find (dict_set d key v) key = Some v.
Proof.
  induction d as [|[k w] d IH]; simpl.
  - now rewrite String.eqb_refl.
  - destruct (String.eqb k key) eqn:E; simpl; rewrite E; auto.
Qed.

Lemma dict_find_set_ne d key key' v :
  key <> key' -> dict_find (dict_set d key v) key' = dict_find d key'.
Proof.
  intros Hne. induction d as [|[k w] d IH]; simpl.
  - destruct (String.eqb key key') eqn:E; auto.
    apply String.eqb_eq in E. contradiction.
  - destruct (String.eqb k key) eqn:E; simpl.
    + apply String.eqb_eq in E. subst k.
      destruct (String.eqb key key') eqn:E'; auto.
      apply String.eqb_eq in E'. contradiction.
    + now rewrite IH.
Qed.

Lemma dict_get_set_eq d key v default : dict_get (dict_set d key v) key default = v.
Proof. unfold dict_get. now rewrite dict_find_set_eq. Qed.

Lemma dict_get_set_ne d key key' v default :
  key <> key' -> dict_get (dict_set d key v) key' default = dict_get d key' default.
Proof. intros H. unfold dict_get. now rewrite dict_find_set_ne. Qed.

(** ** The scoring engine *)

Section ScoringFacts.
Variable str_to_float : string -> option Q.
Local Open Scope Q_scope.

Lemma Qmax_Qmin_unit (q : Q) : 0 <= Qmax 0 (Qmin 1 q) <= 1.
Proof.
  split.
  - apply Q.le_max_l.
  - apply Q.max_lub; [lra | apply Q.le_min_l].
Qed.

Lemma experience_adjustment_cases details q :
  (exists q', experience_adjustment str_to_float details q = Ok q')
  \/ (experience_adjustment str_to_float details q = Raise OverflowError
      /\ exists experience_match,
           dict_get details "experience_match" (PyDict []) = PyDict experience_match
           /\ oversized (dict_get experience_match "relevance_score" (PyInt 0)) = true).
Proof.
  unfold experience_adjustment.
  destruct (dict_get details "experience_match" (PyDict [])) as [| | | | | |em];
    try (left; eauto; fail).
  destruct (float str_to_float _) as [r|e] eqn:E.
  - left. destruct (Qltb _ _); eauto.
  - destruct (float_raises _ _ _ E) as [-> | [-> | [-> Hover]]]; [left; eauto ..|].
    right. split; [reflexivity|]. eauto.
Qed.

Lemma experience_adjustment_total details q :
  relevance_fits details ->
  exists q', experience_adjustment str_to_float details q = Ok q'.
Proof.
  intros Hfits.
  destruct (experience_adjustment_cases details q) as [H|(_ & em & Hem & Hover)]; auto.
  unfold relevance_fits in Hfits. rewrite Hem in Hfits. congruence.
Qed.

(** On a dictionary the scoring engine returns a score unless the
    similarity score is an integer too large for a float. *)
Lemma _calculate_enhanced_score_total (result : pydict) :
  scorable result ->
  exists q, _calculate_enhanced_score str_to_float (PyDict result) = Ok q.
Proof.
  unfold scorable. intros Hs.
  unfold _calculate_enhanced_score.
  destruct (enhanced_score_try str_to_float (PyDict result)) as [q|e]; eauto.
  unfold enhanced_score_except. simpl.
  destruct (is_none _); eauto.
  destruct (float str_to_float _) as [q|e'] eqn:E; eauto.
  destruct (float_caught _ _ _ Hs E) as [-> | ->]; eauto.
Qed.

(** That integer makes the conversion raise in the [try] and again in the
    handler, which lets the [OverflowError] through. *)
Lemma _calculate_enhanced_score_overflow (result : pydict) :
  oversized (dict_get result "similarity_score" (PyFloat 0)) = true ->
  _calculate_enhanced_score str_to_float (PyDict result) = Raise OverflowError.
Proof.
  intros Hover.
  unfold _calculate_enhanced_score, enhanced_score_try, enhanced_score_except. simpl.
  destruct (dict_get result "similarity_score" (PyFloat 0)) as [|b|n|q|s|l|d];
    try discriminate.
  simpl in *. now rewrite Hover.
Qed.

(** When the comparison details are a dictionary (or absent) and the
    relevance score is not an integer too large for a float, the score is
    clamped to the unit interval. *)
Lemma _calculate_enhanced_score_unit (result details : pydict) q :
  dict_get result "comparison_details" (PyDict []) = PyDict details ->
  relevance_fits details ->
  _calculate_enhanced_score str_to_float (PyDict result) = Ok q ->
  0 <= q <= 1.
Proof.
  intros Hd Hfits.
  unfold _calculate_enhanced_score, enhanced_score_try, enhanced_score_except.
  simpl. rewrite Hd.
  destruct (is_none (dict_get result "similarity_score" (PyFloat 0))) eqn:En.
  - simpl.
    destruct (experience_adjustment_total details
                (skills_adjustment details 0) Hfits) as [q' ->].
    simpl. intros [= <-]. apply Qmax_Qmin_unit.
  - destruct (float str_to_float _) as [b|e] eqn:E; simpl.
    + destruct (experience_adjustment_total details
                  (skills_adjustment details b) Hfits) as [q' ->].
      simpl. intros [= <-]. apply Qmax_Qmin_unit.
    + destruct (float_raises _ _ _ E) as [-> | [-> | [-> _]]];
        intros [= <-]; lra.
Qed.

End ScoringFacts.

(** X1: on a comparison result that is a dictionary the scoring engine
    returns a score whatever the fields hold, malformed or missing parts
    included, with one exception: when the similarity score is an integer
    too large for a float, the conversion raises [OverflowError] in the
    [try] and again in the handler, which catches [ValueError] and
    [TypeError] only, and the exception leaves the function. *)
Theorem scoring_raises_only_on_oversized_similarity str_to_float (result : pydict) :
  (oversized (dict_get result "similarity_score" (PyFloat 0)) = false ->
   exists q, _calculate_enhanced_score str_to_float (PyDict result) = Ok q)
  /\ (oversized (dict_get result "similarity_score" (PyFloat 0)) = true ->
      _calculate_enhanced_score str_to_float (PyDict result) = Raise OverflowError).
Proof.
  split.
  - apply _calculate_enhanced_score_total.
  - apply _calculate_enhanced_score_overflow.
Qed.

(** X2: when the comparison details are a dictionary (or absent) and the
    relevance score of the experience is not an integer too large for a
    float, the enhanced score that is returned lies in the unit interval.
    (Such an integer raises [OverflowError] past the inner handler, and the
    outer handler then returns the similarity score without the clamp.) *)
Theorem enhanced_score_within_unit_interval str_to_float (result details : pydict) q :
  dict_get result "comparison_details" (PyDict []) = PyDict details ->
  relevance_fits details ->
  _calculate_enhanced_score str_to_float (PyDict result) = Ok q ->
  (0 <= q <= 1)%Q.
Proof. apply _calculate_enhanced_score_unit. Qed.

(** The sample that is half similar and highly recommended scores
    116/200. *)
Lemma enhanced_score_unit_sample : (0 <= 116 # 200 <= 1)%Q.
Proof.
  apply (enhanced_score_within_unit_interval sample_str_to_float recommended_result
           [("overall_assessment",
              PyDict [("recommendation", PyStr "highly_recommended")])]
           (116 # 200)).
  - reflexivity.
  - reflexivity.
  - reflexivity.
Defined.

(** C1 (failing input): on a result whose comparison details are not a
    dictionary the early return of line 253 hands back the base score
    without the clamp of line 302; with a similarity score of 1.5 the
    enhanced score is 1.5, above 1. *)
Theorem enhanced_score_escapes_unit_interval :
  _calculate_enhanced_score sample_str_to_float out_of_range_result = Ok (3 # 2)
  /\ (1 < 3 # 2)%Q.
Proof. split; [reflexivity | reflexivity]. Qed.

(** ** The stable descending sort *)

Section SortFacts.
Context {A : Type} (key : A -> Q).

Lemma Qltb_true a b : Qltb a b = true <-> (a < b)%Q.
Proof.
  unfold Qltb. split.
  - intros H. apply Qlt_alt. destruct (Qcompare a b); congruence.
  - intros H. apply Qlt_alt in H. change (Qcompare a b = Lt) in H. now rewrite H.
Qed.

Lemma Qltb_false a b : Qltb a b = false <-> (b <= a)%Q.
Proof.
  split.
  - intros H. apply Qnot_lt_le. intros Hlt. apply Qltb_true in Hlt. congruence.
  - intros H. destruct (Qltb a b) eqn:E; auto.
    apply Qltb_true in E. apply Qle_not_lt in H. contradiction.
Qed.

Lemma insert_desc_perm x l : Permutation (insert_desc key x l) (x :: l).
Proof.
  induction l as [|y l IH]; simpl; auto.
  destruct (Qltb (key x) (key y)); auto.
  rewrite IH. apply perm_swap.
Qed.

Lemma sorted_reverse_perm l : Permutation (sorted_reverse key l) l.
Proof.
  induction l as [|x l IH]; simpl; auto.
  rewrite insert_desc_perm. now constructor.
Qed.

Lemma insert_desc_descending x l :
  descending key l -> descending key (insert_desc key x l).
Proof.
  unfold descending. induction l as [|y l IH]; simpl; intros Hs.
  - repeat constructor.
  - inversion Hs as [|? ? Hl Hy]; subst.
    destruct (Qltb (key x) (key y)) eqn:E.
    + constructor; auto.
      apply Qltb_true in E.
      eapply Permutation_Forall; [symmetry; apply insert_desc_perm|].
      constructor; [now apply Qlt_le_weak | assumption].
    + apply Qltb_false in E. constructor; auto.
      constructor; auto.
      eapply Forall_impl; [exact Hy|]. simpl. intros z Hz.
      eapply Qle_trans; eauto.
Qed.

Lemma sorted_reverse_descending l : descending key (sorted_reverse key l).
Proof.
  induction l as [|x l IH]; simpl.
  - constructor.
  - now apply insert_desc_descending.
Qed.

Lemma with_key_insert_desc v x l :
  with_key key v (insert_desc key x l) = with_key key v (x :: l).
Proof.
  unfold with_key. induction l as [|y l IH]; auto.
  simpl insert_desc. destruct (Qltb (key x) (key y)) eqn:E; auto.
  apply Qltb_true in E.
  change (List.filter ?f (y :: ?t)) with (if f y then y :: List.filter f t else List.filter f t).
  rewrite IH. simpl.
  destruct (Qeq_bool (key x) v) eqn:Ex; auto.
  destruct (Qeq_bool (key y) v) eqn:Ey; auto.
  apply Qeq_bool_iff in Ex, Ey. rewrite Ex, Ey in E.
  exfalso. revert E. apply Qlt_irrefl.
Qed.

(** Stability: the items that share a key keep their original order. *)
Lemma sorted_reverse_stable v l :
  with_key key v (sorted_reverse key l) = with_key key v l.
Proof.
  induction l as [|x l IH]; auto.
  simpl sorted_reverse. rewrite with_key_insert_desc.
  unfold with_key in *. simpl. now rewrite IH.
Qed.

Lemma sorted_reverse_length l : length (sorted_reverse key l) = length l.
Proof. apply Permutation_length, sorted_reverse_perm. Qed.

End SortFacts.

Lemma insert_desc_map {A B : Type} (f : A -> B) (key : A -> Q) (key' : B -> Q) x l :
  (forall y, key' (f y) = key y) ->
  insert_desc key' (f x) (map f l) = map f (insert_desc key x l).
Proof.
  intros Hk. induction l as [|y l IH]; simpl; auto.
  rewrite !Hk. destruct (Qltb (key x) (key y)); simpl; auto.
  now rewrite IH.
Qed.

Lemma sorted_reverse_map {A B : Type} (f : A -> B) (key : A -> Q) (key' : B -> Q) l :
  (forall y, key' (f y) = key y) ->
  sorted_reverse key' (map f l) = map f (sorted_reverse key l).
Proof.
  intros Hk. induction l as [|x l IH]; simpl; auto.
  rewrite IH. now apply insert_desc_map.
Qed.

(** ** [rank_applications] *)

Section RankingFacts.
Variable str_to_float : string -> option Q.
Variable exn_str : exn -> string.
Context {Database : Type}.
Variable _clear_existing_rankings : Database -> pyval -> Database.
Variable _save_ranking : Database -> Ranking.Ranking -> option Z * Database.
Variable log_activity : Database -> string -> pydict -> Database.
Variable _generate_ranking_insights : list Ranking.Ranking -> pyval.
Variable time_time : Z -> Q.

Lemma enhanced_score_of_eq (d : pydict) :
  scorable d ->
  _calculate_enhanced_score str_to_float (PyDict d) = Ok (enhanced_score_of str_to_float d).
Proof.
  intros Hd. unfold enhanced_score_of.
  destruct (_calculate_enhanced_score_total str_to_float d Hd) as [q ->]. reflexivity.
Qed.

Lemma scorable_dec (d : pydict) :
  scorable d \/ oversized (dict_get d "similarity_score" (PyFloat 0)) = true.
Proof.
  unfold scorable. destruct (oversized _); auto.
Qed.

Lemma score_results_dicts (ds : list pydict) :
  Forall scorable ds ->
  score_results str_to_float (map PyDict ds) = Ok (map (scored str_to_float) ds).
Proof.
  induction 1 as [|d ds Hd _ IH]; simpl; auto.
  rewrite (enhanced_score_of_eq d Hd). simpl. rewrite IH. reflexivity.
Qed.

Lemma score_results_inv (l : list pyval) (sc : list pydict) :
  score_results str_to_float l = Ok sc ->
  exists ds, l = map PyDict ds /\ sc = map (scored str_to_float) ds
             /\ Forall scorable ds.
Proof.
  revert sc. induction l as [|v l IH]; simpl; intros sc H.
  - injection H as <-. now exists [].
  - destruct (_calculate_enhanced_score str_to_float v) as [q|e] eqn:Eq; [|discriminate].
    simpl in H. destruct v as [| | | | | |d]; try discriminate.
    destruct (score_results str_to_float l) as [sc'|e]; [|discriminate].
    simpl in H. injection H as <-.
    destruct (IH sc' eq_refl) as (ds & -> & -> & Hall).
    assert (Hd : scorable d).
    { destruct (scorable_dec d) as [Hd|Hover]; [exact Hd|].
      rewrite (_calculate_enhanced_score_overflow str_to_float d Hover) in Eq.
      discriminate. }
    exists (d :: ds). split; [reflexivity|]. split; [|now constructor]. simpl. f_equal.
    unfold scored. rewrite (enhanced_score_of_eq d Hd) in Eq. now injection Eq as ->.
Qed.

Lemma enhanced_score_key_scored (d : pydict) :
  enhanced_score_key (scored str_to_float d) = enhanced_score_of str_to_float d.
Proof. unfold enhanced_score_key, scored. now rewrite dict_get_set_eq. Qed.

(** The scores the ranking loop reads back from a scored result: the
    enhanced score is the one the scoring loop stored, also when the
    similarity score is not a number (both loops then fall back to 0). *)
Lemma valid_floats_scored (d : pydict) :
  scorable d ->
  exists s,
    valid_floats str_to_float (dict_get d "similarity_score" (PyFloat 0))
      (PyFloat (enhanced_score_of str_to_float d))
    = Ok (s, enhanced_score_of str_to_float d)
    /\ (float str_to_float (dict_get d "similarity_score" (PyFloat 0)) = Ok s
        \/ (s = 0%Q /\ forall q, float str_to_float
                                  (dict_get d "similarity_score" (PyFloat 0)) <> Ok q)
        \/ (s = 0%Q /\ dict_get d "similarity_score" (PyFloat 0) = PyNone)).
Proof.
  intros Hscorable.
  assert (Hraise : forall e,
             float str_to_float (dict_get d "similarity_score" (PyFloat 0)) = Raise e ->
             dict_get d "similarity_score" (PyFloat 0) <> PyNone ->
             enhanced_score_of str_to_float d = 0%Q).
  { intros e He Hn. unfold scorable in Hscorable.
    unfold enhanced_score_of, _calculate_enhanced_score, enhanced_score_try,
      enhanced_score_except. simpl.
    destruct (dict_get d "similarity_score" (PyFloat 0)) eqn:Es; try congruence;
      simpl in *; try discriminate; try reflexivity.
    - rewrite Hscorable in He. discriminate.
    - destruct (str_to_float s); [discriminate | reflexivity]. }
  unfold valid_floats.
  destruct (is_none (dict_get d "similarity_score" (PyFloat 0))) eqn:En.
  - exists 0%Q. split; [reflexivity|]. right. right. split; auto.
    destruct (dict_get d "similarity_score" (PyFloat 0)); try discriminate; auto.
  - destruct (float str_to_float (dict_get d "similarity_score" (PyFloat 0)))
      as [s|e] eqn:Ef.
    + exists s. split; [reflexivity | now left].
    + exists 0%Q. split.
      * rewrite (Hraise e eq_refl).
        -- simpl. destruct (float_caught _ _ _ Hscorable Ef) as [-> | ->]; reflexivity.
        -- intros Hn. rewrite Hn in En. discriminate.
      * right. left. split; [reflexivity | congruence].
Qed.

Lemma build_ranking_scored job total i (d : pydict) v :
  scorable d ->
  dict_find d "application_id" = Some v ->
  exists r,
    build_ranking str_to_float time_time job total i (scored str_to_float d) = Ok r
    /\ ranking_of str_to_float d r
    /\ Ranking.rank_position r = i.
Proof.
  intros Hd Hv. unfold build_ranking, scored.
  rewrite dict_get_set_eq.
  rewrite !dict_get_set_ne by discriminate.
  destruct (valid_floats_scored d Hd) as (s & -> & Hs).
  unfold dict_item. rewrite dict_find_set_ne by discriminate. rewrite Hv.
  simpl. eexists. split; [reflexivity|].
  unfold ranking_of, metadata_entry. simpl.
  rewrite dict_get_set_eq. simpl. repeat split; auto.
  exists s. split; auto.
Qed.

Lemma build_ranking_scored_inv job total i (d : pydict) r :
  scorable d ->
  build_ranking str_to_float time_time job total i (scored str_to_float d) = Ok r ->
  ranking_of str_to_float d r /\ Ranking.rank_position r = i.
Proof.
  intros Hd H.
  destruct (dict_find d "application_id") as [v|] eqn:Hv.
  - destruct (build_ranking_scored job total i d v Hd Hv) as (r' & Hr' & Hof & Hpos).
    rewrite Hr' in H. now injection H as <-.
  - exfalso. revert H. unfold build_ranking, scored.
    rewrite dict_get_set_eq.
    rewrite !dict_get_set_ne by discriminate.
    destruct (valid_floats_scored d Hd) as (s & -> & Hs).
    unfold dict_item. rewrite dict_find_set_ne by discriminate. rewrite Hv.
    discriminate.
Qed.

(** A saved ranking differs from the one built only in its id and in the
    applicant's name. *)
Lemma ranking_of_saved d r n applicant :
  ranking_of str_to_float d r ->
  ranking_of str_to_float d
    (Ranking.mkRanking (Some n) (Ranking.job_id r) (Ranking.application_id r)
       (Ranking.similarity_score r) (Ranking.rank_position r)
       (Ranking.ranking_details r) applicant).
Proof. unfold ranking_of, metadata_entry. simpl. auto. Qed.

(** Whatever the database does, every ranking the loop returns was built
    for one of the ranked results. *)
Lemma save_rankings_sound job total (ranked : list pydict) :
  Forall scorable ranked ->
  forall db i rankings db',
    save_rankings str_to_float _save_ranking time_time db job total i
      (map (scored str_to_float) ranked) = (Ok rankings, db') ->
    Forall (fun r => exists d, In d ranked /\ ranking_of str_to_float d r) rankings.
Proof.
  induction 1 as [|d ranked Hd _ IH]; simpl; intros db i rankings db' H.
  - injection H as <- <-. constructor.
  - destruct (build_ranking str_to_float time_time job total i (scored str_to_float d))
      as [r|e] eqn:Eb; [|discriminate].
    apply (build_ranking_scored_inv _ _ _ _ _ Hd) in Eb as [Hof Hpos].
    destruct (_save_ranking db r) as [ranking_id db1].
    destruct (save_rankings str_to_float _save_ranking time_time db1 job total (i + 1)
                (map (scored str_to_float) ranked)) as [later db2] eqn:El.
    destruct later as [rest|e]; [|discriminate].
    simpl in H. injection H as <- <-.
    apply IH in El.
    apply Forall_app. split.
    + destruct ranking_id as [n|]; [|constructor].
      destruct (n =? 0); constructor; [|constructor].
      exists d. split; [now left | now apply ranking_of_saved].
    + eapply Forall_impl; [exact El|].
      intros r' (d' & Hin & Hof'). exists d'. split; [now right | assumption].
Qed.

(** When every save succeeds, the loop returns one ranking per result, in
    the order of the ranked results, with consecutive positions. *)
Lemma save_rankings_all job total (ranked : list pydict) :
  saves_succeed _save_ranking ->
  Forall scorable ranked ->
  Forall has_application_id ranked ->
  forall db i, exists rankings db',
    save_rankings str_to_float _save_ranking time_time db job total i
      (map (scored str_to_float) ranked) = (Ok rankings, db')
    /\ Forall2 (ranking_of str_to_float) ranked rankings
    /\ map Ranking.rank_position rankings = positions i (length ranked).
Proof.
  intros Hsave Hall. induction 1 as [|d ranked [v Hv] _ IH]; simpl; intros db i.
  - exists [], db. repeat split; constructor.
  - inversion Hall as [|? ? Hd Hall']; subst. specialize (IH Hall').
    destruct (build_ranking_scored job total i d v Hd Hv) as (r & -> & Hof & Hpos).
    destruct (Hsave db r) as (n & db1 & -> & Hn).
    destruct (IH db1 (i + 1)) as (rest & db2 & -> & Hrest & Hposs).
    apply Z.eqb_neq in Hn. rewrite Hn. simpl.
    eexists _, db2. split; [reflexivity|]. split.
    + constructor; [now apply ranking_of_saved | assumption].
    + simpl. now rewrite Hpos, Hposs.
Qed.

Lemma sorted_scored (ds : list pydict) :
  sorted_reverse enhanced_score_key (map (scored str_to_float) ds)
  = map (scored str_to_float) (sorted_reverse (enhanced_score_of str_to_float) ds).
Proof. apply sorted_reverse_map, enhanced_score_key_scored. Qed.

(** The run of [rank_applications] on well-formed results when every save
    succeeds. *)
Lemma rank_applications_success db (task_data : pydict) (ds : list pydict) :
  truthy (dict_get task_data "job_id" PyNone) = true ->
  dict_get task_data "comparison_results" (PyList []) = PyList (map PyDict ds) ->
  ds <> [] ->
  Forall scorable ds ->
  Forall has_application_id ds ->
  saves_succeed _save_ranking ->
  exists rankings response db',
    rank_applications str_to_float exn_str _clear_existing_rankings _save_ranking
      log_activity _generate_ranking_insights time_time db task_data = (response, db')
    /\ dict_find response "status" = Some (PyStr "success")
    /\ dict_find response "rankings" = Some (PyList (map format_ranking rankings))
    /\ Forall2 (ranking_of str_to_float)
         (sorted_reverse (enhanced_score_of str_to_float) ds) rankings
    /\ map Ranking.rank_position rankings = positions 1 (length ds).
Proof.
  intros Hjob Hres Hne Hscorable Hids Hsave.
  assert (Ht : truthy (PyList (map PyDict ds)) = true)
    by (destruct ds; [congruence | reflexivity]).
  unfold rank_applications. cbv zeta. rewrite Hjob, Hres, Ht. cbn [negb].
  unfold rank_applications_try.
  rewrite (score_results_dicts ds Hscorable), sorted_scored.
  set (ranked := sorted_reverse (enhanced_score_of str_to_float) ds).
  assert (Hranked : Forall has_application_id ranked).
  { eapply Permutation_Forall; [symmetry; apply sorted_reverse_perm | exact Hids]. }
  assert (Hranked' : Forall scorable ranked).
  { eapply Permutation_Forall; [symmetry; apply sorted_reverse_perm | exact Hscorable]. }
  destruct (save_rankings_all (dict_get task_data "job_id" PyNone)
              (Z.of_nat (length (map (scored str_to_float) ranked))) ranked Hsave
              Hranked' Hranked
              (_clear_existing_rankings db (dict_get task_data "job_id" PyNone)) 1)
    as (rankings & db1 & -> & Hof & Hpos).
  assert (Hlen : length ranked = length ds) by apply sorted_reverse_length.
  destruct rankings as [|r rankings].
  - apply Forall2_length in Hof. rewrite Hlen in Hof.
    destruct ds; [congruence | discriminate].
  - eexists (r :: rankings), _, _. split; [reflexivity|].
    rewrite <- Hlen. repeat split; auto.
Qed.

(** Whatever the input and the database do, every entry of the response's
    [rankings] list formats a ranking built for one of the comparison
    results. *)
Lemma rank_applications_rankings db (task_data : pydict) response db' entries :
  rank_applications str_to_float exn_str _clear_existing_rankings _save_ranking
    log_activity _generate_ranking_insights time_time db task_data = (response, db') ->
  dict_get response "rankings" (PyList []) = PyList entries ->
  Forall
    (fun entry => exists r d,
       entry = format_ranking r
       /\ (exists results,
             dict_get task_data "comparison_results" (PyList []) = PyList results
             /\ In (PyDict d) results)
       /\ ranking_of str_to_float d r
       /\ scorable d)
    entries.
Proof.
  unfold rank_applications.
  destruct (negb (truthy (dict_get task_data "job_id" PyNone))).
  { intros [= <- <-]. simpl. intros [= <-]. constructor. }
  destruct (negb (truthy (dict_get task_data "comparison_results" (PyList [])))).
  { intros [= <- <-]. simpl. intros [= <-]. constructor. }
  unfold rank_applications_try.
  destruct (dict_get task_data "comparison_results" (PyList []))
    as [| | | | |results|] eqn:Eres;
    try (intros [= <- <-]; simpl; intros [= <-]; constructor).
  destruct (score_results str_to_float results) as [sc|e] eqn:Esc.
  2:{ intros [= <- <-]. simpl. intros [= <-]. constructor. }
  apply score_results_inv in Esc as (ds & -> & -> & Hscorable).
  rewrite sorted_scored.
  set (ranked := sorted_reverse (enhanced_score_of str_to_float) ds).
  assert (Hranked : Forall scorable ranked).
  { eapply Permutation_Forall; [symmetry; apply sorted_reverse_perm | exact Hscorable]. }
  destruct (save_rankings _ _ _ _ _ _ _ _) as [saved db1] eqn:Es.
  destruct saved as [rankings|e].
  2:{ intros [= <- <-]. simpl. intros [= <-]. constructor. }
  apply (save_rankings_sound _ _ _ Hranked) in Es.
  destruct rankings as [|r rankings].
  { intros [= <- <-]. simpl. intros [= <-]. constructor. }
  intros [= <- <-]. simpl. intros [= <-].
  change (Forall
    (fun entry => exists r0 d,
       entry = format_ranking r0
       /\ (exists results, PyList (map PyDict ds) = PyList results /\ In (PyDict d) results)
       /\ ranking_of str_to_float d r0
       /\ scorable d)
    (map format_ranking (r :: rankings))).
  apply Forall_map. eapply Forall_impl; [exact Es|].
  intros r0 (d & Hin & Hof). exists r0, d.
  split; [reflexivity|].
  assert (Hin' : In d ds)
    by (eapply Permutation_in; [apply sorted_reverse_perm | exact Hin]).
  split; [|split; [exact Hof|]].
  - exists (map PyDict ds). split; auto. now apply in_map.
  - rewrite List.Forall_forall in Hscorable. now apply Hscorable.
Qed.

End RankingFacts.

Lemma descending_Forall2 {A B : Type} (key : A -> Q) (key' : B -> Q) l l' :
  Forall2 (fun a b => key' b = key a) l l' ->
  descending key l -> descending key' l'.
Proof.
  unfold descending. induction 1 as [|a b l l' Hab Hl IH]; intros Hs.
  - constructor.
  - inversion Hs as [|? ? Hs' Ha]; subst. constructor; auto.
    clear IH Hs Hs'. induction Hl as [|a' b' l l' Hab' Hl IH]; constructor.
    + inversion Ha; subst. now rewrite Hab, Hab'.
    + apply IH. now inversion Ha.
Qed.

Lemma saves_succeed_sample : saves_succeed sample_save.
Proof.
  intros db r. exists (Z.of_nat (S (length db))), (db ++ [r])%list.
  split; [reflexivity | lia].
Qed.

Lemma dict_get_PyFloat (d : pydict) key q default :
  dict_get d key PyNone = PyFloat q -> dict_get d key default = PyFloat q.
Proof. unfold dict_get. destruct (dict_find d key); [auto | discriminate]. Qed.

Lemma format_ranking_similarity r :
  entry_field (format_ranking r) "similarity_score" = PyFloat (Ranking.similarity_score r).
Proof. reflexivity. Qed.

Lemma format_ranking_enhanced r :
  entry_field (format_ranking r) "enhanced_score"
  = match dict_get (Ranking.ranking_details r) "ranking_metadata" (PyDict []) with
    | PyDict metadata =>
        dict_get metadata "enhanced_score" (PyFloat (Ranking.similarity_score r))
    | _ => PyNone
    end.
Proof. reflexivity. Qed.

Lemma format_ranking_metadata r key :
  entry_metadata (format_ranking r) key
  = match dict_get (Ranking.ranking_details r) "ranking_metadata" PyNone with
    | PyDict metadata => dict_get metadata key PyNone
    | _ => PyNone
    end.
Proof. reflexivity. Qed.

Section RankingClaims.
Variable str_to_float : string -> option Q.
Variable exn_str : exn -> string.
Context {Database : Type}.
Variable _clear_existing_rankings : Database -> pyval -> Database.
Variable _save_ranking : Database -> Ranking.Ranking -> option Z * Database.
Variable log_activity : Database -> string -> pydict -> Database.
Variable _generate_ranking_insights : list Ranking.Ranking -> pyval.
Variable time_time : Z -> Q.

(** C2: for a job id that is set and a non-empty list of comparison
    results, each a dictionary that carries its application id and whose
    scores are finite floats (no integer too large for a float, and no text
    in place of a score, which could spell nan or an infinity), when every
    save succeeds [rank_applications] answers with one ranking per result;
    the rank positions are 1, 2, ..., N; the rankings follow a permutation
    [ranked] of the results that is in descending order of enhanced score
    and in which results of equal score keep their input order. *)
Theorem rank_positions_contiguous_descending_stable
    db (task_data : pydict) (ds : list pydict) :
  truthy (dict_get task_data "job_id" PyNone) = true ->
  dict_get task_data "comparison_results" (PyList []) = PyList (map PyDict ds) ->
  ds <> [] ->
  Forall has_application_id ds ->
  Forall finite_scores ds ->
  saves_succeed _save_ranking ->
  exists rankings ranked response db',
    rank_applications str_to_float exn_str _clear_existing_rankings _save_ranking
      log_activity _generate_ranking_insights time_time db task_data = (response, db')
    /\ dict_find response "status" = Some (PyStr "success")
    /\ dict_find response "rankings" = Some (PyList (map format_ranking rankings))
    /\ map Ranking.rank_position rankings = positions 1 (length ds)
    /\ Forall2 (ranking_of str_to_float) ranked rankings
    /\ Permutation ranked ds
    /\ descending (enhanced_score_of str_to_float) ranked
    /\ descending Ranking.similarity_score rankings
    /\ forall v, with_key (enhanced_score_of str_to_float) v ranked
                 = with_key (enhanced_score_of str_to_float) v ds.
Proof.
  intros Hjob Hres Hne Hids Hfinite Hsave.
  assert (Hscorable : Forall scorable ds)
    by (eapply Forall_impl; [exact Hfinite | intros d H; apply H]).
  destruct (rank_applications_success str_to_float exn_str _clear_existing_rankings
              _save_ranking log_activity _generate_ranking_insights time_time
              db task_data ds Hjob Hres Hne Hscorable Hids Hsave)
    as (rankings & response & db' & Hrun & Hstatus & Hlist & Hof & Hpos).
  exists rankings, (sorted_reverse (enhanced_score_of str_to_float) ds), response, db'.
  repeat (split; [assumption|]).
  split; [apply sorted_reverse_perm|].
  split; [apply sorted_reverse_descending|].
  split; [|intros v; apply sorted_reverse_stable].
  eapply descending_Forall2; [|apply sorted_reverse_descending].
  eapply Forall2_impl; [exact Hof|].
  intros d r (_ & Hscore & _). exact Hscore.
Qed.

(** C7 (as amended): every entry of the [rankings] list that
    [rank_applications] returns was built for one of the comparison results
    [d]; its [similarity_score] and its [enhanced_score] both hold the
    enhanced score of [d], and the similarity score of the oracle, as a
    float (0 when it is missing or not a number), is kept under
    [ranking_details.ranking_metadata.original_similarity_score]. *)
Theorem returned_similarity_score_is_enhanced_score
    db (task_data : pydict) response db' entries entry :
  rank_applications str_to_float exn_str _clear_existing_rankings _save_ranking
    log_activity _generate_ranking_insights time_time db task_data = (response, db') ->
  dict_get response "rankings" (PyList []) = PyList entries ->
  In entry entries ->
  exists (d : pydict) results s,
    dict_get task_data "comparison_results" (PyList []) = PyList results
    /\ In (PyDict d) results
    /\ _calculate_enhanced_score str_to_float (PyDict d)
       = Ok (enhanced_score_of str_to_float d)
    /\ entry_field entry "similarity_score" = PyFloat (enhanced_score_of str_to_float d)
    /\ entry_field entry "enhanced_score" = PyFloat (enhanced_score_of str_to_float d)
    /\ entry_metadata entry "original_similarity_score" = PyFloat s
    /\ (float str_to_float (dict_get d "similarity_score" (PyFloat 0)) = Ok s
        \/ (s = 0%Q /\ forall q, float str_to_float
                                  (dict_get d "similarity_score" (PyFloat 0)) <> Ok q)
        \/ (s = 0%Q /\ dict_get d "similarity_score" (PyFloat 0) = PyNone)).
Proof.
  intros Hrun Hlist Hin.
  pose proof (rank_applications_rankings str_to_float exn_str _clear_existing_rankings
                _save_ranking log_activity _generate_ranking_insights time_time
                db task_data response db' entries Hrun Hlist) as Hall.
  rewrite List.Forall_forall in Hall.
  destruct (Hall entry Hin) as (r & d & -> & (results & Hres & Hd) & Hof & Hscorable).
  destruct Hof as (Hid & Hsim & Henh & Hpos & s & Horig & Hs).
  exists d, results, s.
  split; [exact Hres|]. split; [exact Hd|].
  split; [now apply enhanced_score_of_eq|].
  unfold metadata_entry in Henh, Horig.
  rewrite format_ranking_similarity, format_ranking_enhanced, format_ranking_metadata.
  split; [now rewrite Hsim|].
  destruct (dict_get (Ranking.ranking_details r) "ranking_metadata" (PyDict []))
    as [| | | | | |metadata] eqn:Em; try discriminate.
  split; [now apply dict_get_PyFloat|].
  unfold dict_get in Em |- *.
  destruct (dict_find (Ranking.ranking_details r) "ranking_metadata") as [m|] eqn:Ef.
  - subst m. split; assumption.
  - injection Em as <-. discriminate.
Qed.

End RankingClaims.

(** The run of C2 on the sample job: two candidates, the second of the
    input ranked first. *)
Lemma rank_positions_sample :
  exists rankings ranked response db',
    sample_rank_applications sample_task = (response, db')
    /\ dict_find response "status" = Some (PyStr "success")
    /\ dict_find response "rankings" = Some (PyList (map format_ranking rankings))
    /\ map Ranking.rank_position rankings = positions 1 (length sample_results)
    /\ Forall2 (ranking_of sample_str_to_float) ranked rankings
    /\ Permutation ranked sample_results
    /\ descending (enhanced_score_of sample_str_to_float) ranked
    /\ descending Ranking.similarity_score rankings
    /\ forall v, with_key (enhanced_score_of sample_str_to_float) v ranked
                 = with_key (enhanced_score_of sample_str_to_float) v sample_results.
Proof.
  apply (rank_positions_contiguous_descending_stable sample_str_to_float sample_exn_str
           sample_clear sample_save sample_log sample_insights sample_time []
           sample_task sample_results).
  - reflexivity.
  - reflexivity.
  - discriminate.
  - repeat constructor; eexists; reflexivity.
  - repeat constructor.
  - apply saves_succeed_sample.
Defined.

(** C7 (counterexample): on the sample job the first entry returned is the
    one of application 11, whose similarity score from the oracle is 1/2; its
    [similarity_score] field holds 116/200, the enhanced score. *)
Lemma similarity_score_field_is_not_the_oracle_score :
  response_scores "application_id" sample_response = [PyInt 11; PyInt 21]
  /\ dict_get recommended_result "similarity_score" PyNone = PyFloat (1 # 2)
  /\ response_scores "similarity_score" sample_response = [PyFloat (116 # 200); PyFloat 0]
  /\ (1 # 2 < 116 # 200)%Q.
Proof. repeat split. Qed.

(** The entries returned for the sample job satisfy C7 as amended. *)
Lemma returned_similarity_score_sample :
  exists (d : pydict) results s,
    dict_get sample_task "comparison_results" (PyList []) = PyList results
    /\ In (PyDict d) results
    /\ _calculate_enhanced_score sample_str_to_float (PyDict d)
       = Ok (enhanced_score_of sample_str_to_float d)
    /\ entry_field (hd PyNone sample_entries) "similarity_score"
       = PyFloat (enhanced_score_of sample_str_to_float d)
    /\ entry_field (hd PyNone sample_entries) "enhanced_score"
       = PyFloat (enhanced_score_of sample_str_to_float d)
    /\ entry_metadata (hd PyNone sample_entries) "original_similarity_score" = PyFloat s
    /\ (float sample_str_to_float (dict_get d "similarity_score" (PyFloat 0)) = Ok s
        \/ (s = 0%Q /\ forall q, float sample_str_to_float
                                  (dict_get d "similarity_score" (PyFloat 0)) <> Ok q)
        \/ (s = 0%Q /\ dict_get d "similarity_score" (PyFloat 0) = PyNone)).
Proof.
  apply (returned_similarity_score_is_enhanced_score sample_str_to_float sample_exn_str
           sample_clear sample_save sample_log sample_insights sample_time []
           sample_task sample_response (snd (sample_rank_applications sample_task))
           sample_entries (hd PyNone sample_entries)).
  - reflexivity.
  - reflexivity.
  - left. reflexivity.
Defined.

(** ** The message envelope *)

(** C8 (counterexample): a message built at time 1000 s with a
    caller-supplied expiry of 0 keeps that expiry, which lies before its
    creation time. *)
Lemma caller_supplied_expiry_before_creation :
  expires_at backdated_message = Some 0
  /\ timestamp backdated_message = 1000000000
  /\ 0 < 1000000000.
Proof. repeat split. Qed.

(** C8 (as amended): a message built without a caller-supplied expiry,
    under a configured timeout that is not negative, expires at its creation
    time plus the timeout, hence not before its creation; a caller-supplied
    expiry is stored as given. *)
Theorem default_expiry_not_before_creation
    settings sender receiver message_type payload message_id timestamp
    correlation_id priority retry_count requires_ack :
  0 <= A2A_MESSAGE_TIMEOUT settings ->
  (exists e,
     expires_at (new_AgentMessage settings sender receiver message_type payload
                   message_id timestamp correlation_id priority retry_count None
                   requires_ack) = Some e
     /\ e = timestamp + timedelta_seconds (A2A_MESSAGE_TIMEOUT settings)
     /\ timestamp <= e)
  /\ forall e,
       expires_at (new_AgentMessage settings sender receiver message_type payload
                     message_id timestamp correlation_id priority retry_count (Some e)
                     requires_ack) = Some e.
Proof.
  intros Ht. split.
  - eexists. split; [reflexivity|]. split; [reflexivity|].
    unfold timedelta_seconds. lia.
  - reflexivity.
Qed.

Lemma default_expiry_sample :
  (exists e,
     expires_at sample_message = Some e
     /\ e = 0 + timedelta_seconds (A2A_MESSAGE_TIMEOUT default_settings)
     /\ 0 <= e)
  /\ forall e,
       expires_at (new_AgentMessage default_settings "comparison_agent" "ranking_agent"
                     MessageType.REQUEST (PyDict [("action", PyStr "rank_applications")])
                     "m-1" 0 None MessagePriority.NORMAL 0 (Some e) false) = Some e.
Proof.
  apply (default_expiry_not_before_creation default_settings "comparison_agent"
           "ranking_agent" MessageType.REQUEST
           (PyDict [("action", PyStr "rank_applications")])
           "m-1" 0 None MessagePriority.NORMAL 0 false).
  simpl. lia.
Defined.

(** ** The registry under a delivery *)

Lemma status_of_set_status_eq p n s :
  status_of (set_status p n s) n = (fun _ => s) <$> status_of p n.
Proof.
  unfold status_of, set_status. simpl. rewrite lookup_alter_eq.
  now destruct (registered_agents p !! n).
Qed.

Lemma status_of_set_status_ne p n s x :
  n <> x -> status_of (set_status p n s) x = status_of p x.
Proof.
  intros Hne. unfold status_of, set_status. simpl. now rewrite lookup_alter_ne.
Qed.

Lemma handler_of_with_status r s : handler_of (with_status r s) = handler_of r.
Proof. reflexivity. Qed.

Lemma lookup_set_status p n s x :
  registered_agents (set_status p n s) !! x
  = if decide (n = x) then (fun r => with_status r s) <$> registered_agents p !! n
    else registered_agents p !! x.
Proof. unfold set_status. simpl. apply lookup_alter. Qed.

Lemma set_status_lists p n s :
  message_history (set_status p n s) = message_history p
  /\ failed_messages (set_status p n s) = failed_messages p
  /\ retry_threads (set_status p n s) = retry_threads p.
Proof. repeat split. Qed.

(** What a delivery does, in terms of the handler the bus picks. *)
Lemma _deliver_message_sync_handler p message r :
  registered_agents p !! receiver message = Some r ->
  _deliver_message_sync p message
  = match handler_of r message with
    | Returns =>
        (true, set_status (set_status p (receiver message) AgentStatus.BUSY)
                 (receiver message) (status r))
    | Raises =>
        (false, set_status (set_status p (receiver message) AgentStatus.BUSY)
                  (receiver message) AgentStatus.ERROR)
    end.
Proof.
  intros Hr. unfold _deliver_message_sync, handler_of. rewrite Hr.
  destruct (message_handler r); reflexivity.
Qed.

(** A delivery leaves the three lists alone. *)
Lemma _deliver_message_sync_lists p message :
  message_history (snd (_deliver_message_sync p message)) = message_history p
  /\ failed_messages (snd (_deliver_message_sync p message)) = failed_messages p
  /\ retry_threads (snd (_deliver_message_sync p message)) = retry_threads p.
Proof.
  unfold _deliver_message_sync.
  destruct (registered_agents p !! receiver message) as [r|]; [|auto].
  destruct (match message_handler r with
            | Some handler => handler message
            | None => agent_instance r message
            end); auto.
Qed.

(** The status of an agent after a delivery: the receiver keeps its status
    when the handler returns and is in ERROR when it raises; the others are
    untouched. *)
Lemma status_of_deliver p message x :
  status_of (snd (_deliver_message_sync p message)) x
  = match registered_agents p !! receiver message with
    | Some r =>
        if decide (receiver message = x)
        then match handler_of r message with
             | Returns => Some (status r)
             | Raises => Some AgentStatus.ERROR
             end
        else status_of p x
    | None => status_of p x
    end.
Proof.
  destruct (registered_agents p !! receiver message) as [r|] eqn:Hr.
  - rewrite (_deliver_message_sync_handler p message r Hr).
    destruct (decide (receiver message = x)) as [<- | Hne].
    + destruct (handler_of r message); simpl;
        rewrite !status_of_set_status_eq; unfold status_of; now rewrite Hr.
    + destruct (handler_of r message); simpl;
        now rewrite !status_of_set_status_ne.
  - unfold _deliver_message_sync. now rewrite Hr.
Qed.

(** A delivery never makes an agent ACTIVE that was not. *)
Lemma deliver_no_activation p message x :
  status_of (snd (_deliver_message_sync p message)) x = Some AgentStatus.ACTIVE ->
  status_of p x = Some AgentStatus.ACTIVE.
Proof.
  rewrite status_of_deliver.
  destruct (registered_agents p !! receiver message) as [r|] eqn:Hr; auto.
  destruct (decide (receiver message = x)) as [<- | Hne]; auto.
  unfold status_of. rewrite Hr. simpl.
  destruct (handler_of r message); [auto | discriminate].
Qed.

Lemma _handle_delivery_failure_registry settings p message :
  registered_agents (snd (_handle_delivery_failure settings p message))
  = registered_agents p.
Proof.
  unfold _handle_delivery_failure.
  destruct (retry_count message <? A2A_MAX_RETRIES settings); reflexivity.
Qed.

(** ** Validation and routing *)

Lemma _validate_message_false message now :
  _validate_message message now = false
  <-> sender message = "" \/ receiver message = ""
      \/ is_expired message now = true \/ is_dict (payload message) = false.
Proof.
  unfold _validate_message.
  destruct (String.eqb_spec (sender message) "") as [Hs|Hs]; simpl.
  { split; auto. }
  destruct (String.eqb_spec (receiver message) "") as [Hr|Hr]; simpl.
  { split; auto. }
  destruct (is_expired message now); [split; auto|].
  destruct (is_dict (payload message)); simpl; split; auto.
  intros [H|[H|[H|H]]]; congruence.
Qed.

Lemma send_message_invalid settings p message now :
  _validate_message message now = false ->
  send_message settings p message now = (false, p).
Proof. intros H. unfold send_message. now rewrite H. Qed.

(** C3 (counterexample): the sample request, sent 31 seconds after it was
    built, is expired; [send_message] returns false and the failed list is
    as empty as before. *)
Lemma expired_message_not_recorded :
  is_expired sample_message 31000000 = true
  /\ fst (send_message default_settings
            (sample_protocol accepting_handler AgentStatus.ACTIVE)
            sample_message 31000000) = false
  /\ failed_messages
       (snd (send_message default_settings
               (sample_protocol accepting_handler AgentStatus.ACTIVE)
               sample_message 31000000)) = [].
Proof. repeat split. Qed.

(** C3 (as amended): a message that fails validation (empty sender or
    receiver, already expired, or a payload that is not a dictionary) makes
    [send_message] return false and leave the protocol as it was: nothing is
    appended to the failed list or to the history, whatever the registry
    holds for the receiver. *)
Theorem invalid_message_rejected_and_dropped settings p message now :
  sender message = "" \/ receiver message = ""
  \/ is_expired message now = true \/ is_dict (payload message) = false ->
  send_message settings p message now = (false, p).
Proof.
  intros H. apply send_message_invalid. now apply _validate_message_false.
Qed.

Lemma invalid_message_sample :
  send_message default_settings (sample_protocol accepting_handler AgentStatus.ACTIVE)
    sample_message 31000000
  = (false, sample_protocol accepting_handler AgentStatus.ACTIVE).
Proof.
  apply (invalid_message_rejected_and_dropped default_settings
           (sample_protocol accepting_handler AgentStatus.ACTIVE)
           sample_message 31000000).
  right. right. left. reflexivity.
Defined.

(** C6: a message that passes validation and whose receiver is not
    registered makes [send_message] return false; the message is appended to
    the failed list as it was sent, so with the retry count 0 of a fresh
    message; no retry thread is started and nothing else changes. *)
Theorem unknown_receiver_archived settings p message now :
  _validate_message message now = true ->
  registered_agents p !! receiver message = None ->
  exists p',
    send_message settings p message now = (false, p')
    /\ failed_messages p' = (failed_messages p ++ [message])%list
    /\ retry_threads p' = retry_threads p
    /\ message_history p' = message_history p
    /\ registered_agents p' = registered_agents p
    /\ (retry_count message = 0 ->
        exists archived, last (failed_messages p') = Some archived
                         /\ retry_count archived = 0).
Proof.
  intros Hv Hr. eexists. unfold send_message. rewrite Hv, Hr. simpl.
  split; [reflexivity|]. repeat (split; [reflexivity|]).
  intros H0. exists message. split; [apply last_snoc | exact H0].
Qed.

Lemma unknown_receiver_sample :
  exists p',
    send_message default_settings (sample_protocol accepting_handler AgentStatus.ACTIVE)
      stray_message 1000000 = (false, p')
    /\ failed_messages p' = [stray_message]
    /\ retry_threads p' = []
    /\ message_history p' = []
    /\ registered_agents p'
       = registered_agents (sample_protocol accepting_handler AgentStatus.ACTIVE)
    /\ (retry_count stray_message = 0 ->
        exists archived, last (failed_messages p') = Some archived
                         /\ retry_count archived = 0).
Proof.
  apply (unknown_receiver_archived default_settings
           (sample_protocol accepting_handler AgentStatus.ACTIVE) stray_message 1000000).
  - reflexivity.
  - reflexivity.
Defined.

(** ** The retry policy *)

Lemma with_retry_count_twice m a b :
  with_retry_count (with_retry_count m a) b = with_retry_count m b.
Proof. reflexivity. Qed.

Lemma with_retry_count_same m : with_retry_count m (retry_count m) = m.
Proof. now destruct m. Qed.

Lemma always_raises_set_status p x s n :
  always_raises p n -> always_raises (set_status p x s) n.
Proof.
  intros (r & Hr & Hh). unfold always_raises.
  rewrite lookup_set_status. destruct (decide (x = n)) as [-> | Hne].
  - rewrite Hr. simpl. eexists. split; [reflexivity|]. exact Hh.
  - now exists r.
Qed.

Lemma _handle_delivery_failure_retry settings p message :
  retry_count message < A2A_MAX_RETRIES settings ->
  _handle_delivery_failure settings p message
  = (with_retry_count message (retry_count message + 1),
     with_retry_threads p
       (retry_threads p
        ++ [mkRetryThread (Qmin (Qpower 2 (retry_count message + 1)) 5)
              (with_retry_count message (retry_count message + 1))])%list).
Proof.
  intros H. unfold _handle_delivery_failure.
  apply Z.ltb_lt in H. now rewrite H.
Qed.

Lemma _handle_delivery_failure_archive settings p message :
  A2A_MAX_RETRIES settings <= retry_count message ->
  _handle_delivery_failure settings p message
  = (message, with_failed_messages p (failed_messages p ++ [message])%list).
Proof.
  intros H. unfold _handle_delivery_failure.
  apply Z.ltb_ge in H. now rewrite H.
Qed.

(** A message whose every delivery fails goes through the remaining
    retries, sleeping [min(2^N, 5)] before the one that carries the count
    [N], and ends in the failed list with its count at the bound. *)
Lemma retries_exhaust settings (k : nat) :
  forall p message fuel,
    retry_count message + Z.of_nat k = A2A_MAX_RETRIES settings ->
    always_raises p (receiver message) ->
    retry_threads p = [] ->
    (k <= fuel)%nat ->
    exists p',
      run_retries settings fuel (snd (_handle_delivery_failure settings p message))
      = (retry_delays (retry_count message + 1) k, p')
      /\ failed_messages p'
         = (failed_messages p
            ++ [with_retry_count message (A2A_MAX_RETRIES settings)])%list
      /\ retry_threads p' = []
      /\ message_history p' = message_history p.
Proof.
  induction k as [|k IH]; intros p message fuel Hk Hraise Hth Hfuel.
  - rewrite _handle_delivery_failure_archive by lia. simpl.
    eexists. split.
    + destruct fuel; simpl; try rewrite Hth; reflexivity.
    + simpl. replace (A2A_MAX_RETRIES settings) with (retry_count message) by lia.
      now rewrite with_retry_count_same.
  - rewrite _handle_delivery_failure_retry by lia. rewrite Hth. simpl.
    destruct fuel as [|fuel]; [lia|]. simpl.
    set (message' := with_retry_count message (retry_count message + 1)).
    destruct Hraise as (r & Hr & Hh).
    unfold retry_later.
    rewrite (_deliver_message_sync_handler _ message' r) by exact Hr.
    rewrite Hh.
    set (p1 := set_status _ _ AgentStatus.ERROR).
    assert (H1 : retry_count message' + Z.of_nat k = A2A_MAX_RETRIES settings)
      by (subst message'; simpl; lia).
    assert (H2 : always_raises p1 (receiver message')).
    { subst p1. apply always_raises_set_status, always_raises_set_status.
      now exists r. }
    assert (H3 : retry_threads p1 = []) by reflexivity.
    assert (H4 : (k <= fuel)%nat) by lia.
    destruct (IH p1 message' fuel H1 H2 H3 H4)
      as (p' & Hrun & Hfailed & Hthreads & Hhist).
    rewrite Hrun. exists p'. split; [|split; [|split]]; auto.
Qed.

Lemma _handle_delivery_failure_within_policy settings p message :
  Forall (within_policy settings) (retry_threads p) ->
  Forall (within_policy settings)
    (retry_threads (snd (_handle_delivery_failure settings p message))).
Proof.
  intros H. unfold _handle_delivery_failure.
  destruct (retry_count message <? A2A_MAX_RETRIES settings) eqn:E; simpl; auto.
  apply Z.ltb_lt in E. apply Forall_app. split; auto.
  constructor; [|constructor]. split; simpl; [lia | reflexivity].
Qed.

Lemma retry_later_within_policy settings p message :
  Forall (within_policy settings) (retry_threads p) ->
  Forall (within_policy settings) (retry_threads (retry_later settings p message)).
Proof.
  intros H. unfold retry_later.
  pose proof (_deliver_message_sync_lists p message) as (_ & _ & Hth).
  destruct (_deliver_message_sync p message) as [[|] p1]; simpl in Hth.
  - now rewrite Hth.
  - apply _handle_delivery_failure_within_policy. now rewrite Hth.
Qed.

Lemma send_message_within_policy settings p message now :
  Forall (within_policy settings) (retry_threads p) ->
  Forall (within_policy settings)
    (retry_threads (snd (send_message settings p message now))).
Proof.
  intros H. unfold send_message.
  destruct (_validate_message message now); simpl; auto.
  destruct (registered_agents p !! receiver message); simpl; auto.
  pose proof (_deliver_message_sync_lists
                (with_message_history p (message_history p ++ [message])%list) message)
    as (_ & _ & Hth).
  destruct (_deliver_message_sync _ message) as [[|] p1]; simpl in *.
  - now rewrite Hth.
  - apply _handle_delivery_failure_within_policy. now rewrite Hth.
Qed.

Lemma broadcast_retry_threads settings uuid4 isoformat p agent_name event_type now :
  retry_threads (_broadcast_agent_event settings uuid4 isoformat p agent_name
                   event_type now)
  = retry_threads p.
Proof.
  unfold _broadcast_agent_event.
  generalize (map fst (map_to_list (registered_agents p))). intros l.
  revert p. induction l as [|reg_name l IH]; simpl; intros p; auto.
  rewrite IH.
  destruct (status_of p reg_name) as [[| | |]|]; auto.
  destruct (String.eqb reg_name agent_name); auto.
  apply _deliver_message_sync_lists.
Qed.

(** Whatever happens to the protocol, the pending retries stay within the
    policy. *)
Lemma run_within_policy settings uuid4 isoformat events :
  forall p,
    Forall (within_policy settings) (retry_threads p) ->
    Forall (within_policy settings)
      (retry_threads (run settings uuid4 isoformat p events)).
Proof.
  unfold run. induction events as [|e events IH]; simpl; intros p H; auto.
  apply IH.
  destruct e as [n inst caps h now | n now | message now | k | n now | now | now];
    simpl.
  - unfold register_agent. now rewrite broadcast_retry_threads.
  - unfold unregister_agent.
    destruct (registered_agents p !! n); auto.
    now rewrite broadcast_retry_threads.
  - now apply send_message_within_policy.
  - unfold run_retry_thread.
    destruct (retry_threads p !! k) as [t|] eqn:Ek; auto.
    apply retry_later_within_policy. simpl.
    apply Forall_app. split.
    + now apply Forall_take.
    + now apply Forall_drop.
  - exact H.
  - exact H.
  - exact H.
Qed.

(** C5: a delivery failure never takes the retry count past the bound.
    Below the bound it bumps the count and starts one retry thread that
    sleeps [min(2^count, 5)] for the bumped count; at or above the bound it
    appends the message to the failed list and starts no thread.  So a fresh
    message whose every delivery fails is retried [A2A_MAX_RETRIES] times,
    the N-th retry after a sleep of [min(2^N, 5)], and then rests in the
    failed list with its count at the bound.  And whatever the sequence of
    calls, wake-ups and background passes, the retries pending stay within
    the policy. *)
Theorem retry_policy_bounded_backoff settings p message :
  retry_count (fst (_handle_delivery_failure settings p message))
    <= Z.max (retry_count message) (A2A_MAX_RETRIES settings)
  /\ (retry_count message < A2A_MAX_RETRIES settings ->
      _handle_delivery_failure settings p message
      = (with_retry_count message (retry_count message + 1),
         with_retry_threads p
           (retry_threads p
            ++ [mkRetryThread (Qmin (Qpower 2 (retry_count message + 1)) 5)
                  (with_retry_count message (retry_count message + 1))])%list))
  /\ (A2A_MAX_RETRIES settings <= retry_count message ->
      _handle_delivery_failure settings p message
      = (message, with_failed_messages p (failed_messages p ++ [message])%list))
  /\ (forall now fuel,
       retry_count message = 0 ->
       0 <= A2A_MAX_RETRIES settings ->
       _validate_message message now = true ->
       always_raises p (receiver message) ->
       retry_threads p = [] ->
       (Z.to_nat (A2A_MAX_RETRIES settings) <= fuel)%nat ->
       exists p1 p2,
         send_message settings p message now = (false, p1)
         /\ run_retries settings fuel p1
            = (retry_delays 1 (Z.to_nat (A2A_MAX_RETRIES settings)), p2)
         /\ failed_messages p2
            = (failed_messages p
               ++ [with_retry_count message (A2A_MAX_RETRIES settings)])%list
         /\ retry_threads p2 = [])
  /\ forall uuid4 isoformat events,
       Forall (within_policy settings) (retry_threads p) ->
       Forall (within_policy settings)
         (retry_threads (run settings uuid4 isoformat p events)).
Proof.
  split; [|split; [|split; [|split]]]; [| | | |intros; now apply run_within_policy].
  - unfold _handle_delivery_failure.
    destruct (retry_count message <? A2A_MAX_RETRIES settings) eqn:E; simpl.
    + apply Z.ltb_lt in E. lia.
    + lia.
  - apply _handle_delivery_failure_retry.
  - apply _handle_delivery_failure_archive.
  - intros now fuel H0 Hmax Hv Hraise Hth Hfuel.
    pose proof Hraise as (r & Hr & Hh).
    unfold send_message. rewrite Hv, Hr. simpl.
    rewrite (_deliver_message_sync_handler _ message r) by exact Hr.
    rewrite Hh.
    set (p0 := set_status _ _ AgentStatus.ERROR).
    assert (H1 : retry_count message
                 + Z.of_nat (Z.to_nat (A2A_MAX_RETRIES settings))
                 = A2A_MAX_RETRIES settings) by lia.
    assert (H2 : always_raises p0 (receiver message)).
    { subst p0. apply always_raises_set_status, always_raises_set_status.
      unfold always_raises. simpl. now exists r. }
    assert (H3 : retry_threads p0 = []) by exact Hth.
    destruct (retries_exhaust settings (Z.to_nat (A2A_MAX_RETRIES settings))
                p0 message fuel H1 H2 H3 Hfuel)
      as (p' & Hrun & Hfailed & Hthreads & _).
    eexists _, p'. split; [reflexivity|].
    rewrite H0 in Hrun. simpl in Hrun. auto.
Qed.

(** Under the default settings the three retries sleep 2, 4 and 5 seconds. *)
Example retry_delays_default :
  retry_delays 1 (Z.to_nat (A2A_MAX_RETRIES default_settings)) = [2%Q; 4%Q; 5%Q].
Proof. reflexivity. Qed.

Lemma always_raises_sample :
  always_raises (sample_protocol failing_handler AgentStatus.ACTIVE)
    (receiver sample_message).
Proof.
  eexists. split; [reflexivity|]. intros m. reflexivity.
Qed.

(** The sample request sent to an agent whose handler always raises: three
    retries, then the failed list. *)
Lemma retry_policy_sample :
  exists p1 p2,
    send_message default_settings (sample_protocol failing_handler AgentStatus.ACTIVE)
      sample_message 1000000 = (false, p1)
    /\ run_retries default_settings 3 p1
       = (retry_delays 1 (Z.to_nat (A2A_MAX_RETRIES default_settings)), p2)
    /\ failed_messages p2
       = (failed_messages (sample_protocol failing_handler AgentStatus.ACTIVE)
          ++ [with_retry_count sample_message (A2A_MAX_RETRIES default_settings)])%list
    /\ retry_threads p2 = [].
Proof.
  apply (proj1 (proj2 (proj2 (proj2
           (retry_policy_bounded_backoff default_settings
              (sample_protocol failing_handler AgentStatus.ACTIVE) sample_message))))
           1000000 3%nat).
  - reflexivity.
  - simpl. lia.
  - reflexivity.
  - apply always_raises_sample.
  - reflexivity.
  - simpl. lia.
Defined.

(** ** Deliveries nested in a handler *)

Section NestedInvariant.
Variable settings : Settings.
Variable sends : Reentrant.Sends.
(** A relation between the protocol before and the protocol after that
    every write of a delivery keeps. *)
Variable R : AgentProtocol -> AgentProtocol -> Prop.
Hypothesis R_refl : forall p, R p p.
Hypothesis R_trans : forall p q r, R p q -> R q r -> R p r.
Hypothesis R_history :
  forall p l, R p (with_message_history p (message_history p ++ l)%list).
Hypothesis R_failed :
  forall p l, R p (with_failed_messages p (failed_messages p ++ l)%list).
Hypothesis R_threads : forall p l, R p (with_retry_threads p l).
Hypothesis R_status :
  forall p q x r s,
    registered_agents p !! x = Some r ->
    R (set_status p x AgentStatus.BUSY) q ->
    s = status r \/ s = AgentStatus.ERROR ->
    R p (set_status q x s).

Lemma _handle_delivery_failure_kept p message :
  R p (snd (_handle_delivery_failure settings p message)).
Proof.
  unfold _handle_delivery_failure.
  destruct (retry_count message <? A2A_MAX_RETRIES settings); simpl.
  - apply R_threads.
  - apply R_failed.
Qed.

Lemma send_message_with_kept deliver :
  (forall p message b p', deliver p message = Some (b, p') -> R p p') ->
  forall p message now b p',
    Reentrant.send_message_with settings deliver p message now = Some (b, p') ->
    R p p'.
Proof.
  intros Hd p message now b p'. unfold Reentrant.send_message_with.
  destruct (negb (_validate_message message now)).
  { intros [= <- <-]. apply R_refl. }
  destruct (registered_agents p !! receiver message).
  2:{ intros [= <- <-]. apply (R_failed p [message]). }
  destruct (deliver _ message) as [[[|] q]|] eqn:E; [| |discriminate];
    intros [= <- <-].
  - eapply R_trans; [apply (R_history p [message])|]. eapply Hd. exact E.
  - eapply R_trans; [apply (R_history p [message])|].
    eapply R_trans; [eapply Hd; exact E|]. apply _handle_delivery_failure_kept.
Qed.

Lemma handler_sends_kept send :
  (forall p message now b p', send p message now = Some (b, p') -> R p p') ->
  forall calls p p', Reentrant.handler_sends send p calls = Some p' -> R p p'.
Proof.
  intros Hs. induction calls as [|[message now] calls IH]; intros p p'; simpl.
  - intros [= <-]. apply R_refl.
  - destruct (send p message now) as [[b q]|] eqn:E; [|discriminate].
    intros H. eapply R_trans; [eapply Hs; exact E | now apply IH].
Qed.

Lemma _deliver_message_sync_kept depth :
  forall p message b p',
    Reentrant._deliver_message_sync settings sends depth p message = Some (b, p') ->
    R p p'.
Proof.
  induction depth as [|depth IH]; intros p message b p'; simpl; [discriminate|].
  destruct (registered_agents p !! receiver message) as [r|] eqn:Hr.
  2:{ intros [= <- <-]. apply R_refl. }
  destruct (Reentrant.handler_sends _ _ _) as [q|] eqn:Hq; [|discriminate].
  apply (handler_sends_kept _ (send_message_with_kept _ IH)) in Hq.
  destruct (match message_handler r with
            | Some handler => handler
            | None => agent_instance r
            end message); intros [= <- <-].
  - eapply R_status; eauto.
  - eapply R_status; eauto.
Qed.

Lemma send_message_kept depth p message now b p' :
  Reentrant.send_message settings sends depth p message now = Some (b, p') -> R p p'.
Proof.
  apply send_message_with_kept. apply _deliver_message_sync_kept.
Qed.

Lemma retry_later_kept depth p message p' :
  Reentrant.retry_later settings sends depth p message = Some p' -> R p p'.
Proof.
  unfold Reentrant.retry_later.
  destruct (Reentrant._deliver_message_sync settings sends depth p message)
    as [[[|] q]|] eqn:E; [| |discriminate]; intros [= <-].
  - eapply _deliver_message_sync_kept. exact E.
  - eapply R_trans; [eapply _deliver_message_sync_kept; exact E|].
    apply _handle_delivery_failure_kept.
Qed.

Lemma run_retry_thread_kept depth p n p' :
  Reentrant.run_retry_thread settings sends depth p n = Some p' -> R p p'.
Proof.
  unfold Reentrant.run_retry_thread.
  destruct (retry_threads p !! n) as [t|].
  - intros H. eapply R_trans; [apply R_threads|]. eapply retry_later_kept. exact H.
  - intros [= <-]. apply R_refl.
Qed.

End NestedInvariant.

Lemma keeps_registered_refl p : keeps_registered p p.
Proof. now intros x. Qed.

Lemma keeps_registered_trans p q r :
  keeps_registered p q -> keeps_registered q r -> keeps_registered p r.
Proof. intros H1 H2 x Hx. now apply H2, H1. Qed.

Lemma keeps_history_refl p : keeps_history p p.
Proof. now intros id. Qed.

Lemma keeps_history_trans p q r :
  keeps_history p q -> keeps_history q r -> keeps_history p r.
Proof. intros H1 H2 id Hid. now apply H2, H1. Qed.

Lemma keeps_history_append p l :
  keeps_history p (with_message_history p (message_history p ++ l)%list).
Proof. intros id Hid. simpl. rewrite map_app, in_app_iff. now left. Qed.


Lemma activates_nobody_trans x p q r :
  activates_nobody x p q -> activates_nobody x q r -> activates_nobody x p r.
Proof. intros H1 H2 H. now apply H1, H2. Qed.

Create HintDb nested.

#[local] Hint Resolve keeps_registered_refl keeps_registered_trans keeps_history_refl
  keeps_history_trans keeps_history_append activates_nobody_trans : nested.

#[local] Hint Extern 1 (keeps_registered _ _) => (intros ? ?; assumption) : nested.
#[local] Hint Extern 1 (keeps_history _ _) => (intros ? ?; assumption) : nested.
#[local] Hint Extern 1 (activates_nobody _ _ _) => (intros ?; assumption) : nested.

Lemma keeps_registered_status p q x r s :
  registered_agents p !! x = Some r ->
  keeps_registered (set_status p x AgentStatus.BUSY) q ->
  s = status r \/ s = AgentStatus.ERROR ->
  keeps_registered p (set_status q x s).
Proof.
  intros _ H _ y Hy. rewrite lookup_set_status.
  assert (Hq : forall z, is_Some (registered_agents p !! z) ->
                         is_Some (registered_agents q !! z)).
  { intros z Hz. apply H. rewrite lookup_set_status.
    destruct (decide (x = z)) as [-> | _]; [|exact Hz].
    now apply fmap_is_Some. }
  destruct (decide (x = y)) as [-> | _]; [apply fmap_is_Some|]; now apply Hq.
Qed.

Lemma activates_nobody_status y p q x r s :
  registered_agents p !! x = Some r ->
  activates_nobody y (set_status p x AgentStatus.BUSY) q ->
  s = status r \/ s = AgentStatus.ERROR ->
  activates_nobody y p (set_status q x s).
Proof.
  intros Hr H Hs. unfold activates_nobody in *.
  destruct (decide (x = y)) as [<- | Hne].
  - rewrite status_of_set_status_eq. intros Hact.
    destruct (status_of q x) as [sq|]; [|discriminate]. simpl in Hact.
    injection Hact as ->. unfold status_of. rewrite Hr. simpl.
    destruct Hs as [-> | Hs]; [reflexivity | discriminate].
  - rewrite status_of_set_status_ne by exact Hne. intros Hact.
    apply H in Hact. now rewrite status_of_set_status_ne in Hact.
Qed.

Section NestedFacts.
Variable settings : Settings.
Variable sends : Reentrant.Sends.

Lemma nested_send_keeps_registered depth p message now b p' :
  Reentrant.send_message settings sends depth p message now = Some (b, p') ->
  keeps_registered p p'.
Proof.
  apply (send_message_kept settings sends keeps_registered);
    eauto using keeps_registered_status with nested.
Qed.

Lemma nested_sends_keep_registered depth calls p p' :
  Reentrant.handler_sends (Reentrant.send_message settings sends depth) p calls = Some p' ->
  keeps_registered p p'.
Proof.
  apply (handler_sends_kept keeps_registered); eauto with nested.
  intros q message now b q'. apply nested_send_keeps_registered.
Qed.






(** A delivery that returns true leaves the receiver with the status it
    had when the delivery started, whatever was delivered in between. *)
Lemma nested_delivery_restores depth p message p' r :
  Reentrant._deliver_message_sync settings sends depth p message = Some (true, p') ->
  registered_agents p !! receiver message = Some r ->
  status_of p' (receiver message) = Some (status r).
Proof.
  destruct depth as [|depth]; simpl; [discriminate|]. intros H Hr. rewrite Hr in H.
  destruct (Reentrant.handler_sends _ _ _) as [q|] eqn:Hq; [|discriminate].
  apply nested_sends_keep_registered in Hq.
  destruct (match message_handler r with
            | Some handler => handler
            | None => agent_instance r
            end message); [|discriminate].
  injection H as <-. rewrite status_of_set_status_eq.
  destruct (Hq (receiver message)) as [r' Hr'].
  { rewrite lookup_set_status. destruct (decide (receiver message = receiver message));
      [|contradiction]. rewrite Hr. now eexists. }
  unfold status_of. now rewrite Hr'.
Qed.

Lemma nested_send_restores depth p message now p' r :
  Reentrant.send_message settings sends depth p message now = Some (true, p') ->
  registered_agents p !! receiver message = Some r ->
  status_of p' (receiver message) = Some (status r).
Proof.
  unfold Reentrant.send_message, Reentrant.send_message_with. intros H Hr.
  destruct (negb (_validate_message message now)); [discriminate|].
  rewrite Hr in H.
  destruct (Reentrant._deliver_message_sync settings sends depth _ message)
    as [[[|] q]|] eqn:Hd; [| discriminate | discriminate].
  injection H as <-.
  now apply (nested_delivery_restores _ _ _ _ r) in Hd.
Qed.

Lemma nested_send_activates_nobody x depth p message now b p' :
  Reentrant.send_message settings sends depth p message now = Some (b, p') ->
  activates_nobody x p p'.
Proof.
  apply (send_message_kept settings sends (activates_nobody x));
    eauto using activates_nobody_status with nested.
Qed.

Lemma nested_retry_activates_nobody x depth p n p' :
  Reentrant.run_retry_thread settings sends depth p n = Some p' ->
  activates_nobody x p p'.
Proof.
  apply (run_retry_thread_kept settings sends (activates_nobody x));
    eauto using activates_nobody_status with nested.
Qed.

End NestedFacts.

(** With handlers that send nothing the nested delivery is the plain one. *)
Lemma silent_deliver settings depth p message :
  Reentrant._deliver_message_sync settings Reentrant.silent (S depth) p message
  = Some (_deliver_message_sync p message).
Proof.
  unfold _deliver_message_sync. simpl.
  destruct (registered_agents p !! receiver message) as [r|]; [|reflexivity].
  destruct (message_handler r) as [h|]; [destruct (h message) | destruct (agent_instance r message)];
    reflexivity.
Qed.

Lemma silent_send_message settings depth p message now :
  Reentrant.send_message settings Reentrant.silent (S depth) p message now
  = Some (send_message settings p message now).
Proof.
  unfold Reentrant.send_message, Reentrant.send_message_with, send_message.
  destruct (negb (_validate_message message now)); [reflexivity|].
  destruct (registered_agents p !! receiver message); [|reflexivity].
  rewrite silent_deliver.
  now destruct (_deliver_message_sync _ message) as [[|] q].
Qed.

Lemma silent_run_retry_thread settings depth p n :
  Reentrant.run_retry_thread settings Reentrant.silent (S depth) p n
  = Some (run_retry_thread settings p n).
Proof.
  unfold Reentrant.run_retry_thread, run_retry_thread.
  destruct (retry_threads p !! n) as [t|]; [|reflexivity].
  unfold Reentrant.retry_later, retry_later. rewrite silent_deliver.
  now destruct (_deliver_message_sync _ (retry_message t)) as [[|] q].
Qed.



(** A retry of the sample request to an agent whose handler raises: the
    request has expired, the handler is called all the same, the agent is
    put in ERROR and a second retry is scheduled, 4 seconds later. *)
Example retry_of_expired_message_fails_again :
  let p := with_retry_threads (sample_protocol failing_handler AgentStatus.ACTIVE)
             [mkRetryThread 2 (with_retry_count sample_message 1)] in
  is_expired (with_retry_count sample_message 1) 31000000 = true
  /\ status_of (run_retry_thread default_settings p 0) "ranking_agent"
     = Some AgentStatus.ERROR
  /\ retry_threads (run_retry_thread default_settings p 0)
     = [mkRetryThread 4 (with_retry_count sample_message 2)].
Proof. vm_compute. repeat split. Qed.

(** ** Statuses along the operations of the registry *)

Lemma send_message_registry settings p message now x :
  status_of (snd (send_message settings p message now)) x
  = if _validate_message message now
    then status_of
           (snd (_deliver_message_sync
                   (with_message_history p (message_history p ++ [message])%list)
                   message)) x
    else status_of p x.
Proof.
  unfold send_message.
  destruct (_validate_message message now); simpl; [|reflexivity].
  destruct (registered_agents p !! receiver message) as [r|] eqn:Hr.
  - destruct (_deliver_message_sync _ message) as [[|] p1] eqn:Hd; simpl; auto.
    unfold status_of. now rewrite _handle_delivery_failure_registry.
  - unfold _deliver_message_sync. simpl. now rewrite Hr.
Qed.

Lemma send_message_no_activation settings p message now x :
  status_of (snd (send_message settings p message now)) x = Some AgentStatus.ACTIVE ->
  status_of p x = Some AgentStatus.ACTIVE.
Proof.
  rewrite send_message_registry.
  destruct (_validate_message message now); auto.
  intros H. now apply deliver_no_activation in H.
Qed.

Lemma retry_later_no_activation settings p message x :
  status_of (retry_later settings p message) x = Some AgentStatus.ACTIVE ->
  status_of p x = Some AgentStatus.ACTIVE.
Proof.
  unfold retry_later.
  destruct (_deliver_message_sync p message) as [[|] p1] eqn:Hd; intros H.
  - apply (deliver_no_activation p message). now rewrite Hd.
  - apply (deliver_no_activation p message). rewrite Hd. simpl.
    unfold status_of in *. now rewrite _handle_delivery_failure_registry in H.
Qed.

Section RegistryFacts.
Variable settings : Settings.
Variable uuid4 : string -> string.
Variable isoformat : Z -> string.

(** A broadcast never makes an agent ACTIVE that was not. *)
Lemma broadcast_no_activation p agent_name event_type now x :
  status_of (_broadcast_agent_event settings uuid4 isoformat p agent_name event_type now) x
  = Some AgentStatus.ACTIVE ->
  status_of p x = Some AgentStatus.ACTIVE.
Proof.
  unfold _broadcast_agent_event.
  generalize (map fst (map_to_list (registered_agents p))). intros l.
  revert p. induction l as [|reg_name l IH]; simpl; intros p H; auto.
  apply IH in H.
  destruct (status_of p reg_name) as [[| | |]|]; auto.
  destruct (String.eqb reg_name agent_name); auto.
  now apply deliver_no_activation in H.
Qed.

(** A broadcast about an agent does not touch that agent's own status. *)
Lemma broadcast_status_self p agent_name event_type now :
  status_of (_broadcast_agent_event settings uuid4 isoformat p agent_name event_type now)
    agent_name
  = status_of p agent_name.
Proof.
  unfold _broadcast_agent_event.
  generalize (map fst (map_to_list (registered_agents p))). intros l.
  revert p. induction l as [|reg_name l IH]; simpl; intros p; auto.
  rewrite IH.
  destruct (status_of p reg_name) as [[| | |]|]; auto.
  destruct (String.eqb_spec reg_name agent_name) as [|Hne]; auto.
  rewrite status_of_deliver. simpl.
  destruct (registered_agents p !! reg_name); auto.
  destruct (decide (reg_name = agent_name)); [contradiction | reflexivity].
Qed.

Lemma register_agent_active p agent_name agent_instance capabilities message_handler now :
  status_of (register_agent settings uuid4 isoformat p agent_name agent_instance
               capabilities message_handler now) agent_name
  = Some AgentStatus.ACTIVE.
Proof.
  unfold register_agent. rewrite broadcast_status_self.
  unfold status_of. simpl. now rewrite lookup_insert_eq.
Qed.

Lemma send_heartbeat_status p agent_name now x :
  status_of (send_heartbeat p agent_name now) x
  = if decide (agent_name = x)
    then (fun s => if AgentStatus.eqb s AgentStatus.INACTIVE
                   then AgentStatus.ACTIVE else s) <$> status_of p x
    else status_of p x.
Proof.
  unfold status_of, send_heartbeat. simpl. rewrite lookup_alter.
  destruct (decide (agent_name = x)) as [-> | Hne]; auto.
  destruct (registered_agents p !! x) as [r|]; simpl; auto.
  now destruct (AgentStatus.eqb (status r) AgentStatus.INACTIVE).
Qed.

Lemma monitor_no_activation p now x :
  status_of (_monitor_agent_heartbeats settings p now) x = Some AgentStatus.ACTIVE ->
  status_of p x = Some AgentStatus.ACTIVE.
Proof.
  unfold status_of, _monitor_agent_heartbeats. simpl. rewrite lookup_fmap.
  destruct (registered_agents p !! x) as [r|]; simpl; auto.
  destruct (negb (is_alive settings r now)); auto.
  destruct (AgentStatus.eqb (status r) AgentStatus.ACTIVE); auto.
  simpl. discriminate.
Qed.

(** In one step of the protocol an agent that is not ACTIVE becomes ACTIVE
    only by a heartbeat that finds it INACTIVE or by its registration. *)
Lemma step_activation p e x :
  status_of p x <> Some AgentStatus.ACTIVE ->
  status_of (step settings uuid4 isoformat p e) x = Some AgentStatus.ACTIVE ->
  (exists now, e = EvHeartbeat x now /\ status_of p x = Some AgentStatus.INACTIVE)
  \/ (exists agent_instance capabilities message_handler now,
        e = EvRegister x agent_instance capabilities message_handler now).
Proof.
  intros Hna H.
  destruct e as [n inst caps h now | n now | message now | k | n now | now | now];
    simpl in H.
  - destruct (decide (n = x)) as [-> | Hne]; [right; eauto|].
    exfalso. apply Hna. unfold register_agent in H.
    apply broadcast_no_activation in H.
    unfold status_of in *. simpl in H. now rewrite lookup_insert_ne in H.
  - exfalso. apply Hna. unfold unregister_agent in H.
    destruct (registered_agents p !! n) as [r|] eqn:Hr; auto.
    apply broadcast_no_activation in H.
    unfold status_of in *. simpl in H.
    destruct (decide (n = x)) as [-> | Hne].
    + now rewrite lookup_delete_eq in H.
    + now rewrite lookup_delete_ne in H.
  - exfalso. apply Hna. now apply send_message_no_activation in H.
  - exfalso. apply Hna. unfold run_retry_thread in H.
    destruct (retry_threads p !! k) as [t|]; auto.
    now apply retry_later_no_activation in H.
  - rewrite send_heartbeat_status in H.
    destruct (decide (n = x)) as [-> | Hne]; [|contradiction].
    left. exists now. split; auto.
    destruct (status_of p x) as [[| | |]|]; simpl in H; try discriminate; auto.
    contradiction.
  - exfalso. apply Hna. now apply monitor_no_activation in H.
  - exfalso. apply Hna. exact H.
Qed.

End RegistryFacts.

Lemma send_message_ignores_status settings p x st message now :
  fst (send_message settings (set_status p x st) message now)
  = fst (send_message settings p message now).
Proof.
  unfold send_message.
  destruct (_validate_message message now); cbn [negb]; auto.
  rewrite lookup_set_status.
  destruct (decide (x = receiver message)) as [-> | Hne].
  - destruct (registered_agents p !! receiver message) as [r|] eqn:Hr;
      cbn [fmap option_fmap option_map]; auto.
    rewrite (_deliver_message_sync_handler _ message (with_status r st)).
    2:{ cbn [registered_agents with_message_history]. rewrite lookup_set_status.
        destruct (decide (receiver message = receiver message)); [|contradiction].
        now rewrite Hr. }
    rewrite (_deliver_message_sync_handler _ message r) by exact Hr.
    rewrite handler_of_with_status.
    destruct (handler_of r message); reflexivity.
  - destruct (registered_agents p !! receiver message) as [r|] eqn:Hr; auto.
    rewrite (_deliver_message_sync_handler _ message r).
    2:{ cbn [registered_agents with_message_history]. rewrite lookup_set_status.
        destruct (decide (x = receiver message)); [contradiction | exact Hr]. }
    rewrite (_deliver_message_sync_handler _ message r) by exact Hr.
    destruct (handler_of r message); reflexivity.
Qed.

Lemma send_message_delivered settings p message now r :
  _validate_message message now = true ->
  registered_agents p !! receiver message = Some r ->
  handler_of r message = Returns ->
  exists p',
    send_message settings p message now = (true, p')
    /\ status_of p' (receiver message) = Some (status r).
Proof.
  intros Hv Hr Hh. unfold send_message. rewrite Hv, Hr. simpl.
  rewrite (_deliver_message_sync_handler _ message r) by exact Hr.
  rewrite Hh. eexists. split; [reflexivity|].
  rewrite !status_of_set_status_eq. unfold status_of. simpl. now rewrite Hr.
Qed.

(** C10 (counterexample): both agents are ACTIVE.  The comparison agent
    handles a request and passes a request on to the ranking agent, which
    answers the sender; the comparison agent's handler raises on the answer.
    That nested delivery fails, so when the handler of the comparison agent
    is about to return the agent is in ERROR (line 225); the delivery of the
    first request then succeeds and restores the status it found, ACTIVE
    (line 219).  No heartbeat was sent and nobody registered: only the
    statuses of the two agents differ between the two protocols, and a retry
    of the answer is pending. *)
Lemma nested_failure_restored_to_active :
  exists inside after,
    nested_inside = Some inside
    /\ status_of inside "comparison_agent" = Some AgentStatus.ERROR
    /\ Reentrant.send_message default_settings nested_sends 3 nested_protocol
         start_message 1000000 = Some (true, after)
    /\ after = set_status inside "comparison_agent" AgentStatus.ACTIVE
    /\ status_of after "comparison_agent" = Some AgentStatus.ACTIVE
    /\ map message_id (message_history after) = ["m-0"; "m-1"; "m-5"]
    /\ map (fun t => message_id (retry_message t)) (retry_threads after) = ["m-5"].
Proof.
  eexists _, _.
  split; [vm_compute; reflexivity|].
  split; [vm_compute; reflexivity|].
  split; [vm_compute; reflexivity|].
  repeat split; vm_compute; reflexivity.
Qed.

(** C10: the outcome of [send_message] does not depend on the status
    recorded for any agent; a valid message to a registered receiver whose
    handler returns is delivered whatever that status is.  A delivery that
    succeeds leaves the receiver with the status it had when the delivery
    started, whatever the handler sent in between: an agent that is in ERROR
    when a delivery to it starts is in ERROR when the delivery has
    succeeded.  A heartbeat turns INACTIVE into ACTIVE and leaves every other
    status alone; a registration leaves the agent ACTIVE; and from one call
    of the protocol to the next nothing else makes an agent ACTIVE that was
    not, also when handlers send messages while they run.  With handlers
    that send nothing the nested delivery is the plain one. *)
Theorem delivery_ignores_receiver_status settings uuid4 isoformat p :
  (forall x st message now,
     fst (send_message settings (set_status p x st) message now)
     = fst (send_message settings p message now))
  /\ (forall message now r,
        _validate_message message now = true ->
        registered_agents p !! receiver message = Some r ->
        handler_of r message = Returns ->
        exists p',
          send_message settings p message now = (true, p')
          /\ status_of p' (receiver message) = Some (status r)
          /\ (status r = AgentStatus.ERROR ->
              status_of p' (receiver message) = Some AgentStatus.ERROR))
  /\ (forall sends depth message now r p',
        Reentrant.send_message settings sends depth p message now = Some (true, p') ->
        registered_agents p !! receiver message = Some r ->
        status_of p' (receiver message) = Some (status r)
        /\ (status r = AgentStatus.ERROR ->
            status_of p' (receiver message) = Some AgentStatus.ERROR))
  /\ (forall x now,
        status_of (send_heartbeat p x now) x
        = (fun s => if AgentStatus.eqb s AgentStatus.INACTIVE
                    then AgentStatus.ACTIVE else s) <$> status_of p x)
  /\ (forall x agent_instance capabilities message_handler now,
        status_of (register_agent settings uuid4 isoformat p x agent_instance
                     capabilities message_handler now) x
        = Some AgentStatus.ACTIVE)
  /\ (forall sends depth e x p',
        Reentrant.step settings sends uuid4 isoformat depth p e = Some p' ->
        status_of p x <> Some AgentStatus.ACTIVE ->
        status_of p' x = Some AgentStatus.ACTIVE ->
        (exists now, e = EvHeartbeat x now
                     /\ status_of p x = Some AgentStatus.INACTIVE)
        \/ (exists agent_instance capabilities message_handler now,
              e = EvRegister x agent_instance capabilities message_handler now))
  /\ (forall depth e,
        Reentrant.step settings Reentrant.silent uuid4 isoformat (S depth) p e
        = Some (step settings uuid4 isoformat p e)).
Proof.
  split; [|split; [|split; [|split; [|split; [|split]]]]].
  - intros x st message now. apply send_message_ignores_status.
  - intros message now r Hv Hr Hh.
    destruct (send_message_delivered settings p message now r Hv Hr Hh)
      as (p' & Hsend & Hst).
    exists p'. split; [exact Hsend|]. split; [exact Hst|].
    intros He. now rewrite Hst, He.
  - intros sends depth message now r p' Hsend Hr.
    pose proof (nested_send_restores settings sends depth p message now p' r Hsend Hr)
      as Hst.
    split; [exact Hst|]. intros He. now rewrite Hst, He.
  - intros x now. rewrite send_heartbeat_status.
    destruct (decide (x = x)); [reflexivity | contradiction].
  - intros. apply register_agent_active.
  - intros sends depth e x p' Hstep Hna Hact.
    pose proof (step_activation settings uuid4 isoformat p e x Hna) as Hplain.
    destruct e as [n inst caps h now | n now | message now | k | n now | now | now];
      simpl in Hstep;
      try (injection Hstep as <-; exact (Hplain Hact)).
    + exfalso. apply Hna.
      destruct (Reentrant.send_message settings sends depth p message now)
        as [[b q]|] eqn:Hsend; [|discriminate].
      injection Hstep as <-.
      exact (nested_send_activates_nobody settings sends x _ _ _ _ _ _ Hsend Hact).
    + exfalso. apply Hna.
      exact (nested_retry_activates_nobody settings sends x _ _ _ _ Hstep Hact).
  - intros depth e.
    destruct e as [n inst caps h now | n now | message now | k | n now | now | now];
      try reflexivity.
    + simpl. now rewrite silent_send_message.
    + simpl. apply silent_run_retry_thread.
Qed.

(** An agent in ERROR receives the sample request, keeps ERROR, is not
    revived by a heartbeat, and is ACTIVE again once it registers anew. *)
Example error_agent_stays_in_error :
  let p := sample_protocol accepting_handler AgentStatus.ERROR in
  let sent := send_message default_settings p sample_message 1000000 in
  fst sent = true
  /\ status_of (snd sent) "ranking_agent" = Some AgentStatus.ERROR
  /\ status_of (send_heartbeat (snd sent) "ranking_agent" 2000000) "ranking_agent"
     = Some AgentStatus.ERROR
  /\ status_of
       (register_agent default_settings (fun n => n) (fun _ => "t") (snd sent)
          "ranking_agent" accepting_handler None None 3000000) "ranking_agent"
     = Some AgentStatus.ACTIVE.
Proof. vm_compute. repeat split. Qed.

(** ** The hand-over from ranking to communication *)

(** C4 (counterexample): two applications, both with the neutral
    comparison result and the score 0.  The ranking agent answers the sender
    and hands the full ranking (positions 1 and 2, scores 0) to the
    communication agent, which produces the top-candidates email, not the
    one for no suitable candidates. *)
Lemma zero_scores_get_top_candidates_email :
  map to sample_ranking_sends = ["comparison_agent"; "communication_agent"]
  /\ map (request_scores "rank") sample_ranking_sends
     = [[PyInt 1; PyInt 2]; [PyInt 1; PyInt 2]]
  /\ map (request_scores "similarity_score") sample_ranking_sends
     = [[PyFloat 0; PyFloat 0]; [PyFloat 0; PyFloat 0]]
  /\ map subject sample_pipeline_emails = ["Top Candidates Found for Engineer"].
Proof. vm_compute. repeat split. Qed.

Lemma candidate_cards_format (rs : list Ranking.Ranking) :
  forall i, exists cards,
    candidate_cards i (map format_ranking rs) = Ok cards
    /\ length cards = length rs
    /\ Forall2 (fun r c => card_match_score c = (Ranking.similarity_score r * 100)%Q
                           /\ card_application_id c = Ranking.application_id r)
         rs cards
    /\ Forall2 (card_of (fun r => (Ranking.similarity_score r * 100)%Q)) rs cards
    /\ map card_position cards = positions i (length rs).
Proof.
  induction rs as [|r rs IH]; intros i.
  - exists []. repeat split; constructor.
  - destruct (IH (i + 1)) as (cards & Hc & Hlen & Hall & Hof & Hpos).
    exists (mkCandidateCard i (Ranking.applicant_name r)
              (Ranking.similarity_score r * 100)%Q (Ranking.application_id r) :: cards).
    split; [|split; [|split; [|split]]].
    + change (candidate_cards i (map format_ranking (r :: rs)))
        with (let* card := candidate_card i (format_ranking r) in
              let* cards := candidate_cards (i + 1) (map format_ranking rs) in
              Ok (card :: cards)).
      rewrite Hc. reflexivity.
    + simpl. now rewrite Hlen.
    + constructor; auto.
    + constructor; [|exact Hof]. unfold card_of. simpl. auto.
    + simpl. now rewrite Hpos.
Qed.

Section PipelineFacts.
Variable str_to_float : string -> option Q.
Variable exn_str : exn -> string.
Variable format_value : pyval -> string.
Context {Database : Type}.
Variable _clear_existing_rankings : Database -> pyval -> Database.
Variable _save_ranking : Database -> Ranking.Ranking -> option Z * Database.
Variable log_activity : Database -> string -> pydict -> Database.
Variable _generate_ranking_insights : list Ranking.Ranking -> pyval.
Variable time_time : Z -> Q.
Variable _get_job_details : pyval -> option JobDetails.
Variable _get_recruiter_email : pyval -> option string.

(** The notification for a non-empty list of formatted rankings is the
    top-candidates email with a card for each of the first three. *)
Lemma send_ranking_notification_top job_id job_details r (rs : list Ranking.Ranking) :
  truthy job_id = true ->
  _get_job_details job_id = Some job_details ->
  exists cards,
    snd (send_ranking_notification exn_str _get_job_details _get_recruiter_email
           [("action", PyStr "send_ranking_notification");
            ("job_id", job_id);
            ("rankings", PyList (map format_ranking (r :: rs)))])
    = [mkEmail (recipient_of _get_recruiter_email job_details)
         ("Top Candidates Found for " ++ title job_details)
         (ranking_email_content job_details cards)]
    /\ length cards = Nat.min 3 (length (r :: rs))
    /\ Forall2 (fun r c => card_match_score c = (Ranking.similarity_score r * 100)%Q
                           /\ card_application_id c = Ranking.application_id r)
         (take 3 (r :: rs)) cards
    /\ Forall2 (card_of (fun r => (Ranking.similarity_score r * 100)%Q))
         (take 3 (r :: rs)) cards
    /\ map card_position cards = positions 1 (length cards).
Proof.
  intros Hjob Hdetails.
  destruct (candidate_cards_format (take 3 (r :: rs)) 1)
    as (cards & Hc & Hlen & Hall & Hof & Hpos).
  exists cards. split; [|split; [|split; [exact Hall|split; [exact Hof|]]]].
  3:{ now rewrite Hlen. }
  - unfold send_ranking_notification, send_ranking_notification_try.
    change (dict_get _ "job_id" PyNone) with job_id.
    change (dict_get _ "rankings" (PyList []))
      with (PyList (map format_ranking (r :: rs))).
    cbn [len bind]. rewrite Hjob. cbn [negb]. rewrite Hdetails.
    cbn [truthy map first_three bind].
    change (format_ranking r :: map format_ranking rs)
      with (map format_ranking (r :: rs)).
    rewrite <- fmap_take.
    change (candidate_cards 1 (format_ranking <$> take 3 (r :: rs)))
      with (candidate_cards 1 (map format_ranking (take 3 (r :: rs)))).
    destruct (take 3 (r :: rs)) as [|r' rs'] eqn:Et; [discriminate|].
    cbn [map]. cbn [map] in Hc. rewrite Hc. reflexivity.
  - rewrite Hlen. apply length_take.
Qed.

(** For an empty list it is the email for no suitable candidates. *)
Lemma send_ranking_notification_empty job_id job_details :
  truthy job_id = true ->
  _get_job_details job_id = Some job_details ->
  snd (send_ranking_notification exn_str _get_job_details _get_recruiter_email
         [("action", PyStr "send_ranking_notification");
          ("job_id", job_id);
          ("rankings", PyList [])])
  = [mkEmail (recipient_of _get_recruiter_email job_details)
       ("No Suitable Candidates Found for " ++ title job_details)
       (no_matches_email_content job_details)].
Proof.
  intros Hjob Hdetails.
  unfold send_ranking_notification, send_ranking_notification_try.
  change (dict_get _ "job_id" PyNone) with job_id.
  change (dict_get _ "rankings" (PyList [])) with (PyList []).
  cbn [len bind]. rewrite Hjob. cbn [negb]. rewrite Hdetails. reflexivity.
Qed.

End PipelineFacts.

Section PipelineClaims.
Variable str_to_float : string -> option Q.
Variable exn_str : exn -> string.
Variable format_value : pyval -> string.
Context {Database : Type}.
Variable _clear_existing_rankings : Database -> pyval -> Database.
Variable _save_ranking : Database -> Ranking.Ranking -> option Z * Database.
Variable log_activity : Database -> string -> pydict -> Database.
Variable _generate_ranking_insights : list Ranking.Ranking -> pyval.
Variable time_time : Z -> Q.
Variable _get_job_details : pyval -> option JobDetails.
Variable _get_recruiter_email : pyval -> option string.

(** C4 (as amended): when the ranking agent receives a request to rank a
    non-empty list of comparison results that all have the enhanced score 0
    (their scores being finite floats), and every save succeeds, it answers
    its sender and sends the full ranking (positions 1..N, all scores 0) to
    the communication agent; for a job that exists the communication agent
    then produces the top-candidates email, whose cards, numbered from 1,
    show the first three entries of the ranking in rank order, or all of
    them when there are fewer, each with its applicant, its application and
    its score as a percentage.  The email for no suitable candidates is
    produced when the list handed over is empty. *)
Theorem zero_scores_ranked_then_top_candidates_email
    db message (task_data : pydict) (ds : list pydict) job_details :
  message_type message = MessageType.REQUEST ->
  payload message = PyDict task_data ->
  dict_get task_data "action" PyNone = PyStr "rank_applications" ->
  truthy (dict_get task_data "job_id" PyNone) = true ->
  dict_get task_data "comparison_results" (PyList []) = PyList (map PyDict ds) ->
  ds <> [] ->
  Forall has_application_id ds ->
  Forall finite_scores ds ->
  Forall (fun d => (enhanced_score_of str_to_float d == 0)%Q) ds ->
  saves_succeed _save_ranking ->
  _get_job_details (dict_get task_data "job_id" PyNone) = Some job_details ->
  exists response rankings cards db',
    ranking_receive_message str_to_float exn_str format_value _clear_existing_rankings
      _save_ranking log_activity _generate_ranking_insights time_time db message
    = ([mkSendRequest (sender message) MessageType.RESPONSE (PyDict response)
          (Some (message_id message));
        comm_message message (dict_get task_data "job_id" PyNone)
          (PyList (map format_ranking rankings))], db')
    /\ dict_find response "rankings" = Some (PyList (map format_ranking rankings))
    /\ map Ranking.rank_position rankings = positions 1 (length ds)
    /\ Forall (fun r => (Ranking.similarity_score r == 0)%Q) rankings
    /\ communication_emails exn_str _get_job_details _get_recruiter_email
         (comm_message message (dict_get task_data "job_id" PyNone)
            (PyList (map format_ranking rankings)))
       = [mkEmail (recipient_of _get_recruiter_email job_details)
            ("Top Candidates Found for " ++ title job_details)
            (ranking_email_content job_details cards)]
    /\ length cards = Nat.min 3 (length ds)
    /\ Forall2 (card_of (fun r => (Ranking.similarity_score r * 100)%Q))
         (take 3 rankings) cards
    /\ map card_position cards = positions 1 (length cards)
    /\ communication_emails exn_str _get_job_details _get_recruiter_email
         (comm_message message (dict_get task_data "job_id" PyNone) (PyList []))
       = [mkEmail (recipient_of _get_recruiter_email job_details)
            ("No Suitable Candidates Found for " ++ title job_details)
            (no_matches_email_content job_details)].
Proof.
  intros Hty Hpay Hact Hjob Hres Hne Hids Hfinite Hzero Hsave Hdetails.
  assert (Hscorable : Forall scorable ds)
    by (eapply Forall_impl; [exact Hfinite | intros d H; apply H]).
  destruct (rank_applications_success str_to_float exn_str _clear_existing_rankings
              _save_ranking log_activity _generate_ranking_insights time_time
              db task_data ds Hjob Hres Hne Hscorable Hids Hsave)
    as (rankings & response & db' & Hrun & Hstatus & Hlist & Hof & Hpos).
  assert (Hlen : length rankings = length ds).
  { apply Forall2_length in Hof. rewrite <- Hof. apply sorted_reverse_length. }
  destruct rankings as [|r rs]; [destruct ds; [congruence | discriminate]|].
  destruct (send_ranking_notification_top exn_str _get_job_details _get_recruiter_email
              (dict_get task_data "job_id" PyNone) job_details r rs Hjob Hdetails)
    as (cards & Hmail & Hcards & _ & Hshown & Hnumbers).
  exists response, (r :: rs), cards, db'.
  split; [|split; [exact Hlist|split; [exact Hpos|split; [|split; [|split;
    [|split; [exact Hshown|split; [exact Hnumbers|]]]]]]]].
  - unfold ranking_receive_message. rewrite Hty, Hpay, Hact.
    change (eq_str (PyStr "rank_applications") "rank_applications") with true.
    cbv iota. rewrite Hrun.
    unfold dict_item, dict_get. rewrite Hstatus, Hlist. reflexivity.
  - assert (Hranked : Forall (fun d => (enhanced_score_of str_to_float d == 0)%Q)
                        (sorted_reverse (enhanced_score_of str_to_float) ds)).
    { eapply Permutation_Forall; [symmetry; apply sorted_reverse_perm | exact Hzero]. }
    revert Hof Hranked.
    generalize (sorted_reverse (enhanced_score_of str_to_float) ds).
    intros ranked Hof Hranked. clear - Hof Hranked.
    induction Hof as [|d r' ranked' rankings' Hdr Hrest IH]; [constructor|].
    inversion Hranked; subst. constructor; auto.
    destruct Hdr as (_ & -> & _). assumption.
  - exact Hmail.
  - rewrite Hcards, Hlen. reflexivity.
  - apply (send_ranking_notification_empty exn_str _get_job_details
             _get_recruiter_email); assumption.
Qed.

End PipelineClaims.

Lemma zero_results_score_zero :
  Forall (fun d => (enhanced_score_of sample_str_to_float d == 0)%Q) zero_results.
Proof. repeat constructor. Qed.

(** The sample run of the pipeline is an instance of C4 as amended. *)
Lemma zero_scores_pipeline_sample :
  exists response rankings cards db',
    ranking_receive_message sample_str_to_float sample_exn_str sample_format_value
      sample_clear sample_save sample_log sample_insights sample_time [] rank_request
    = ([mkSendRequest "comparison_agent" MessageType.RESPONSE (PyDict response)
          (Some "m-4");
        comm_message rank_request (PyInt 1) (PyList (map format_ranking rankings))], db')
    /\ dict_find response "rankings" = Some (PyList (map format_ranking rankings))
    /\ map Ranking.rank_position rankings = positions 1 (length zero_results)
    /\ Forall (fun r => (Ranking.similarity_score r == 0)%Q) rankings
    /\ communication_emails sample_exn_str sample_get_job_details
         sample_get_recruiter_email
         (comm_message rank_request (PyInt 1) (PyList (map format_ranking rankings)))
       = [mkEmail (recipient_of sample_get_recruiter_email sample_job)
            ("Top Candidates Found for " ++ title sample_job)
            (ranking_email_content sample_job cards)]
    /\ length cards = Nat.min 3 (length zero_results)
    /\ Forall2 (card_of (fun r => (Ranking.similarity_score r * 100)%Q))
         (take 3 rankings) cards
    /\ map card_position cards = positions 1 (length cards)
    /\ communication_emails sample_exn_str sample_get_job_details
         sample_get_recruiter_email
         (comm_message rank_request (PyInt 1) (PyList []))
       = [mkEmail (recipient_of sample_get_recruiter_email sample_job)
            ("No Suitable Candidates Found for " ++ title sample_job)
            (no_matches_email_content sample_job)].
Proof.
  apply (zero_scores_ranked_then_top_candidates_email sample_str_to_float sample_exn_str
           sample_format_value sample_clear sample_save sample_log sample_insights
           sample_time sample_get_job_details sample_get_recruiter_email []
           rank_request
           [("action", PyStr "rank_applications");
            ("job_id", PyInt 1);
            ("comparison_results", PyList (map PyDict zero_results))]
           zero_results sample_job).
  - reflexivity.
  - reflexivity.
  - reflexivity.
  - reflexivity.
  - reflexivity.
  - discriminate.
  - repeat constructor; eexists; reflexivity.
  - repeat constructor.
  - apply zero_results_score_zero.
  - apply saves_succeed_sample.
  - reflexivity.
Defined.

(** ** Capabilities and liveness *)

Lemma deliver_capabilities p message x :
  capabilities <$> registered_agents (snd (_deliver_message_sync p message)) !! x
  = capabilities <$> registered_agents p !! x.
Proof.
  destruct (registered_agents p !! receiver message) as [r|] eqn:Hr.
  - rewrite (_deliver_message_sync_handler p message r Hr).
    destruct (handler_of r message); simpl; rewrite !lookup_alter;
      repeat case_decide; subst; rewrite ?Hr; try reflexivity; contradiction.
  - unfold _deliver_message_sync. now rewrite Hr.
Qed.

Lemma broadcast_capabilities settings uuid4 isoformat p agent_name event_type now x :
  capabilities
    <$> registered_agents
          (_broadcast_agent_event settings uuid4 isoformat p agent_name event_type now)
        !! x
  = capabilities <$> registered_agents p !! x.
Proof.
  unfold _broadcast_agent_event.
  generalize (map fst (map_to_list (registered_agents p))). intros l.
  revert p. induction l as [|reg_name l IH]; simpl; intros p; auto.
  rewrite IH.
  destruct (status_of p reg_name) as [[| | |]|]; auto.
  destruct (String.eqb reg_name agent_name); auto.
  apply deliver_capabilities.
Qed.

(** X3: after a registration, [get_agent_capabilities] returns exactly the
    capabilities passed; for a name that is not registered it returns the
    empty list. *)
Theorem register_then_capabilities settings uuid4 isoformat p agent_name
    agent_instance (capabilities : list AgentCapability) message_handler now :
  get_agent_capabilities
    (register_agent settings uuid4 isoformat p agent_name agent_instance
       (Some capabilities) message_handler now) agent_name
  = capabilities
  /\ forall other, registered_agents p !! other = None ->
                   get_agent_capabilities p other = [].
Proof.
  split.
  - unfold get_agent_capabilities, register_agent.
    pose proof (broadcast_capabilities settings uuid4 isoformat
                  (with_registered_agents p
                     (<[agent_name :=
                          mkAgentRegistration agent_name agent_instance capabilities
                            AgentStatus.ACTIVE now message_handler]>
                        (registered_agents p)))
                  agent_name "agent_registered" now agent_name) as H.
    simpl in H. rewrite lookup_insert_eq in H. simpl in H.
    destruct (registered_agents _ !! agent_name) as [r|]; simpl in H.
    + now injection H.
    + discriminate.
  - intros other H. unfold get_agent_capabilities. now rewrite H.
Qed.

(** X4: an ACTIVE agent whose last heartbeat is at least twice the message
    timeout old is INACTIVE after a pass of the monitor, and ACTIVE again
    after its next heartbeat. *)
Theorem missed_heartbeats_then_reactivation settings p x r now now' :
  registered_agents p !! x = Some r ->
  status r = AgentStatus.ACTIVE ->
  timedelta_seconds (A2A_MESSAGE_TIMEOUT settings * 2) <= now - last_heartbeat r ->
  status_of (_monitor_agent_heartbeats settings p now) x = Some AgentStatus.INACTIVE
  /\ status_of (send_heartbeat (_monitor_agent_heartbeats settings p now) x now') x
     = Some AgentStatus.ACTIVE.
Proof.
  intros Hr Hs Hold.
  assert (Hm : status_of (_monitor_agent_heartbeats settings p now) x
               = Some AgentStatus.INACTIVE).
  { unfold status_of, _monitor_agent_heartbeats. simpl.
    rewrite lookup_fmap, Hr. simpl.
    unfold is_alive. apply Z.ltb_ge in Hold. rewrite Hold. simpl.
    now rewrite Hs. }
  split; [exact Hm|].
  rewrite send_heartbeat_status.
  destruct (decide (x = x)); [|contradiction]. now rewrite Hm.
Qed.

Lemma missed_heartbeats_sample :
  status_of (_monitor_agent_heartbeats default_settings
               (sample_protocol accepting_handler AgentStatus.ACTIVE) 60000000)
    "ranking_agent" = Some AgentStatus.INACTIVE
  /\ status_of
       (send_heartbeat
          (_monitor_agent_heartbeats default_settings
             (sample_protocol accepting_handler AgentStatus.ACTIVE) 60000000)
          "ranking_agent" 61000000)
       "ranking_agent" = Some AgentStatus.ACTIVE.
Proof.
  apply (missed_heartbeats_then_reactivation default_settings
           (sample_protocol accepting_handler AgentStatus.ACTIVE) "ranking_agent"
           (mkAgentRegistration "ranking_agent" accepting_handler [] AgentStatus.ACTIVE
              0 None)
           60000000 61000000).
  - reflexivity.
  - reflexivity.
  - vm_compute. discriminate.
Defined.

(** ** When [rank_applications] succeeds *)

Section RankingSuccess.
Variable str_to_float : string -> option Q.
Variable exn_str : exn -> string.
Context {Database : Type}.
Variable _clear_existing_rankings : Database -> pyval -> Database.
Variable _save_ranking : Database -> Ranking.Ranking -> option Z * Database.
Variable log_activity : Database -> string -> pydict -> Database.
Variable _generate_ranking_insights : list Ranking.Ranking -> pyval.
Variable time_time : Z -> Q.

Lemma save_rankings_application_ids job total (ranked : list pydict) :
  Forall scorable ranked ->
  forall db i rankings db',
    save_rankings str_to_float _save_ranking time_time db job total i
      (map (scored str_to_float) ranked) = (Ok rankings, db') ->
    Forall has_application_id ranked.
Proof.
  induction 1 as [|d ranked Hd _ IH]; simpl; intros db i rankings db' H.
  - constructor.
  - destruct (build_ranking str_to_float time_time job total i (scored str_to_float d))
      as [r|e] eqn:Eb; [|discriminate].
    apply build_ranking_scored_inv in Eb as [(Hid & _) _]; [|exact Hd].
    destruct (_save_ranking db r) as [ranking_id db1].
    destruct (save_rankings str_to_float _save_ranking time_time db1 job total (i + 1)
                (map (scored str_to_float) ranked)) as [later db2] eqn:El.
    destruct later as [rest|e]; [|discriminate].
    constructor; [eexists; exact Hid | eapply IH; exact El].
Qed.

(** X5: a response with the status success comes only from a job id that
    is set and a non-empty list of dictionaries that all carry an
    application id and a similarity score that is not an integer too large
    for a float; when every save succeeds its rank positions are then 1..N
    for the N results, and the rankings are in descending order of enhanced
    score when the scores of the results are finite floats. *)
Theorem success_means_every_result_ranked db (task_data : pydict) response db' :
  saves_succeed _save_ranking ->
  rank_applications str_to_float exn_str _clear_existing_rankings _save_ranking
    log_activity _generate_ranking_insights time_time db task_data = (response, db') ->
  dict_find response "status" = Some (PyStr "success") ->
  exists (ds : list pydict) rankings,
    truthy (dict_get task_data "job_id" PyNone) = true
    /\ dict_get task_data "comparison_results" (PyList []) = PyList (map PyDict ds)
    /\ ds <> []
    /\ Forall has_application_id ds
    /\ Forall scorable ds
    /\ dict_find response "rankings" = Some (PyList (map format_ranking rankings))
    /\ map Ranking.rank_position rankings = positions 1 (length ds)
    /\ (Forall finite_scores ds -> descending Ranking.similarity_score rankings).
Proof.
  intros Hsave Hrun Hstatus.
  assert (Hshape : exists ds,
            truthy (dict_get task_data "job_id" PyNone) = true
            /\ dict_get task_data "comparison_results" (PyList []) = PyList (map PyDict ds)
            /\ ds <> [] /\ Forall has_application_id ds /\ Forall scorable ds).
  { revert Hrun. unfold rank_applications.
    destruct (truthy (dict_get task_data "job_id" PyNone)) eqn:Ej; cbn [negb].
    2:{ intros [= <- <-]. discriminate. }
    destruct (truthy (dict_get task_data "comparison_results" (PyList []))) eqn:Et;
      cbn [negb].
    2:{ intros [= <- <-]. discriminate. }
    unfold rank_applications_try.
    destruct (dict_get task_data "comparison_results" (PyList []))
      as [| | | | |results|] eqn:Eres;
      try (intros [= <- <-]; discriminate).
    destruct (score_results str_to_float results) as [sc|e] eqn:Esc.
    2:{ intros [= <- <-]. discriminate. }
    apply score_results_inv in Esc as (ds & -> & -> & Hscorable).
    rewrite sorted_scored.
    destruct (save_rankings _ _ _ _ _ _ _ _) as [saved db1] eqn:Es.
    destruct saved as [rankings|e].
    2:{ intros [= <- <-]. discriminate. }
    apply save_rankings_application_ids in Es.
    2:{ eapply Permutation_Forall; [symmetry; apply sorted_reverse_perm|exact Hscorable]. }
    intros _. exists ds. repeat split; auto.
    - intros ->. discriminate.
    - eapply Permutation_Forall; [apply sorted_reverse_perm | exact Es]. }
  destruct Hshape as (ds & Hjob & Hres & Hne & Hids & Hscorable).
  destruct (rank_applications_success str_to_float exn_str _clear_existing_rankings
              _save_ranking log_activity _generate_ranking_insights time_time
              db task_data ds Hjob Hres Hne Hscorable Hids Hsave)
    as (rankings & response' & db'' & Hrun' & _ & Hlist & Hof & Hpos).
  rewrite Hrun in Hrun'. injection Hrun' as <- <-.
  exists ds, rankings. repeat (split; [assumption|]).
  intros _.
  eapply descending_Forall2; [|apply sorted_reverse_descending].
  eapply Forall2_impl; [exact Hof|].
  intros d r (_ & Hscore & _). exact Hscore.
Qed.

End RankingSuccess.

Lemma success_sample :
  exists (ds : list pydict) rankings,
    truthy (dict_get sample_task "job_id" PyNone) = true
    /\ dict_get sample_task "comparison_results" (PyList []) = PyList (map PyDict ds)
    /\ ds <> []
    /\ Forall has_application_id ds
    /\ Forall scorable ds
    /\ dict_find sample_response "rankings" = Some (PyList (map format_ranking rankings))
    /\ map Ranking.rank_position rankings = positions 1 (length ds)
    /\ (Forall finite_scores ds -> descending Ranking.similarity_score rankings).
Proof.
  apply (success_means_every_result_ranked sample_str_to_float sample_exn_str
           sample_clear sample_save sample_log sample_insights sample_time []
           sample_task sample_response (snd (sample_rank_applications sample_task))).
  - apply saves_succeed_sample.
  - reflexivity.
  - reflexivity.
Defined.

(** ** The adjustment of the scoring engine *)

Section AdjustmentFacts.
Variable str_to_float : string -> option Q.
Local Open Scope Q_scope.

Lemma Qmin_cap_bounds (n : nat) (c : Q) :
  0 <= c -> 0 <= Qmin (1 # 10) (inject_Z (Z.of_nat n) * c) <= 1 # 10.
Proof.
  intros Hc. split.
  - apply Q.min_glb; [lra|].
    apply Qmult_le_0_compat; [|exact Hc].
    change 0 with (inject_Z 0). rewrite <- Zle_Qle. lia.
  - apply Q.le_min_l.
Qed.

Lemma skills_adjustment_shift details :
  exists c, -(1 # 10) <= c <= 1 # 10
            /\ forall e, skills_adjustment details e == e + c.
Proof.
  unfold skills_adjustment.
  destruct (dict_get details "skills_match" (PyDict [])) as [| | | | | |skills];
    try (exists 0; split; [lra | intros; lra]).
  set (matched := dict_get skills "matched_skills" (PyList [])).
  set (missing := dict_get skills "missing_skills" (PyList [])).
  assert (Hb : exists bonus, 0 <= bonus <= 1 # 10
             /\ forall x,
                  match matched with
                  | PyList l =>
                      if (0 <? Z.of_nat (length l))%Z
                      then x + Qmin (1 # 10) (inject_Z (Z.of_nat (length l)) * (2 # 100))
                      else x
                  | _ => x
                  end == x + bonus).
  { destruct matched as [| | | | |l|]; try (exists 0; split; [lra | intros; lra]).
    destruct (0 <? Z.of_nat (length l))%Z; [|exists 0; split; [lra | intros; lra]].
    exists (Qmin (1 # 10) (inject_Z (Z.of_nat (length l)) * (2 # 100))).
    split; [apply Qmin_cap_bounds; lra | intros; lra]. }
  assert (Hp : exists penalty, 0 <= penalty <= 1 # 10
             /\ forall x,
                  match missing with
                  | PyList l =>
                      if (0 <? Z.of_nat (length l))%Z
                      then x - Qmin (1 # 10) (inject_Z (Z.of_nat (length l)) * (15 # 1000))
                      else x
                  | _ => x
                  end == x - penalty).
  { destruct missing as [| | | | |l|]; try (exists 0; split; [lra | intros; lra]).
    destruct (0 <? Z.of_nat (length l))%Z; [|exists 0; split; [lra | intros; lra]].
    exists (Qmin (1 # 10) (inject_Z (Z.of_nat (length l)) * (15 # 1000))).
    split; [apply Qmin_cap_bounds; lra | intros; lra]. }
  destruct Hb as (bonus & Hbonus & Hb), Hp as (penalty & Hpenalty & Hp).
  exists (bonus - penalty). split; [lra|].
  intros x. cbv zeta. rewrite Hp, Hb. lra.
Qed.

Lemma relevance_fits_dec details :
  relevance_fits details
  \/ exists experience_match,
       dict_get details "experience_match" (PyDict []) = PyDict experience_match
       /\ oversized (dict_get experience_match "relevance_score" (PyInt 0)) = true.
Proof.
  unfold relevance_fits.
  destruct (dict_get details "experience_match" (PyDict [])) as [| | | | | |em]; auto.
  destruct (oversized (dict_get em "relevance_score" (PyInt 0))) eqn:E; eauto.
Qed.

Lemma experience_adjustment_shift details :
  relevance_fits details ->
  exists c, 0 <= c <= 5 # 100
            /\ forall e, exists e',
                 experience_adjustment str_to_float details e = Ok e' /\ e' == e + c.
Proof.
  unfold relevance_fits, experience_adjustment.
  destruct (dict_get details "experience_match" (PyDict [])) as [| | | | | |experience];
    try (intros _; exists 0; split; [lra | intros; eexists; split; [reflexivity | lra]]).
  intros Hfits.
  destruct (float str_to_float _) as [r|x] eqn:Ef.
  - destruct (Qltb (7 # 10) r).
    + exists (5 # 100). split; [lra | intros; eexists; split; [reflexivity | lra]].
    + exists 0. split; [lra | intros; eexists; split; [reflexivity | lra]].
  - exists 0. split; [lra|].
    destruct (float_caught _ _ _ Hfits Ef) as [-> | ->];
      intros; eexists; split; try reflexivity; lra.
Qed.

(** A relevance score that is an integer too large for a float raises
    [OverflowError] past the inner handler. *)
Lemma experience_adjustment_overflow details experience_match e :
  dict_get details "experience_match" (PyDict []) = PyDict experience_match ->
  oversized (dict_get experience_match "relevance_score" (PyInt 0)) = true ->
  experience_adjustment str_to_float details e = Raise OverflowError.
Proof.
  intros Hem Hover. unfold experience_adjustment. rewrite Hem.
  now rewrite (float_oversized str_to_float _ Hover).
Qed.

Lemma education_adjustment_shift details :
  exists c, 0 <= c <= 3 # 100
            /\ forall e, education_adjustment details e == e + c.
Proof.
  unfold education_adjustment.
  destruct (dict_get details "education_match" (PyDict [])) as [| | | | | |education];
    try (exists 0; split; [lra | intros; lra]).
  destruct (truthy _).
  - exists (3 # 100). split; [lra | intros; lra].
  - exists 0. split; [lra | intros; lra].
Qed.

Lemma assessment_adjustment_shift details :
  exists c, -(5 # 100) <= c <= 8 # 100
            /\ forall e, assessment_adjustment details e == e + c.
Proof.
  unfold assessment_adjustment.
  destruct (dict_get details "overall_assessment" (PyDict [])) as [| | | | | |assessment];
    try (exists 0; split; [lra | intros; lra]).
  destruct (eq_str _ "highly_recommended").
  { exists (8 # 100). split; [lra | intros; lra]. }
  destruct (eq_str _ "recommended").
  { exists (4 # 100). split; [lra | intros; lra]. }
  destruct (eq_str _ "not_recommended").
  { exists (-(5 # 100)). split; [lra | intros; lra]. }
  exists 0. split; [lra | intros; lra].
Qed.

(** The details shift the base score by an amount of their own, between
    -0.15 and +0.26. *)
Lemma adjusted_score_shift details :
  relevance_fits details ->
  exists c, -(15 # 100) <= c <= 26 # 100
            /\ forall b, exists e,
                 adjusted_score str_to_float details b = Ok e /\ e == b + c.
Proof.
  intros Hfits.
  destruct (skills_adjustment_shift details) as (c1 & H1 & E1).
  destruct (experience_adjustment_shift details Hfits) as (c2 & H2 & E2).
  destruct (education_adjustment_shift details) as (c3 & H3 & E3).
  destruct (assessment_adjustment_shift details) as (c4 & H4 & E4).
  exists (c1 + c2 + c3 + c4). split; [lra|].
  intros b. unfold adjusted_score.
  destruct (E2 (skills_adjustment details b)) as (e2 & -> & He2).
  simpl. eexists. split; [reflexivity|].
  rewrite E4, E3, He2, E1. lra.
Qed.

(** The score in terms of the base score and of the adjustments: an
    exception among the adjustments is caught by the outer handler, which
    returns the base score as it is. *)
Lemma _calculate_enhanced_score_adjusted (result details : pydict) :
  dict_get result "comparison_details" (PyDict []) = PyDict details ->
  _calculate_enhanced_score str_to_float (PyDict result)
  = match base_score_of str_to_float result with
    | Ok b =>
        match adjusted_score str_to_float details b with
        | Ok e => Ok (clamp e)
        | Raise _ => Ok b
        end
    | Raise ValueError => Ok 0
    | Raise TypeError => Ok 0
    | Raise x => Raise x
    end.
Proof.
  intros Hd.
  unfold _calculate_enhanced_score, enhanced_score_try, enhanced_score_except,
    base_score_of, adjusted_score, clamp.
  simpl. rewrite Hd.
  destruct (is_none (dict_get result "similarity_score" (PyFloat 0))) eqn:En; simpl.
  - destruct (experience_adjustment str_to_float details _); reflexivity.
  - destruct (float str_to_float _) as [b|x] eqn:Ef; simpl.
    + destruct (experience_adjustment str_to_float details _); reflexivity.
    + destruct (float_raises _ _ _ Ef) as [-> | [-> | [-> _]]]; reflexivity.
Qed.

Lemma adjusted_score_overflow details experience_match b :
  dict_get details "experience_match" (PyDict []) = PyDict experience_match ->
  oversized (dict_get experience_match "relevance_score" (PyInt 0)) = true ->
  adjusted_score str_to_float details b = Raise OverflowError.
Proof.
  intros Hem Hover. unfold adjusted_score.
  now rewrite (experience_adjustment_overflow details experience_match _ Hem Hover).
Qed.

Lemma clamp_monotone a b : a <= b -> clamp a <= clamp b.
Proof.
  intros H. unfold clamp.
  apply Q.max_le_compat_l. apply Q.min_le_compat_l. exact H.
Qed.

End AdjustmentFacts.

Section AdjustmentTheorems.
Variable str_to_float : string -> option Q.
Local Open Scope Q_scope.

Lemma clamp_Qeq a b : a == b -> clamp a == clamp b.
Proof.
  intros H. apply Qle_antisym; apply clamp_monotone; rewrite H; apply Qle_refl.
Qed.

Lemma enhanced_score_shift details :
  relevance_fits details ->
  exists c, -(15 # 100) <= c <= 26 # 100
            /\ forall (result : pydict) b,
                 dict_get result "comparison_details" (PyDict []) = PyDict details ->
                 base_score_of str_to_float result = Ok b ->
                 exists q, _calculate_enhanced_score str_to_float (PyDict result) = Ok q
                           /\ q == clamp (b + c).
Proof.
  intros Hfits.
  destruct (adjusted_score_shift str_to_float details Hfits) as (c & Hc & E).
  exists c. split; [exact Hc|].
  intros result b Hd Hb.
  rewrite (_calculate_enhanced_score_adjusted str_to_float result details Hd), Hb.
  destruct (E b) as (e & -> & He).
  eexists. split; [reflexivity | now apply clamp_Qeq].
Qed.

(** X7: when the details are a dictionary in which each of the four
    sub-structures is missing or is not a dictionary, nothing is added or
    taken away: the enhanced score is the similarity score clamped to [0,1],
    so the similarity score itself when that lies in [0,1]. *)
Theorem unusable_details_adjust_nothing (result details : pydict) b :
  dict_get result "comparison_details" (PyDict []) = PyDict details ->
  unusable details "skills_match" ->
  unusable details "experience_match" ->
  unusable details "education_match" ->
  unusable details "overall_assessment" ->
  base_score_of str_to_float result = Ok b ->
  _calculate_enhanced_score str_to_float (PyDict result) = Ok (clamp b)
  /\ (0 <= b <= 1 -> clamp b == b).
Proof.
  intros Hd Hs He Hu Ha Hb. split.
  - rewrite (_calculate_enhanced_score_adjusted str_to_float result details Hd), Hb.
    unfold adjusted_score, skills_adjustment, experience_adjustment,
      education_adjustment, assessment_adjustment, dict_get.
    unfold unusable in Hs, He, Hu, Ha.
    destruct (dict_find details "skills_match") as [[| | | | | |?]|];
      try discriminate;
    destruct (dict_find details "experience_match") as [[| | | | | |?]|];
      try discriminate;
    destruct (dict_find details "education_match") as [[| | | | | |?]|];
      try discriminate;
    destruct (dict_find details "overall_assessment") as [[| | | | | |?]|];
      try discriminate; reflexivity.
  - intros [H0 H1]. unfold clamp.
    rewrite Q.min_r by exact H1. now rewrite Q.max_r.
Qed.

(** X8: of two comparison results with the same details, the one with the
    higher similarity score never gets the lower enhanced score. *)
Theorem enhanced_score_monotone_in_similarity (r1 r2 details : pydict) b1 b2 q1 q2 :
  dict_get r1 "comparison_details" (PyDict []) = PyDict details ->
  dict_get r2 "comparison_details" (PyDict []) = PyDict details ->
  base_score_of str_to_float r1 = Ok b1 ->
  base_score_of str_to_float r2 = Ok b2 ->
  b1 <= b2 ->
  _calculate_enhanced_score str_to_float (PyDict r1) = Ok q1 ->
  _calculate_enhanced_score str_to_float (PyDict r2) = Ok q2 ->
  q1 <= q2.
Proof.
  intros Hd1 Hd2 Hb1 Hb2 Hle Hq1 Hq2.
  destruct (relevance_fits_dec details) as [Hfits|(em & Hem & Hover)].
  - destruct (enhanced_score_shift details Hfits) as (c & _ & E).
    destruct (E r1 b1 Hd1 Hb1) as (q1' & Hq1' & E1).
    destruct (E r2 b2 Hd2 Hb2) as (q2' & Hq2' & E2).
    rewrite Hq1 in Hq1'. injection Hq1' as <-.
    rewrite Hq2 in Hq2'. injection Hq2' as <-.
    rewrite E1, E2. apply clamp_monotone. lra.
  - rewrite (_calculate_enhanced_score_adjusted str_to_float r1 details Hd1), Hb1,
      (adjusted_score_overflow str_to_float details em b1 Hem Hover) in Hq1.
    rewrite (_calculate_enhanced_score_adjusted str_to_float r2 details Hd2), Hb2,
      (adjusted_score_overflow str_to_float details em b2 Hem Hover) in Hq2.
    injection Hq1 as <-. injection Hq2 as <-. exact Hle.
Qed.

End AdjustmentTheorems.

Lemma unusable_details_sample :
  _calculate_enhanced_score sample_str_to_float (PyDict malformed_details_result)
  = Ok (clamp (9 # 10))
  /\ ((0 <= 9 # 10 <= 1)%Q -> (clamp (9 # 10) == 9 # 10)%Q).
Proof.
  apply (unusable_details_adjust_nothing sample_str_to_float malformed_details_result
           [("skills_match", PyStr "n/a")] (9 # 10)).
  - reflexivity.
  - reflexivity.
  - exact I.
  - exact I.
  - exact I.
  - reflexivity.
Defined.

Lemma enhanced_score_monotone_sample : (380 # 1000 <= 116 # 200)%Q.
Proof.
  apply (enhanced_score_monotone_in_similarity sample_str_to_float
           less_similar_result recommended_result
           [("overall_assessment",
              PyDict [("recommendation", PyStr "highly_recommended")])]
           (3 # 10) (1 # 2) (380 # 1000) (116 # 200)).
  - reflexivity.
  - reflexivity.
  - reflexivity.
  - reflexivity.
  - unfold Qle. simpl. lia.
  - reflexivity.
  - reflexivity.
Defined.

(** ** Rejected requests and failed saves *)

Section RankingEdges.
Variable str_to_float : string -> option Q.
Variable exn_str : exn -> string.
Context {Database : Type}.
Variable _clear_existing_rankings : Database -> pyval -> Database.
Variable _save_ranking : Database -> Ranking.Ranking -> option Z * Database.
Variable log_activity : Database -> string -> pydict -> Database.
Variable _generate_ranking_insights : list Ranking.Ranking -> pyval.
Variable time_time : Z -> Q.

Lemma _calculate_enhanced_score_non_dict v :
  is_dict v = false ->
  exists e, _calculate_enhanced_score str_to_float v = Raise e.
Proof.
  destruct v; try discriminate; intros _; eexists; reflexivity.
Qed.

Lemma score_results_non_dict l v :
  In v l -> is_dict v = false ->
  exists e, score_results str_to_float l = Raise e.
Proof.
  intros Hin Hv. induction l as [|x l IH]; [contradiction|].
  simpl. destruct Hin as [-> | Hin].
  - destruct (_calculate_enhanced_score_non_dict v Hv) as (e & ->). now exists e.
  - destruct (_calculate_enhanced_score str_to_float x) as [q|e]; [|now exists e].
    simpl. destruct x; try (eexists; reflexivity).
    destruct (IH Hin) as (e & ->). now exists e.
Qed.

(** X9: a request without a job id, without comparison results, with
    results that are not a list, or with a result that is not a dictionary
    is answered with an error and leaves the database as it was: the
    rankings stored for the job are not cleared and nothing is saved or
    logged. *)
Theorem rejected_request_leaves_database db (task_data : pydict) :
  truthy (dict_get task_data "job_id" PyNone) = false
  \/ truthy (dict_get task_data "comparison_results" (PyList [])) = false
  \/ is_list (dict_get task_data "comparison_results" (PyList [])) = false
  \/ (exists l v, dict_get task_data "comparison_results" (PyList []) = PyList l
                  /\ In v l /\ is_dict v = false) ->
  exists response,
    rank_applications str_to_float exn_str _clear_existing_rankings _save_ranking
      log_activity _generate_ranking_insights time_time db task_data = (response, db)
    /\ dict_find response "status" = Some (PyStr "error")
    /\ response_scores "rank" response = [].
Proof.
  intros H. unfold rank_applications.
  destruct (truthy (dict_get task_data "job_id" PyNone)) eqn:Ej; cbn [negb].
  2:{ eexists. split; [reflexivity|]. split; reflexivity. }
  destruct (truthy (dict_get task_data "comparison_results" (PyList []))) eqn:Et;
    cbn [negb].
  2:{ eexists. split; [reflexivity|]. split; reflexivity. }
  destruct H as [H|[H|[H|(l & v & Hl & Hin & Hv)]]]; try discriminate.
  - unfold rank_applications_try.
    destruct (dict_get task_data "comparison_results" (PyList []));
      try discriminate; eexists; (split; [reflexivity|]); split; reflexivity.
  - unfold rank_applications_try. rewrite Hl.
    destruct (score_results_non_dict l v Hin Hv) as (e & ->).
    eexists. split; [reflexivity|]. split; reflexivity.
Qed.

Lemma positions_length first n : length (positions first n) = n.
Proof. revert first. induction n; simpl; intros; auto. Qed.

Lemma build_ranking_unsaved job total i (result : pydict) r :
  build_ranking str_to_float time_time job total i result = Ok r ->
  Ranking.id r = None /\ Ranking.job_id r = job.
Proof.
  unfold build_ranking.
  destruct (valid_floats _ _ _) as [scores|e]; [|discriminate]. simpl.
  destruct (dict_item result "application_id") as [v|e]; [|discriminate].
  simpl. now intros [= <-].
Qed.

(** The loop with an arbitrary database: the rankings returned are those
    whose save succeeded; each keeps the position of its result in the
    ranked list. *)
Lemma save_rankings_gaps job total (ranked : list pydict) :
  Forall scorable ranked ->
  Forall has_application_id ranked ->
  forall db i, exists rankings db',
    save_rankings str_to_float _save_ranking time_time db job total i
      (map (scored str_to_float) ranked) = (Ok rankings, db')
    /\ kept_by_saves _save_ranking str_to_float job i db ranked rankings db'
    /\ sublist (map Ranking.rank_position rankings) (positions i (length ranked))
    /\ Forall (fun r => i <= Ranking.rank_position r
                        /\ exists d,
                             ranked !! Z.to_nat (Ranking.rank_position r - i) = Some d
                             /\ ranking_of str_to_float d r)
         rankings.
Proof.
  intros Hsc Hids. revert Hsc.
  induction Hids as [|d ranked [v Hv] _ IH]; simpl; intros Hsc db i.
  - exists [], db. repeat split; constructor.
  - apply Forall_cons_1 in Hsc as [Hd Hsc].
    destruct (build_ranking_scored str_to_float time_time job total i d v Hd Hv)
      as (r & Eb & Hof & Hpos).
    pose proof (build_ranking_unsaved _ _ _ _ _ Eb) as [Hid Hjob].
    rewrite Eb.
    destruct (_save_ranking db r) as [ranking_id db1] eqn:Es.
    destruct (IH Hsc db1 (i + 1)) as (rest & db2 & -> & Hkept & Hsub & Hall).
    assert (Hrest : Forall
              (fun r0 => i <= Ranking.rank_position r0
                         /\ exists d0,
                              (d :: ranked) !! Z.to_nat (Ranking.rank_position r0 - i)
                              = Some d0
                              /\ ranking_of str_to_float d0 r0) rest).
    { eapply Forall_impl; [exact Hall|].
      intros r0 (Hle & d0 & Hd0 & Hof0). split; [lia|].
      exists d0. split; [|exact Hof0].
      replace (Z.to_nat (Ranking.rank_position r0 - i))
        with (S (Z.to_nat (Ranking.rank_position r0 - (i + 1)))) by lia.
      exact Hd0. }
    assert (Hname : dict_get (scored str_to_float d) "applicant_name" (PyStr "Unknown")
                    = dict_get d "applicant_name" (PyStr "Unknown")).
    { unfold scored. now rewrite dict_get_set_ne by discriminate. }
    destruct ranking_id as [n|]; [destruct (n =? 0) eqn:En|]; simpl;
      eexists _, db2; (split; [reflexivity|]).
    + apply Z.eqb_eq in En. subst n.
      split; [eapply kept_failed; eauto|].
      split; [now apply sublist_cons | exact Hrest].
    + apply Z.eqb_neq in En. rewrite Hname.
      split; [eapply kept_saved; eauto|].
      split; [rewrite Hpos; now apply sublist_skip|].
      constructor; [|exact Hrest].
      split; [simpl; lia|].
      exists d. split; [|now apply ranking_of_saved].
      simpl. now rewrite Hpos, Z.sub_diag.
    + split; [eapply kept_failed; eauto|].
      split; [now apply sublist_cons | exact Hrest].
Qed.

(** X10: whatever saves fail, the rankings returned are those whose save
    returned an identifier, each with the position its result has in the
    descending order of enhanced score.  The results are dictionaries with
    an application id whose scores are finite numbers.  A ranking is built
    for every result in that order and saved, each save working on the
    database the previous one left; a ranking whose save returns nothing or
    0 is left out.  The positions kept are an increasing selection from
    1..N that is not renumbered.  When nothing was saved the answer is the
    error [Failed to save rankings to database] and the database is as the
    last save left it, otherwise a success whose [total_ranked] counts the
    rankings returned. *)
Theorem failed_saves_are_skipped db (task_data : pydict) (ds : list pydict) :
  truthy (dict_get task_data "job_id" PyNone) = true ->
  dict_get task_data "comparison_results" (PyList []) = PyList (map PyDict ds) ->
  ds <> [] ->
  Forall has_application_id ds ->
  Forall finite_scores ds ->
  exists rankings response saved_db db',
    rank_applications str_to_float exn_str _clear_existing_rankings _save_ranking
      log_activity _generate_ranking_insights time_time db task_data = (response, db')
    /\ kept_by_saves _save_ranking str_to_float (dict_get task_data "job_id" PyNone) 1
         (_clear_existing_rankings db (dict_get task_data "job_id" PyNone))
         (sorted_reverse (enhanced_score_of str_to_float) ds) rankings saved_db
    /\ sublist (map Ranking.rank_position rankings) (positions 1 (length ds))
    /\ Forall (fun r => exists d,
                 sorted_reverse (enhanced_score_of str_to_float) ds
                   !! Z.to_nat (Ranking.rank_position r - 1) = Some d
                 /\ ranking_of str_to_float d r)
         rankings
    /\ (rankings = [] ->
        db' = saved_db
        /\ dict_find response "status" = Some (PyStr "error")
        /\ dict_find response "message"
           = Some (PyStr "Failed to save rankings to database"))
    /\ (rankings <> [] ->
        dict_find response "status" = Some (PyStr "success")
        /\ dict_find response "total_ranked"
           = Some (PyInt (Z.of_nat (length rankings)))
        /\ dict_find response "rankings"
           = Some (PyList (map format_ranking rankings))).
Proof.
  intros Hjob Hres Hne Hids Hfin.
  assert (Hsc : Forall scorable ds).
  { eapply Forall_impl; [exact Hfin|]. now intros d [H _]. }
  assert (Ht : truthy (PyList (map PyDict ds)) = true)
    by (destruct ds; [congruence | reflexivity]).
  unfold rank_applications. cbv zeta. rewrite Hjob, Hres, Ht. cbn [negb].
  unfold rank_applications_try.
  rewrite score_results_dicts by exact Hsc. rewrite sorted_scored.
  set (ranked := sorted_reverse (enhanced_score_of str_to_float) ds).
  assert (Hranked : Forall has_application_id ranked).
  { eapply Permutation_Forall; [symmetry; apply sorted_reverse_perm | exact Hids]. }
  assert (Hranked' : Forall scorable ranked).
  { eapply Permutation_Forall; [symmetry; apply sorted_reverse_perm | exact Hsc]. }
  destruct (save_rankings_gaps (dict_get task_data "job_id" PyNone)
              (Z.of_nat (length (map (scored str_to_float) ranked))) ranked
              Hranked' Hranked
              (_clear_existing_rankings db (dict_get task_data "job_id" PyNone)) 1)
    as (rankings & db1 & -> & Hkept & Hsub & Hall).
  assert (Hlen : length ranked = length ds) by apply sorted_reverse_length.
  rewrite Hlen in Hsub.
  assert (Hall' : Forall (fun r => exists d,
                    ranked !! Z.to_nat (Ranking.rank_position r - 1) = Some d
                    /\ ranking_of str_to_float d r) rankings).
  { eapply Forall_impl; [exact Hall|]. intros r (_ & H). exact H. }
  destruct rankings as [|r rankings].
  - eexists [], _, db1, _. split; [reflexivity|].
    split; [exact Hkept|]. split; [exact Hsub|]. split; [exact Hall'|].
    split; [intros _; repeat split | congruence].
  - eexists (r :: rankings), _, db1, _. split; [reflexivity|].
    split; [exact Hkept|]. split; [exact Hsub|]. split; [exact Hall'|].
    split; [discriminate | intros _; repeat split].
Qed.

End RankingEdges.

Lemma rejected_request_sample :
  exists response,
    sample_rank_applications broken_task = (response, [])
    /\ dict_find response "status" = Some (PyStr "error")
    /\ response_scores "rank" response = [].
Proof.
  apply (rejected_request_leaves_database sample_str_to_float sample_exn_str
           sample_clear sample_save sample_log sample_insights sample_time []
           broken_task).
  right. right. right.
  exists [PyDict recommended_result; PyStr "lost"], (PyStr "lost").
  split; [reflexivity|]. split; [right; left; reflexivity | reflexivity].
Defined.

(** With the flaky save the sample job returns one ranking, at position
    2. *)
Example flaky_save_positions :
  response_scores "rank"
    (fst (rank_applications sample_str_to_float sample_exn_str sample_clear flaky_save
            sample_log sample_insights sample_time [] sample_task))
  = [PyInt 2].
Proof. reflexivity. Qed.

Lemma failed_saves_sample :
  exists rankings response saved_db db',
    rank_applications sample_str_to_float sample_exn_str sample_clear flaky_save
      sample_log sample_insights sample_time [] sample_task = (response, db')
    /\ kept_by_saves flaky_save sample_str_to_float (dict_get sample_task "job_id" PyNone) 1
         (sample_clear [] (dict_get sample_task "job_id" PyNone))
         (sorted_reverse (enhanced_score_of sample_str_to_float) sample_results)
         rankings saved_db
    /\ sublist (map Ranking.rank_position rankings) (positions 1 (length sample_results))
    /\ Forall (fun r => exists d,
                 sorted_reverse (enhanced_score_of sample_str_to_float) sample_results
                   !! Z.to_nat (Ranking.rank_position r - 1) = Some d
                 /\ ranking_of sample_str_to_float d r)
         rankings
    /\ (rankings = [] ->
        db' = saved_db
        /\ dict_find response "status" = Some (PyStr "error")
        /\ dict_find response "message"
           = Some (PyStr "Failed to save rankings to database"))
    /\ (rankings <> [] ->
        dict_find response "status" = Some (PyStr "success")
        /\ dict_find response "total_ranked"
           = Some (PyInt (Z.of_nat (length rankings)))
        /\ dict_find response "rankings"
           = Some (PyList (map format_ranking rankings))).
Proof.
  apply (failed_saves_are_skipped sample_str_to_float sample_exn_str sample_clear
           flaky_save sample_log sample_insights sample_time [] sample_task
           sample_results).
  - reflexivity.
  - reflexivity.
  - discriminate.
  - repeat constructor; eexists; reflexivity.
  - repeat constructor.
Defined.

(** ** What [send_message] returns; the cleanup *)

(** X11: [send_message] returns true exactly when the message passes
    validation, its receiver is registered, and the receiver's handler
    returns. *)
Theorem send_message_true_iff settings p message now :
  fst (send_message settings p message now) = true
  <-> _validate_message message now = true
      /\ exists r, registered_agents p !! receiver message = Some r
                   /\ handler_of r message = Returns.
Proof.
  unfold send_message.
  destruct (_validate_message message now); cbn [negb].
  2:{ split; [discriminate | intros [H _]; discriminate]. }
  destruct (registered_agents p !! receiver message) as [r|] eqn:Hr.
  2:{ split; [discriminate | intros (_ & r & H & _); discriminate]. }
  rewrite (_deliver_message_sync_handler _ message r) by exact Hr.
  destruct (handler_of r message) eqn:Hh; simpl.
  - split; [intros _; split; eauto | reflexivity].
  - split; [discriminate | intros (_ & r' & [= <-] & H); congruence].
Qed.

(** X13: after a pass of the cleanup task the history holds at most 1000
    messages: a history longer than that is cut down to its 500 most recent
    messages, a shorter one is kept whole; the failed list keeps exactly its
    messages created within the last hour, in order; the registry is not
    touched. *)
Theorem cleanup_bounds_history p now :
  (length (message_history (_cleanup_expired_messages p now)) <= 1000)%nat
  /\ ((1000 < length (message_history p))%nat ->
      message_history (_cleanup_expired_messages p now)
      = drop (length (message_history p) - 500) (message_history p)
      /\ length (message_history (_cleanup_expired_messages p now)) = 500%nat)
  /\ ((length (message_history p) <= 1000)%nat ->
      message_history (_cleanup_expired_messages p now) = message_history p)
  /\ message_history (_cleanup_expired_messages p now) `suffix_of` message_history p
  /\ (forall m, m ∈ failed_messages (_cleanup_expired_messages p now)
                <-> now - timedelta_seconds 3600 <= timestamp m /\ m ∈ failed_messages p)
  /\ failed_messages (_cleanup_expired_messages p now) `sublist_of` failed_messages p
  /\ registered_agents (_cleanup_expired_messages p now) = registered_agents p.
Proof.
  assert (Hfailed : forall m,
            m ∈ failed_messages (_cleanup_expired_messages p now)
            <-> now - timedelta_seconds 3600 <= timestamp m /\ m ∈ failed_messages p).
  { intros m. unfold _cleanup_expired_messages. simpl.
    now rewrite list_elem_of_filter. }
  assert (Hsub : failed_messages (_cleanup_expired_messages p now)
                 `sublist_of` failed_messages p).
  { unfold _cleanup_expired_messages. simpl. apply sublist_filter. }
  unfold _cleanup_expired_messages in *. simpl in *.
  destruct (1000 <? length (message_history p))%nat eqn:E.
  - apply Nat.ltb_lt in E.
    assert (Hl : length (drop (length (message_history p) - 500) (message_history p))
                 = 500%nat) by (rewrite length_drop; lia).
    split; [rewrite Hl; lia|]. split; [auto|]. split; [lia|].
    split; [apply suffix_drop|]. auto.
  - apply Nat.ltb_ge in E.
    split; [lia|]. split; [lia|]. split; [auto|].
    split; [reflexivity|]. auto.
Qed.

(** ** Broadcasts and unregistration *)

Section BroadcastFacts.
Variable settings : Settings.
Variable uuid4 : string -> string.
Variable isoformat : Z -> string.
Variable agent_name event_type : string.
Variable now : Z.

Lemma broadcast_as_fold p :
  _broadcast_agent_event settings uuid4 isoformat p agent_name event_type now
  = foldl (notify_one settings uuid4 isoformat agent_name event_type now) p
      (map fst (map_to_list (registered_agents p))).
Proof. reflexivity. Qed.

Lemma lookup_deliver_ne p message x :
  receiver message <> x ->
  registered_agents (snd (_deliver_message_sync p message)) !! x
  = registered_agents p !! x.
Proof.
  intros Hne. unfold _deliver_message_sync.
  destruct (registered_agents p !! receiver message) as [r|]; [|reflexivity].
  destruct (match message_handler r with
            | Some handler => handler message
            | None => agent_instance r message
            end); simpl; now rewrite !lookup_alter_ne.
Qed.

Lemma notify_one_other p n x :
  n <> x ->
  registered_agents (notify_one settings uuid4 isoformat agent_name event_type now p n)
    !! x
  = registered_agents p !! x.
Proof.
  intros Hne. unfold notify_one.
  destruct (status_of p n) as [[| | |]|]; auto.
  destruct (String.eqb n agent_name); auto.
  now apply lookup_deliver_ne.
Qed.

Lemma notify_one_self p n :
  status_of (notify_one settings uuid4 isoformat agent_name event_type now p n) n
  = notified_status settings uuid4 isoformat agent_name event_type now n
      <$> registered_agents p !! n.
Proof.
  unfold notify_one, notified_status.
  destruct (registered_agents p !! n) as [r|] eqn:Hr.
  - assert (Hst : status_of p n = Some (status r)) by (unfold status_of; now rewrite Hr).
    rewrite Hst. cbn [fmap option_fmap option_map].
    destruct (status r) eqn:Hs; cbn [AgentStatus.eqb andb]; try (now rewrite Hst).
    destruct (String.eqb n agent_name); cbn [negb]; [now rewrite Hst|].
    rewrite status_of_deliver.
    change (receiver (event_message settings uuid4 isoformat agent_name event_type now n))
      with n.
    rewrite Hr.
    destruct (decide (n = n)); [|contradiction].
    destruct (handler_of r _); [now rewrite Hs | reflexivity].
  - assert (Hst : status_of p n = None) by (unfold status_of; now rewrite Hr).
    rewrite Hst. exact Hst.
Qed.

Lemma notify_fold (l : list string) x :
  NoDup l ->
  forall p,
    status_of (foldl (notify_one settings uuid4 isoformat agent_name event_type now) p l)
      x
    = if decide (x ∈ l)
      then notified_status settings uuid4 isoformat agent_name event_type now x
             <$> registered_agents p !! x
      else status_of p x.
Proof.
  induction 1 as [|n l Hn Hl IH]; intros p; simpl.
  - destruct (decide (x ∈ [])) as [H|_]; [inversion H | reflexivity].
  - rewrite IH.
    destruct (decide (x = n)) as [-> | Hne].
    + destruct (decide (n ∈ l)); [contradiction|].
      destruct (decide (n ∈ n :: l)) as [_|H]; [|exfalso; apply H; left].
      apply notify_one_self.
    + assert (Hreg : registered_agents
                       (notify_one settings uuid4 isoformat agent_name event_type now
                          p n) !! x
                     = registered_agents p !! x) by (apply notify_one_other; congruence).
      destruct (decide (x ∈ l)) as [Hin|Hnin].
      * destruct (decide (x ∈ n :: l)) as [_|H]; [|exfalso; apply H; now right].
        now rewrite Hreg.
      * destruct (decide (x ∈ n :: l)) as [H|_].
        -- inversion H; subst; contradiction.
        -- unfold status_of. now rewrite Hreg.
Qed.

Lemma elem_of_registered_names (m : gmap string AgentRegistration) x :
  x ∈ map fst (map_to_list m) <-> is_Some (m !! x).
Proof.
  change (map fst (map_to_list m)) with ((map_to_list m).*1).
  rewrite list_elem_of_fmap. split.
  - intros ([k r] & -> & H). apply elem_of_map_to_list in H. eauto.
  - intros [r H]. exists (x, r). split; [reflexivity | now apply elem_of_map_to_list].
Qed.

(** The statuses after a broadcast, agent by agent. *)
Lemma broadcast_statuses p x :
  status_of (_broadcast_agent_event settings uuid4 isoformat p agent_name event_type now)
    x
  = notified_status settings uuid4 isoformat agent_name event_type now x
      <$> registered_agents p !! x.
Proof.
  rewrite broadcast_as_fold, notify_fold.
  - destruct (decide (x ∈ map fst (map_to_list (registered_agents p)))) as [H|H]; auto.
    unfold status_of.
    destruct (registered_agents p !! x) as [r|] eqn:Hr; auto.
    exfalso. apply H, elem_of_registered_names. eauto.
  - exact (NoDup_fst_map_to_list (registered_agents p)).
Qed.

Lemma broadcast_lists p :
  message_history
    (_broadcast_agent_event settings uuid4 isoformat p agent_name event_type now)
  = message_history p
  /\ failed_messages
       (_broadcast_agent_event settings uuid4 isoformat p agent_name event_type now)
     = failed_messages p.
Proof.
  rewrite broadcast_as_fold.
  generalize (map fst (map_to_list (registered_agents p))). intros l.
  revert p. induction l as [|n l IH]; simpl; intros p; auto.
  destruct (IH (notify_one settings uuid4 isoformat agent_name event_type now p n))
    as [-> ->].
  unfold notify_one.
  destruct (status_of p n) as [[| | |]|]; auto.
  destruct (String.eqb n agent_name); auto.
  split; apply _deliver_message_sync_lists.
Qed.

End BroadcastFacts.

(** X15: a broadcast about an agent hands the notification to every other
    agent that is ACTIVE, each on its own: a receiver whose handler raises
    ends in ERROR, one whose handler returns stays ACTIVE, and the failure of
    one does not change what happens to another.  The agent the event is
    about and the agents that are not ACTIVE are left alone, and nothing is
    written to the history or to the failed list. *)
Theorem broadcast_isolates_failures settings uuid4 isoformat p agent_name event_type now :
  (forall x,
     status_of
       (_broadcast_agent_event settings uuid4 isoformat p agent_name event_type now) x
     = notified_status settings uuid4 isoformat agent_name event_type now x
         <$> registered_agents p !! x)
  /\ message_history
       (_broadcast_agent_event settings uuid4 isoformat p agent_name event_type now)
     = message_history p
  /\ failed_messages
       (_broadcast_agent_event settings uuid4 isoformat p agent_name event_type now)
     = failed_messages p.
Proof.
  split; [intros x; apply broadcast_statuses | apply broadcast_lists].
Qed.

(** The unregistration of an agent that nobody else knows, broadcast to
    the three sample agents. *)
Example broadcast_three_agents :
  let p := _broadcast_agent_event default_settings (fun n => n) (fun _ => "t")
             three_agents "archive_agent" "agent_unregistered" 5000000 in
  status_of p "comparison_agent" = Some AgentStatus.ERROR
  /\ status_of p "ranking_agent" = Some AgentStatus.ACTIVE
  /\ status_of p "communication_agent" = Some AgentStatus.INACTIVE.
Proof. vm_compute. repeat split. Qed.

Lemma status_of_None p x :
  status_of p x = None <-> registered_agents p !! x = None.
Proof.
  unfold status_of. destruct (registered_agents p !! x); simpl; split; congruence.
Qed.

Lemma unregister_agent_lookup settings uuid4 isoformat p agent_name now :
  registered_agents (unregister_agent settings uuid4 isoformat p agent_name now)
    !! agent_name
  = None.
Proof.
  unfold unregister_agent.
  destruct (registered_agents p !! agent_name) as [r|] eqn:Hr; [|exact Hr].
  apply status_of_None. rewrite broadcast_status_self.
  apply status_of_None. simpl. apply lookup_delete_eq.
Qed.

Lemma unregister_agent_lists settings uuid4 isoformat p agent_name now :
  message_history (unregister_agent settings uuid4 isoformat p agent_name now)
  = message_history p
  /\ failed_messages (unregister_agent settings uuid4 isoformat p agent_name now)
     = failed_messages p.
Proof.
  unfold unregister_agent.
  destruct (registered_agents p !! agent_name) as [r|]; [|now split].
  cbv zeta.
  destruct (broadcast_lists settings uuid4 isoformat agent_name "agent_unregistered" now
              (with_registered_agents p (delete agent_name (registered_agents p))))
    as [-> ->].
  now split.
Qed.

(** X16: once an agent is unregistered the bus no longer knows it: its
    name has no registration and no capabilities, and a later message to it
    that passes validation is refused and archived in the failed list, with
    no delivery and no entry in the history.  The unregistration itself
    writes nothing to the history or to the failed list. *)
Theorem unregistered_agent_unreachable settings uuid4 isoformat p agent_name now
    message later :
  _validate_message message later = true ->
  receiver message = agent_name ->
  let p' := unregister_agent settings uuid4 isoformat p agent_name now in
  registered_agents p' !! agent_name = None
  /\ get_agent_capabilities p' agent_name = []
  /\ message_history p' = message_history p
  /\ failed_messages p' = failed_messages p
  /\ fst (send_message settings p' message later) = false
  /\ failed_messages (snd (send_message settings p' message later))
     = (failed_messages p ++ [message])%list
  /\ message_history (snd (send_message settings p' message later))
     = message_history p
  /\ registered_agents (snd (send_message settings p' message later))
     = registered_agents p'.
Proof.
  intros Hv Hrecv p'.
  pose proof (unregister_agent_lookup settings uuid4 isoformat p agent_name now) as Hnone.
  destruct (unregister_agent_lists settings uuid4 isoformat p agent_name now)
    as [Hhist Hfailed].
  fold p' in Hnone, Hhist, Hfailed.
  split; [exact Hnone|].
  split; [unfold get_agent_capabilities; now rewrite Hnone|].
  split; [exact Hhist|].
  split; [exact Hfailed|].
  unfold send_message. rewrite Hv, Hrecv, Hnone. simpl.
  rewrite Hfailed, Hhist. repeat split.
Qed.

Lemma unregistered_agent_sample :
  let p' := unregister_agent default_settings (fun n => n) (fun _ => "t")
              three_agents "ranking_agent" 2000000 in
  registered_agents p' !! "ranking_agent" = None
  /\ get_agent_capabilities p' "ranking_agent" = []
  /\ message_history p' = message_history three_agents
  /\ failed_messages p' = failed_messages three_agents
  /\ fst (send_message default_settings p' sample_message 3000000) = false
  /\ failed_messages (snd (send_message default_settings p' sample_message 3000000))
     = (failed_messages three_agents ++ [sample_message])%list
  /\ message_history (snd (send_message default_settings p' sample_message 3000000))
     = message_history three_agents
  /\ registered_agents (snd (send_message default_settings p' sample_message 3000000))
     = registered_agents p'.
Proof.
  apply (unregistered_agent_unreachable default_settings (fun n => n) (fun _ => "t")
           three_agents "ranking_agent" 2000000 sample_message 3000000);
    reflexivity.
Defined.

(** ** Serialisation of messages *)

Lemma MessageType_of_value_value t :
  MessageType_of_value (PyStr (MessageType_value t)) = Ok t.
Proof. now destruct t. Qed.

Lemma MessagePriority_of_value_value x :
  MessagePriority_of_value (PyInt (MessagePriority_value x)) = Ok x.
Proof. now destruct x. Qed.

(** X17: a message that has an expiry survives [to_dict] followed by
    [from_dict] unchanged, provided the library reads back the two dates it
    printed and prints the expiry as a non-empty string. *)
Theorem from_dict_to_dict settings isoformat fromisoformat m e :
  expires_at m = Some e ->
  fromisoformat (isoformat (timestamp m)) = Some (timestamp m) ->
  fromisoformat (isoformat e) = Some e ->
  isoformat e <> "" ->
  from_dict settings fromisoformat (to_dict isoformat m) = Ok (Some m).
Proof.
  destruct m as [s r mt pl i ts c pr n ex a]. simpl.
  intros -> Hts He Hne.
  assert (Htruthy : String.eqb (isoformat e) "" = false)
    by (destruct (String.eqb_spec (isoformat e) ""); [contradiction | reflexivity]).
  unfold from_dict, to_dict, dict_item, dict_get.
  cbn [dict_find String.eqb Ascii.eqb Bool.eqb bind sender receiver message_type payload
       message_id timestamp correlation_id priority retry_count expires_at requires_ack].
  rewrite MessageType_of_value_value. cbn [bind datetime_fromisoformat].
  rewrite Hts. cbn [bind].
  rewrite MessagePriority_of_value_value. cbn [bind truthy].
  rewrite Htruthy. cbn [negb bind datetime_fromisoformat].
  rewrite He. cbn [bind].
  destruct c; reflexivity.
Qed.

Lemma from_dict_to_dict_sample :
  from_dict default_settings sample_fromisoformat (to_dict sample_isoformat sample_message)
  = Ok (Some sample_message).
Proof.
  apply (from_dict_to_dict default_settings sample_isoformat sample_fromisoformat
           sample_message 30000000).
  - reflexivity.
  - reflexivity.
  - reflexivity.
  - discriminate.
Defined.

(** X18: [from_dict] returns no message for a dictionary that lacks one of
    the six keys it reads with [data[key]]: it raises, and when the key is
    [sender], the first one read, the exception is the [KeyError] of that
    key. *)
Theorem from_dict_missing_key settings fromisoformat data key :
  In key required_keys ->
  dict_find data key = None ->
  (exists e, from_dict settings fromisoformat data = Raise e)
  /\ (key = "sender" ->
      from_dict settings fromisoformat data = Raise (KeyError "sender")).
Proof.
  intros Hin Hnone. split.
  - unfold from_dict, dict_item.
    destruct (dict_find data "sender") eqn:H1; simpl; [|eauto].
    destruct (dict_find data "receiver") eqn:H2; simpl; [|eauto].
    destruct (dict_find data "message_type") eqn:H3; simpl; [|eauto].
    destruct (MessageType_of_value _); simpl; [|eauto].
    destruct (dict_find data "payload") eqn:H4; simpl; [|eauto].
    destruct (dict_find data "message_id") eqn:H5; simpl; [|eauto].
    destruct (dict_find data "timestamp") eqn:H6; simpl; [|eauto].
    exfalso. simpl in Hin.
    destruct Hin as [<-|[<-|[<-|[<-|[<-|[<-|[]]]]]]]; congruence.
  - intros ->. unfold from_dict, dict_item. now rewrite Hnone.
Qed.

Lemma from_dict_missing_key_sample :
  (exists e, from_dict default_settings sample_fromisoformat
               [("receiver", PyStr "ranking_agent")] = Raise e)
  /\ ("sender" = "sender" ->
      from_dict default_settings sample_fromisoformat
        [("receiver", PyStr "ranking_agent")] = Raise (KeyError "sender")).
Proof.
  apply (from_dict_missing_key default_settings sample_fromisoformat
           [("receiver", PyStr "ranking_agent")] "sender").
  - left. reflexivity.
  - reflexivity.
Defined.

Lemma typed_AgentMessage_fields settings s r mt pl i ts c pr n ex a m :
  typed_AgentMessage settings s r mt pl i ts c pr n ex a = Some m ->
  timestamp m = ts
  /\ expires_at m
     = Some (match ex with
             | Some e => e
             | None => ts + timedelta_seconds (A2A_MESSAGE_TIMEOUT settings)
             end).
Proof.
  unfold typed_AgentMessage.
  destruct s; try discriminate. destruct r; try discriminate.
  destruct i; try discriminate. destruct n; try discriminate.
  destruct a; try discriminate.
  destruct c; try discriminate; intros [= <-]; simpl; now destruct ex.
Qed.

(** X19: every message that [from_dict] returns has an expiry.  When the
    dictionary has no [expires_at] entry, or an empty one, the expiry is the
    message's own timestamp plus the configured timeout: it is counted from
    the time the message was first created, not from the time it is read
    back. *)
Theorem from_dict_expiry settings fromisoformat data m :
  from_dict settings fromisoformat data = Ok (Some m) ->
  (exists e, expires_at m = Some e)
  /\ (truthy (dict_get data "expires_at" PyNone) = false ->
      expires_at m
      = Some (timestamp m + timedelta_seconds (A2A_MESSAGE_TIMEOUT settings))).
Proof.
  unfold from_dict.
  destruct (dict_item data "sender") as [s|]; simpl; [|discriminate].
  destruct (dict_item data "receiver") as [r|]; simpl; [|discriminate].
  destruct (dict_item data "message_type") as [mtv|]; simpl; [|discriminate].
  destruct (MessageType_of_value mtv) as [mt|]; simpl; [|discriminate].
  destruct (dict_item data "payload") as [pl|]; simpl; [|discriminate].
  destruct (dict_item data "message_id") as [i|]; simpl; [|discriminate].
  destruct (dict_item data "timestamp") as [tsv|]; simpl; [|discriminate].
  destruct (datetime_fromisoformat fromisoformat tsv) as [ts|]; simpl; [|discriminate].
  destruct (MessagePriority_of_value _) as [pr|]; simpl; [|discriminate].
  destruct (truthy (dict_get data "expires_at" PyNone)) eqn:Htruthy.
  - destruct (dict_item data "expires_at") as [ev|]; simpl; [|discriminate].
    destruct (datetime_fromisoformat fromisoformat ev) as [e|]; simpl; [|discriminate].
    intros [= H]. apply typed_AgentMessage_fields in H as [_ H].
    split; [eauto | discriminate].
  - simpl. intros [= H]. apply typed_AgentMessage_fields in H as [Hts H].
    split; [eauto|]. intros _. now rewrite Hts.
Qed.

Lemma from_dict_expiry_sample :
  (exists e, expires_at sample_message = Some e)
  /\ (truthy (dict_get [("sender", PyStr "comparison_agent");
                        ("receiver", PyStr "ranking_agent");
                        ("message_type", PyStr "request");
                        ("payload", PyDict [("action", PyStr "rank_applications")]);
                        ("message_id", PyStr "m-1");
                        ("timestamp", PyStr "1970-01-01T00:00:00")]
                "expires_at" PyNone) = false ->
      expires_at sample_message
      = Some (timestamp sample_message
              + timedelta_seconds (A2A_MESSAGE_TIMEOUT default_settings))).
Proof.
  apply (from_dict_expiry default_settings sample_fromisoformat
           [("sender", PyStr "comparison_agent");
            ("receiver", PyStr "ranking_agent");
            ("message_type", PyStr "request");
            ("payload", PyDict [("action", PyStr "rank_applications")]);
            ("message_id", PyStr "m-1");
            ("timestamp", PyStr "1970-01-01T00:00:00")]
           sample_message).
  reflexivity.
Defined.

(** ** The comparison agent *)

Lemma dict_has_true d key : dict_has d key = true <-> exists v, dict_find d key = Some v.
Proof.
  unfold dict_has. destruct (dict_find d key) as [v|]; split.
  - eauto.
  - reflexivity.
  - discriminate.
  - intros [v H]. discriminate.
Qed.

Lemma dict_set_same d key v : dict_find d key = Some v -> dict_set d key v = d.
Proof.
  induction d as [|[k w] d IH]; simpl; [discriminate|].
  destruct (String.eqb k key) eqn:E.
  - intros [= ->]. reflexivity.
  - intros H. now rewrite IH.
Qed.

Lemma dict_set_set d key v w : dict_set (dict_set d key v) key w = dict_set d key w.
Proof.
  induction d as [|[k u] d IH]; simpl.
  - now rewrite String.eqb_refl.
  - destruct (String.eqb k key) eqn:E; simpl; rewrite E; [reflexivity | now rewrite IH].
Qed.

Lemma ensure_key_has d key v : dict_has (ensure_key d key v) key = true.
Proof.
  unfold ensure_key. destruct (dict_has d key) eqn:E; [exact E|].
  unfold dict_has. now rewrite dict_find_set_eq.
Qed.

Lemma ensure_key_keeps d key v key' w :
  dict_find d key' = Some w -> dict_find (ensure_key d key v) key' = Some w.
Proof.
  intros H. unfold ensure_key. destruct (dict_has d key) eqn:E; [exact H|].
  destruct (String.eqb_spec key key') as [->|Hne].
  - unfold dict_has in E. now rewrite H in E.
  - now rewrite dict_find_set_ne.
Qed.

Lemma ensure_key_present d key v : dict_has d key = true -> ensure_key d key v = d.
Proof. intros H. unfold ensure_key. now rewrite H. Qed.

Lemma dict_has_keeps d key v key' :
  dict_has d key' = true -> dict_has (ensure_key d key v) key' = true.
Proof.
  rewrite !dict_has_true. intros [w H]. exists w. now apply ensure_key_keeps.
Qed.

Lemma clamp_idempotent (q : Q) : Qmax 0 (Qmin 1 (Qmax 0 (Qmin 1 q))) = Qmax 0 (Qmin 1 q).
Proof.
  unfold Qmax, Qmin, GenericMinMax.gmax, GenericMinMax.gmin.
  destruct (1 ?= q)%Q eqn:E1.
  - reflexivity.
  - reflexivity.
  - destruct (0 ?= q)%Q eqn:E0.
    + reflexivity.
    + now rewrite E1, E0.
    + reflexivity.
Qed.

Section ValidationFacts.
Variable str_to_float : string -> option Q.

(** The score that the validation clamps: the number found under
    [similarity_score], or 0 when there is none.  An integer too large for
    a float ends the validation with [OverflowError]. *)
Lemma _validate_comparison_result_dict (d : pydict) :
  (oversized (dict_get d "similarity_score" PyNone) = true
   /\ _validate_comparison_result str_to_float (PyDict d) = Raise OverflowError)
  \/ exists s,
    oversized (dict_get d "similarity_score" PyNone) = false
    /\ (if is_number (dict_get d "similarity_score" PyNone)
        then float str_to_float (dict_get d "similarity_score" PyNone) = Ok s
        else s = 0%Q)
    /\ _validate_comparison_result str_to_float (PyDict d)
       = Ok (with_default_sections
               (dict_set d "similarity_score" (PyFloat (Qmax 0 (Qmin 1 s))))).
Proof.
  unfold _validate_comparison_result, dict_has, dict_get, dict_item.
  destruct (dict_find d "similarity_score") as [v|] eqn:Hv.
  - destruct v as [|b|n|q|s|l|d0]; cbn [is_number negb orb oversized].
    + right. exists 0%Q. split; [reflexivity|]. split; [reflexivity|].
      rewrite dict_find_set_eq. cbn [bind float].
      now rewrite dict_set_set.
    + right. exists (if b then 1 else 0)%Q. split; [reflexivity|].
      split; [reflexivity|]. rewrite Hv. reflexivity.
    + rewrite Hv. cbn [bind float].
      destruct (float_overflows n) eqn:En.
      * left. split; reflexivity.
      * right. exists (inject_Z n). repeat split.
    + right. exists q. split; [reflexivity|]. split; [reflexivity|].
      rewrite Hv. reflexivity.
    + right. exists 0%Q. split; [reflexivity|]. split; [reflexivity|].
      rewrite dict_find_set_eq. cbn [bind float].
      now rewrite dict_set_set.
    + right. exists 0%Q. split; [reflexivity|]. split; [reflexivity|].
      rewrite dict_find_set_eq. cbn [bind float].
      now rewrite dict_set_set.
    + right. exists 0%Q. split; [reflexivity|]. split; [reflexivity|].
      rewrite dict_find_set_eq. cbn [bind float].
      now rewrite dict_set_set.
  - right. exists 0%Q. split; [reflexivity|]. split; [reflexivity|]. cbn [negb orb].
    rewrite dict_find_set_eq. cbn [bind float].
    now rewrite dict_set_set.
Qed.

Lemma _validate_comparison_result_ok (d d' : pydict) :
  _validate_comparison_result str_to_float (PyDict d) = Ok d' ->
  exists s,
    (if is_number (dict_get d "similarity_score" PyNone)
     then float str_to_float (dict_get d "similarity_score" PyNone) = Ok s
     else s = 0%Q)
    /\ d' = with_default_sections
              (dict_set d "similarity_score" (PyFloat (Qmax 0 (Qmin 1 s)))).
Proof.
  destruct (_validate_comparison_result_dict d) as [[_ ->]|(s & _ & Hs & ->)];
    [discriminate|].
  intros [= <-]. now exists s.
Qed.

End ValidationFacts.

Lemma with_default_sections_keeps d key v :
  dict_find d key = Some v -> dict_find (with_default_sections d) key = Some v.
Proof.
  intros H. unfold with_default_sections. now repeat apply ensure_key_keeps.
Qed.

Lemma with_default_sections_has d :
  Forall (fun key => dict_has (with_default_sections d) key = true)
    ["skills_match"; "experience_match"; "education_match"; "overall_assessment";
     "detailed_feedback"].
Proof.
  unfold with_default_sections.
  repeat constructor;
    repeat first [apply ensure_key_has | apply dict_has_keeps].
Qed.

Lemma with_default_sections_complete d :
  Forall (fun key => dict_has d key = true)
    ["skills_match"; "experience_match"; "education_match"; "overall_assessment";
     "detailed_feedback"] ->
  with_default_sections d = d.
Proof.
  intros H.
  inversion H as [|? ? H1 H']; subst. inversion H' as [|? ? H2 H'']; subst.
  inversion H'' as [|? ? H3 H''']; subst. inversion H''' as [|? ? H4 H'''']; subst.
  inversion H'''' as [|? ? H5 _]; subst.
  unfold with_default_sections.
  now rewrite (ensure_key_present d "skills_match"), (ensure_key_present d "experience_match"),
    (ensure_key_present d "education_match"), (ensure_key_present d "overall_assessment"),
    (ensure_key_present d "detailed_feedback").
Qed.

(** X20: on a dictionary the validation has one of two outcomes.  When
    the similarity score is an integer too large for a float, the
    conversion raises [OverflowError] and the validation ends with it.
    Otherwise it returns a comparison that holds all six sections, with a
    similarity score that is a float of the unit interval: the clamped
    number that was there ([True] and [False] count as 1 and 0), or 0 when
    the entry was missing or was not a number; every other entry of the
    answer is kept as it was. *)
Theorem validated_comparison_is_complete str_to_float (d : pydict) :
  (oversized (dict_get d "similarity_score" PyNone) = true ->
   _validate_comparison_result str_to_float (PyDict d) = Raise OverflowError)
  /\ (oversized (dict_get d "similarity_score" PyNone) = false ->
      exists d' q,
        _validate_comparison_result str_to_float (PyDict d) = Ok d'
        /\ dict_find d' "similarity_score" = Some (PyFloat q)
        /\ (0 <= q <= 1)%Q
        /\ Forall (fun key => dict_has d' key = true) comparison_keys
        /\ (forall key v, key <> "similarity_score" ->
                          dict_find d key = Some v -> dict_find d' key = Some v)
        /\ (is_number (dict_get d "similarity_score" PyNone) = false -> q = 0%Q)
        /\ (forall s, is_number (dict_get d "similarity_score" PyNone) = true ->
                      float str_to_float (dict_get d "similarity_score" PyNone) = Ok s ->
                      q = clamp s)).
Proof.
  destruct (_validate_comparison_result_dict str_to_float d)
    as [[Hbig Hraise]|(s & Hfit & Hs & Hrun)].
  { split; [intros _; exact Hraise | congruence]. }
  split; [congruence|]. intros _.
  eexists. exists (Qmax 0 (Qmin 1 s)). split; [exact Hrun|].
  assert (Hscore : dict_find
                     (with_default_sections
                        (dict_set d "similarity_score" (PyFloat (Qmax 0 (Qmin 1 s)))))
                     "similarity_score"
                   = Some (PyFloat (Qmax 0 (Qmin 1 s))))
    by (apply with_default_sections_keeps, dict_find_set_eq).
  split; [exact Hscore|].
  split; [apply Qmax_Qmin_unit|].
  split.
  { constructor; [apply dict_has_true; eauto | apply with_default_sections_has]. }
  split.
  { intros key v Hne Hv. apply with_default_sections_keeps.
    rewrite dict_find_set_ne; [exact Hv | congruence]. }
  split.
  - intros Hnum. rewrite Hnum in Hs. now subst s.
  - intros s' Hnum Hfloat. rewrite Hnum in Hs. unfold clamp. congruence.
Qed.

(** X21: validating a validated comparison changes nothing. *)
Theorem validation_is_idempotent str_to_float (comparison : pyval) (d' : pydict) :
  _validate_comparison_result str_to_float comparison = Ok d' ->
  _validate_comparison_result str_to_float (PyDict d') = Ok d'.
Proof.
  destruct comparison as [|b|n|q|s0|l|d]; try discriminate.
  intros Hrun.
  destruct (_validate_comparison_result_ok str_to_float d d' Hrun) as (s & _ & ->).
  set (d1 := with_default_sections
               (dict_set d "similarity_score" (PyFloat (Qmax 0 (Qmin 1 s))))).
  assert (Hscore : dict_find d1 "similarity_score" = Some (PyFloat (Qmax 0 (Qmin 1 s))))
    by (apply with_default_sections_keeps, dict_find_set_eq).
  destruct (_validate_comparison_result_dict str_to_float d1)
    as [[Hbig _]|(s' & _ & Hs' & Hrun')].
  { unfold dict_get in Hbig. rewrite Hscore in Hbig. discriminate. }
  rewrite Hrun'. unfold dict_get in Hs'. rewrite Hscore in Hs'. simpl in Hs'.
  injection Hs' as <-.
  rewrite clamp_idempotent, (dict_set_same d1 _ _ Hscore).
  f_equal. apply with_default_sections_complete.
  apply with_default_sections_has.
Qed.

Lemma validation_idempotent_sample :
  _validate_comparison_result sample_str_to_float
    (PyDict (with_default_sections
               (dict_set partial_comparison "similarity_score" (PyFloat 1))))
  = Ok (with_default_sections
          (dict_set partial_comparison "similarity_score" (PyFloat 1))).
Proof.
  apply (validation_is_idempotent sample_str_to_float (PyDict partial_comparison)).
  reflexivity.
Defined.

Lemma _validate_comparison_result_score str_to_float comparison d' :
  _validate_comparison_result str_to_float comparison = Ok d' ->
  exists q, dict_find d' "similarity_score" = Some (PyFloat q) /\ (0 <= q <= 1)%Q.
Proof.
  destruct comparison as [|b|n|q|s0|l|d]; try discriminate.
  intros Hrun.
  destruct (_validate_comparison_result_ok str_to_float d d' Hrun) as (s & _ & ->).
  exists (Qmax 0 (Qmin 1 s)). split.
  - apply with_default_sections_keeps, dict_find_set_eq.
  - apply Qmax_Qmin_unit.
Qed.

Lemma successful_comparisons_bound (entries : list pydict) :
  Forall (fun entry => exists q, dict_find entry "similarity_score" = Some (PyFloat q))
    entries ->
  exists n, successful_comparisons entries = Ok n
            /\ 0 <= n <= Z.of_nat (length entries).
Proof.
  induction 1 as [|entry entries [q Hq] _ (n & Hn & Hbound)].
  - exists 0. simpl. split; [reflexivity | lia].
  - cbn [successful_comparisons]. unfold dict_item. rewrite Hq. cbn [bind positive].
    rewrite Hn. cbn [bind].
    exists (if Qltb 0 q then 1 + n else n). split; [reflexivity|].
    cbn [length]. destruct (Qltb 0 q); lia.
Qed.

Section CompareFacts.
Variable str_to_float : string -> option Q.
Variable exn_str : exn -> string.
Variable format_value : pyval -> string.
Variable strip : string -> string.
Context {Database : Type}.
Variable _get_job_details : Database -> pyval -> option pydict.
Variable _get_job_applications : Database -> pyval -> list pydict.
Variable _get_resume_text : Database -> pydict -> res string * Database.
Variable compare_resume_job : string -> pyval -> res pyval.
Variable log_activity : Database -> string -> pydict -> Database.

Lemma compare_application_entry db job_id job_details app :
  application_row app ->
  exists entry db',
    compare_application str_to_float exn_str strip _get_resume_text compare_resume_job
      log_activity db job_id job_details app = (Ok entry, db')
    /\ entry_of app entry.
Proof.
  intros (Hid & Huser & Hname).
  apply dict_has_true in Hid as [i Hid]. apply dict_has_true in Huser as [u Huser].
  apply dict_has_true in Hname as [f Hname].
  assert (Hzero : exists q : Q, Some (PyFloat 0) = Some (PyFloat q) /\ (0 <= q <= 1)%Q)
    by (exists 0%Q; split; [reflexivity | split; [apply Qle_refl | discriminate]]).
  unfold compare_application, compare_try, dict_item.
  rewrite Hid, Huser, Hname. cbn [bind].
  destruct (_get_resume_text db app) as [[resume_text|e] db1].
  - match goal with
    | |- context [bind ?c _] => destruct c as [comparison|e]
    end; cbn [bind].
    + destruct (_validate_comparison_result str_to_float comparison) as [d'|e] eqn:Hvalid;
        cbn [bind].
      * destruct (_validate_comparison_result_score _ _ _ Hvalid) as (q & Hq & Hbound).
        rewrite Hq. cbn [bind].
        eexists. eexists. split; [reflexivity|].
        unfold entry_of. simpl. rewrite Hid, Huser, Hname. eauto 6.
      * eexists. eexists. split; [reflexivity|].
        unfold entry_of. simpl. rewrite Hid, Huser, Hname. auto.
    + eexists. eexists. split; [reflexivity|].
      unfold entry_of. simpl. rewrite Hid, Huser, Hname. auto.
  - eexists. eexists. split; [reflexivity|].
    unfold entry_of. simpl. rewrite Hid, Huser, Hname. auto.
Qed.

Lemma compare_applications_entries job_id job_details applications :
  Forall application_row applications ->
  forall db,
  exists entries db',
    compare_applications str_to_float exn_str strip _get_resume_text compare_resume_job
      log_activity db job_id job_details applications = (Ok entries, db')
    /\ Forall2 entry_of applications entries.
Proof.
  induction 1 as [|app applications Happ _ IH]; intros db.
  - exists [], db. split; [reflexivity | constructor].
  - cbn [compare_applications].
    destruct (compare_application_entry db job_id job_details app Happ)
      as (entry & db1 & -> & Hentry).
    destruct (IH db1) as (entries & db2 & -> & Hentries).
    exists (entry :: entries), db2. split; [reflexivity | now constructor].
Qed.

Lemma entry_of_score app entry :
  entry_of app entry ->
  exists q, dict_find entry "similarity_score" = Some (PyFloat q).
Proof. intros (_ & _ & _ & q & Hq & _). eauto. Qed.

Lemma compare_job_applications_success db (task_data job_details : pydict) :
  truthy (dict_get task_data "job_id" PyNone) = true ->
  _get_job_details db (dict_get task_data "job_id" PyNone) = Some job_details ->
  job_details <> [] ->
  _get_job_applications db (dict_get task_data "job_id" PyNone) <> [] ->
  Forall application_row
    (_get_job_applications db (dict_get task_data "job_id" PyNone)) ->
  exists entries successful db',
    compare_job_applications str_to_float exn_str format_value strip _get_job_details
      _get_job_applications _get_resume_text compare_resume_job log_activity db task_data
    = ([("status", PyStr "success");
        ("job_id", dict_get task_data "job_id" PyNone);
        ("total_applications",
           PyInt (Z.of_nat
                    (length (_get_job_applications db
                               (dict_get task_data "job_id" PyNone)))));
        ("successful_comparisons", PyInt successful);
        ("comparison_results", PyList (map PyDict entries))], db')
    /\ Forall2 entry_of
         (_get_job_applications db (dict_get task_data "job_id" PyNone)) entries
    /\ 0 <= successful <= Z.of_nat (length entries).
Proof.
  intros Hjob Hdetails Hne Happs Hrows.
  unfold compare_job_applications. rewrite Hjob, Hdetails. cbn [negb].
  destruct job_details as [|item job_details]; [contradiction|].
  destruct (_get_job_applications db (dict_get task_data "job_id" PyNone))
    as [|app applications] eqn:Hlist; [contradiction|].
  destruct (compare_applications_entries (dict_get task_data "job_id" PyNone)
              (item :: job_details) (app :: applications) Hrows db)
    as (entries & db' & -> & Hentries).
  destruct (successful_comparisons_bound entries) as (n & Hn & Hbound).
  { clear -Hentries. induction Hentries; constructor; eauto using entry_of_score. }
  cbn [bind]. rewrite Hn. cbn [bind].
  exists entries, n, db'. auto.
Qed.

End CompareFacts.

Section ComparisonTheorems.
Variable str_to_float : string -> option Q.
Variable exn_str : exn -> string.
Variable format_value : pyval -> string.
Variable strip : string -> string.
Context {Database : Type}.
Variable _get_job_details : Database -> pyval -> option pydict.
Variable _get_job_applications : Database -> pyval -> list pydict.
Variable _get_resume_text : Database -> pydict -> res string * Database.
Variable compare_resume_job : string -> pyval -> res pyval.
Variable log_activity : Database -> string -> pydict -> Database.

(** X22: for a job that exists and has applications, each a row with its
    id, user and name, [compare_job_applications] succeeds whatever the
    resume extraction and the comparison service do, raise or answer: the
    response holds exactly one entry per application, in the order of the
    query, with the application's id, user and name and a similarity score
    that is a float of the unit interval; [total_applications] is the number
    of rows and [successful_comparisons] does not exceed it. *)
Theorem comparison_covers_every_application db (task_data job_details : pydict) :
  truthy (dict_get task_data "job_id" PyNone) = true ->
  _get_job_details db (dict_get task_data "job_id" PyNone) = Some job_details ->
  job_details <> [] ->
  _get_job_applications db (dict_get task_data "job_id" PyNone) <> [] ->
  Forall application_row
    (_get_job_applications db (dict_get task_data "job_id" PyNone)) ->
  exists entries successful db',
    compare_job_applications str_to_float exn_str format_value strip _get_job_details
      _get_job_applications _get_resume_text compare_resume_job log_activity db task_data
    = ([("status", PyStr "success");
        ("job_id", dict_get task_data "job_id" PyNone);
        ("total_applications",
           PyInt (Z.of_nat
                    (length (_get_job_applications db
                               (dict_get task_data "job_id" PyNone)))));
        ("successful_comparisons", PyInt successful);
        ("comparison_results", PyList (map PyDict entries))], db')
    /\ Forall2 entry_of
         (_get_job_applications db (dict_get task_data "job_id" PyNone)) entries
    /\ length entries
       = length (_get_job_applications db (dict_get task_data "job_id" PyNone))
    /\ 0 <= successful
       <= Z.of_nat (length (_get_job_applications db
                              (dict_get task_data "job_id" PyNone))).
Proof.
  intros Hjob Hdetails Hne Happs Hrows.
  destruct (compare_job_applications_success str_to_float exn_str format_value strip
              _get_job_details _get_job_applications _get_resume_text compare_resume_job
              log_activity db task_data job_details Hjob Hdetails Hne Happs Hrows)
    as (entries & successful & db' & Hrun & Hentries & Hbound).
  exists entries, successful, db'.
  assert (Hlen : length entries
                 = length (_get_job_applications db (dict_get task_data "job_id" PyNone)))
    by (symmetry; eapply Forall2_length; exact Hentries).
  split; [exact Hrun|]. split; [exact Hentries|]. split; [exact Hlen|].
  now rewrite <- Hlen.
Qed.

(** X23: when the rows of the query are well formed the response of
    [compare_job_applications] is a success exactly when the job id is set,
    the job is found and it has applications; in every other case the
    response is an error and the database is as it was: no resume was read
    and no activity was logged. *)
Theorem comparison_succeeds_iff db (task_data : pydict) :
  Forall application_row
    (_get_job_applications db (dict_get task_data "job_id" PyNone)) ->
  exists response db',
    compare_job_applications str_to_float exn_str format_value strip _get_job_details
      _get_job_applications _get_resume_text compare_resume_job log_activity db task_data
    = (response, db')
    /\ (dict_find response "status" = Some (PyStr "success")
        <-> truthy (dict_get task_data "job_id" PyNone) = true
            /\ (exists job_details,
                  _get_job_details db (dict_get task_data "job_id" PyNone)
                  = Some job_details /\ job_details <> [])
            /\ _get_job_applications db (dict_get task_data "job_id" PyNone) <> [])
    /\ (dict_find response "status" = Some (PyStr "success")
        \/ (dict_find response "status" = Some (PyStr "error") /\ db' = db)).
Proof.
  intros Hrows.
  destruct (truthy (dict_get task_data "job_id" PyNone)) eqn:Hjob.
  - destruct (_get_job_details db (dict_get task_data "job_id" PyNone))
      as [[|item job_details]|] eqn:Hdetails.
    + unfold compare_job_applications. rewrite Hjob, Hdetails. cbn [negb].
      eexists. eexists. split; [reflexivity|]. split; [|right; now split].
      split; [discriminate|]. intros (_ & (jd & [= <-] & Hne) & _). contradiction.
    + destruct (_get_job_applications db (dict_get task_data "job_id" PyNone))
        as [|app applications] eqn:Hlist.
      * unfold compare_job_applications. rewrite Hjob, Hdetails, Hlist. cbn [negb].
        eexists. eexists. split; [reflexivity|]. split; [|right; now split].
        split; [discriminate|]. intros (_ & _ & Hne). contradiction.
      * destruct (compare_job_applications_success str_to_float exn_str format_value
                    strip _get_job_details _get_job_applications _get_resume_text
                    compare_resume_job log_activity db task_data (item :: job_details))
          as (entries & successful & db' & Hrun & _); auto.
        { rewrite Hlist. discriminate. }
        { now rewrite Hlist. }
        rewrite Hrun. eexists. eexists. split; [reflexivity|].
        split; [|left; reflexivity].
        split; [|reflexivity]. intros _.
        split; [reflexivity|]. split; [|discriminate].
        exists (item :: job_details). split; [reflexivity | discriminate].
    + unfold compare_job_applications. rewrite Hjob, Hdetails. cbn [negb].
      eexists. eexists. split; [reflexivity|]. split; [|right; now split].
      split; [discriminate|]. intros (_ & (jd & Hjd & _) & _). discriminate.
  - unfold compare_job_applications. rewrite Hjob. cbn [negb].
    eexists. eexists. split; [reflexivity|]. split; [|right; now split].
    split; [discriminate|]. intros (H & _). discriminate.
Qed.

End ComparisonTheorems.

Lemma comparison_covers_sample :
  exists entries successful db',
    compare_job_applications sample_str_to_float sample_exn_str sample_format_value
      sample_strip sample_job_row sample_applications sample_resume_text
      sample_compare_resume_job sample_log [] [("job_id", PyInt 1)]
    = ([("status", PyStr "success");
        ("job_id", dict_get [("job_id", PyInt 1)] "job_id" PyNone);
        ("total_applications",
           PyInt (Z.of_nat
                    (length (sample_applications []
                               (dict_get [("job_id", PyInt 1)] "job_id" PyNone)))));
        ("successful_comparisons", PyInt successful);
        ("comparison_results", PyList (map PyDict entries))], db')
    /\ Forall2 entry_of
         (sample_applications [] (dict_get [("job_id", PyInt 1)] "job_id" PyNone)) entries
    /\ length entries
       = length (sample_applications [] (dict_get [("job_id", PyInt 1)] "job_id" PyNone))
    /\ 0 <= successful
       <= Z.of_nat (length (sample_applications []
                              (dict_get [("job_id", PyInt 1)] "job_id" PyNone))).
Proof.
  apply (comparison_covers_every_application sample_str_to_float sample_exn_str
           sample_format_value sample_strip sample_job_row sample_applications
           sample_resume_text sample_compare_resume_job sample_log []
           [("job_id", PyInt 1)]
           [("id", PyInt 1); ("title", PyStr "Engineer");
            ("description", PyStr "Builds services")]).
  - reflexivity.
  - reflexivity.
  - discriminate.
  - discriminate.
  - repeat constructor.
Defined.

Lemma comparison_succeeds_iff_sample :
  exists response db',
    compare_job_applications sample_str_to_float sample_exn_str sample_format_value
      sample_strip sample_job_row sample_applications sample_resume_text
      sample_compare_resume_job sample_log [] [("job_id", PyInt 2)]
    = (response, db')
    /\ (dict_find response "status" = Some (PyStr "success")
        <-> truthy (dict_get [("job_id", PyInt 2)] "job_id" PyNone) = true
            /\ (exists job_details,
                  sample_job_row [] (dict_get [("job_id", PyInt 2)] "job_id" PyNone)
                  = Some job_details /\ job_details <> [])
            /\ sample_applications [] (dict_get [("job_id", PyInt 2)] "job_id" PyNone)
               <> [])
    /\ (dict_find response "status" = Some (PyStr "success")
        \/ (dict_find response "status" = Some (PyStr "error") /\ db' = [])).
Proof.
  apply (comparison_succeeds_iff sample_str_to_float sample_exn_str sample_format_value
           sample_strip sample_job_row sample_applications sample_resume_text
           sample_compare_resume_job sample_log [] [("job_id", PyInt 2)]).
  constructor.
Defined.

(** The two sample applications: the first is scored by the service, whose
    3/2 is clamped to 1; the second has no resume, the extraction raises and
    the application is entered with the score 0. *)
Example comparison_sample_scores :
  match dict_find
          (fst (compare_job_applications sample_str_to_float sample_exn_str
                  sample_format_value sample_strip sample_job_row sample_applications
                  sample_resume_text sample_compare_resume_job sample_log []
                  [("job_id", PyInt 1)]))
          "comparison_results" with
  | Some (PyList [PyDict first; PyDict second]) =>
      dict_find first "similarity_score" = Some (PyFloat 1)
      /\ dict_find second "similarity_score" = Some (PyFloat 0)
      /\ dict_find first "application_id" = Some (PyInt 21)
      /\ dict_find second "application_id" = Some (PyInt 22)
  | _ => False
  end.
Proof. vm_compute. repeat split. Qed.

(** ** From the comparison to the ranking *)

Lemma entry_of_has_application_id apps entries :
  Forall application_row apps ->
  Forall2 entry_of apps entries ->
  Forall has_application_id entries
  /\ map (fun entry => dict_find entry "application_id") entries = row_ids apps.
Proof.
  intros Hrows Hentries. revert Hrows.
  induction Hentries as [|app entry apps entries (Hid & _) _ IH]; intros Hrows.
  - split; [constructor | reflexivity].
  - inversion Hrows as [|? ? (Happ & _) Hrows']; subst.
    destruct (IH Hrows') as [Hall Hids].
    apply dict_has_true in Happ as [v Hv].
    split.
    + constructor; [|exact Hall]. exists v. congruence.
    + unfold row_ids in *. simpl. now rewrite Hid, Hids.
Qed.

Lemma ranking_of_ids str_to_float ds rankings :
  Forall2 (ranking_of str_to_float) ds rankings ->
  ranked_ids rankings = map (fun d => dict_find d "application_id") ds.
Proof.
  induction 1 as [|d r ds rankings (Hid & _) _ IH]; [reflexivity|].
  unfold ranked_ids in *. simpl. now rewrite IH, Hid.
Qed.

Lemma entry_of_scorable (apps entries : list pydict) :
  Forall2 entry_of apps entries -> Forall scorable entries.
Proof.
  induction 1 as [|app entry apps entries (_ & _ & _ & q & Hq & _) _ IH];
    constructor; [|exact IH].
  unfold scorable, dict_get. now rewrite Hq.
Qed.

Section Pipeline.
Variable str_to_float : string -> option Q.
Variable exn_str : exn -> string.
Variable format_value : pyval -> string.
Variable strip : string -> string.
Context {Database : Type}.
Variable _get_job_details : Database -> pyval -> option pydict.
Variable _get_job_applications : Database -> pyval -> list pydict.
Variable _get_resume_text : Database -> pydict -> res string * Database.
Variable compare_resume_job : string -> pyval -> res pyval.
Variable log_activity : Database -> string -> pydict -> Database.
Variable _clear_existing_rankings : Database -> pyval -> Database.
Variable _save_ranking : Database -> Ranking.Ranking -> option Z * Database.
Variable _generate_ranking_insights : list Ranking.Ranking -> pyval.
Variable time_time : Z -> Q.

(** X24: a [compare_applications] request for a job that exists and has
    well-formed applications makes the comparison agent send two messages:
    the response to the sender, then a [rank_applications] request to the
    ranking agent that carries the job id and one entry per application.
    When every save succeeds, [rank_applications] on that request answers
    with one ranking per application: the ranked application ids are a
    permutation of the ids of the rows, and the positions are 1, ..., N. *)
Theorem comparison_feeds_ranking db message (task_data job_details : pydict) :
  message_type message = MessageType.REQUEST ->
  payload message = PyDict task_data ->
  dict_get task_data "action" PyNone = PyStr "compare_applications" ->
  truthy (dict_get task_data "job_id" PyNone) = true ->
  _get_job_details db (dict_get task_data "job_id" PyNone) = Some job_details ->
  job_details <> [] ->
  _get_job_applications db (dict_get task_data "job_id" PyNone) <> [] ->
  Forall application_row
    (_get_job_applications db (dict_get task_data "job_id" PyNone)) ->
  saves_succeed _save_ranking ->
  exists response entries db1 rankings ranking_response db2,
    comparison_receive_message str_to_float exn_str format_value strip _get_job_details
      _get_job_applications _get_resume_text compare_resume_job log_activity db message
    = ([response;
        ranking_message message (dict_get task_data "job_id" PyNone)
          (PyList (map PyDict entries))], db1)
    /\ to response = sender message
    /\ kind response = MessageType.RESPONSE
    /\ Forall2 entry_of
         (_get_job_applications db (dict_get task_data "job_id" PyNone)) entries
    /\ rank_applications str_to_float exn_str _clear_existing_rankings _save_ranking
         log_activity _generate_ranking_insights time_time db1
         [("action", PyStr "rank_applications");
          ("job_id", dict_get task_data "job_id" PyNone);
          ("comparison_results", PyList (map PyDict entries))]
       = (ranking_response, db2)
    /\ dict_find ranking_response "status" = Some (PyStr "success")
    /\ dict_find ranking_response "rankings" = Some (PyList (map format_ranking rankings))
    /\ Permutation (ranked_ids rankings)
         (row_ids (_get_job_applications db (dict_get task_data "job_id" PyNone)))
    /\ map Ranking.rank_position rankings
       = positions 1
           (length (_get_job_applications db (dict_get task_data "job_id" PyNone))).
Proof.
  intros Htype Hpayload Haction Hjob Hdetails Hne Happs Hrows Hsave.
  destruct (compare_job_applications_success str_to_float exn_str format_value strip
              _get_job_details _get_job_applications _get_resume_text compare_resume_job
              log_activity db task_data job_details Hjob Hdetails Hne Happs Hrows)
    as (entries & successful & db1 & Hrun & Hentries & _).
  destruct (entry_of_has_application_id _ _ Hrows Hentries) as [Hids Hrowids].
  assert (Hlen : length (_get_job_applications db (dict_get task_data "job_id" PyNone))
                 = length entries) by (eapply Forall2_length; exact Hentries).
  assert (Hentries_ne : entries <> []).
  { intros ->. destruct (_get_job_applications db _); [contradiction | discriminate]. }
  destruct (rank_applications_success str_to_float exn_str _clear_existing_rankings
              _save_ranking log_activity _generate_ranking_insights time_time db1
              [("action", PyStr "rank_applications");
               ("job_id", dict_get task_data "job_id" PyNone);
               ("comparison_results", PyList (map PyDict entries))]
              entries)
    as (rankings & ranking_response & db2 & Hrank & Hstatus & Hlist & Hof & Hpos);
    [exact Hjob | reflexivity | exact Hentries_ne
    | exact (entry_of_scorable _ _ Hentries) | exact Hids | exact Hsave |].
  eexists. exists entries, db1, rankings, ranking_response, db2.
  split.
  { unfold comparison_receive_message. rewrite Htype, Hpayload, Haction.
    cbn [eq_str String.eqb Ascii.eqb Bool.eqb]. rewrite Hrun.
    cbn [dict_item dict_find String.eqb Ascii.eqb Bool.eqb eq_str dict_get andb truthy].
    destruct entries as [|entry entries']; [contradiction|]. reflexivity. }
  split; [reflexivity|]. split; [reflexivity|]. split; [exact Hentries|].
  split; [exact Hrank|]. split; [exact Hstatus|]. split; [exact Hlist|].
  split.
  - rewrite (ranking_of_ids _ _ _ Hof), <- Hrowids.
    apply Permutation_map, sorted_reverse_perm.
  - now rewrite Hlen.
Qed.

End Pipeline.

Lemma comparison_feeds_ranking_sample :
  exists response entries db1 rankings ranking_response db2,
    comparison_receive_message sample_str_to_float sample_exn_str sample_format_value
      sample_strip sample_job_row sample_applications sample_resume_text
      sample_compare_resume_job sample_log [] compare_request
    = ([response;
        ranking_message compare_request
          (dict_get [("action", PyStr "compare_applications"); ("job_id", PyInt 1)]
             "job_id" PyNone)
          (PyList (map PyDict entries))], db1)
    /\ to response = sender compare_request
    /\ kind response = MessageType.RESPONSE
    /\ Forall2 entry_of
         (sample_applications []
            (dict_get [("action", PyStr "compare_applications"); ("job_id", PyInt 1)]
               "job_id" PyNone)) entries
    /\ rank_applications sample_str_to_float sample_exn_str sample_clear sample_save
         sample_log sample_insights sample_time db1
         [("action", PyStr "rank_applications");
          ("job_id",
             dict_get [("action", PyStr "compare_applications"); ("job_id", PyInt 1)]
               "job_id" PyNone);
          ("comparison_results", PyList (map PyDict entries))]
       = (ranking_response, db2)
    /\ dict_find ranking_response "status" = Some (PyStr "success")
    /\ dict_find ranking_response "rankings" = Some (PyList (map format_ranking rankings))
    /\ Permutation (ranked_ids rankings)
         (row_ids
            (sample_applications []
               (dict_get [("action", PyStr "compare_applications"); ("job_id", PyInt 1)]
                  "job_id" PyNone)))
    /\ map Ranking.rank_position rankings
       = positions 1
           (length
              (sample_applications []
                 (dict_get [("action", PyStr "compare_applications"); ("job_id", PyInt 1)]
                    "job_id" PyNone))).
Proof.
  apply (comparison_feeds_ranking sample_str_to_float sample_exn_str sample_format_value
           sample_strip sample_job_row sample_applications sample_resume_text
           sample_compare_resume_job sample_log sample_clear sample_save sample_insights
           sample_time [] compare_request
           [("action", PyStr "compare_applications"); ("job_id", PyInt 1)]
           [("id", PyInt 1); ("title", PyStr "Engineer");
            ("description", PyStr "Builds services")]).
  - reflexivity.
  - reflexivity.
  - reflexivity.
  - reflexivity.
  - reflexivity.
  - discriminate.
  - discriminate.
  - repeat constructor.
  - intros db r. exists (Z.of_nat (S (length db))), (db ++ [r])%list.
    split; [reflexivity | lia].
Defined.

(** ** The ranking notification on arbitrary requests *)

Lemma candidate_cards_positions candidates :
  forall i cards,
    candidate_cards i candidates = Ok cards ->
    map card_position cards = positions i (length candidates).
Proof.
  induction candidates as [|candidate rest IH]; intros i cards.
  - intros [= <-]. reflexivity.
  - cbn [candidate_cards].
    destruct (candidate_card i candidate) as [card|e] eqn:Hcard; [|discriminate].
    cbn [bind].
    destruct (candidate_cards (i + 1) rest) as [cards'|e] eqn:Hrest; [|discriminate].
    intros [= <-]. cbn [map length positions]. rewrite (IH _ _ Hrest). f_equal.
    unfold candidate_card in Hcard.
    destruct candidate as [|b|n|q|s|l|d]; try (injection Hcard as <-; reflexivity).
    destruct (match dict_find d "similarity_score" with
              | Some _ => _
              | None => _
              end); [|discriminate].
    injection Hcard as <-. reflexivity.
Qed.

Lemma first_three_length v l : first_three v = Ok l -> (length l <= 3)%nat.
Proof.
  destruct v as [|b|n|q|s|l0|d]; try discriminate; intros [= <-].
  - rewrite length_map, length_take. lia.
  - rewrite length_take. lia.
Qed.

(** X25: whatever the request holds, [send_ranking_notification] hands at
    most one email to [_send_email], and exactly one when it answers
    [success]; every other answer is an [error] with no email.  An email
    with candidates shows between one and three of them, numbered 1, 2, 3
    from the top, and [candidates_notified] is their number; the email
    without candidates reports 0. *)
Theorem notification_sends_at_most_one_email exn_str
    (_get_job_details : pyval -> option JobDetails)
    (_get_recruiter_email : pyval -> option string) (task_data : pydict) :
  exists response emails,
    send_ranking_notification exn_str _get_job_details _get_recruiter_email task_data
    = (response, emails)
    /\ ((dict_find response "status" = Some (PyStr "error") /\ emails = [])
        \/ (dict_find response "status" = Some (PyStr "success")
            /\ exists email, emails = [email]
                 /\ match content email with
                    | ranking_email_content _ cards =>
                        (1 <= length cards <= 3)%nat
                        /\ map card_position cards = positions 1 (length cards)
                        /\ dict_find response "candidates_notified"
                           = Some (PyInt (Z.of_nat (length cards)))
                    | no_matches_email_content _ =>
                        dict_find response "candidates_notified" = Some (PyInt 0)
                    end)).
Proof.
  unfold send_ranking_notification, send_ranking_notification_try.
  destruct (len (dict_get task_data "rankings" (PyList []))) as [n|e]; cbn [bind];
    [|eexists; eexists; split; [reflexivity | left; now split]].
  destruct (truthy (dict_get task_data "job_id" PyNone)); cbn [negb];
    [|eexists; eexists; split; [reflexivity | left; now split]].
  destruct (_get_job_details (dict_get task_data "job_id" PyNone)) as [job_details|];
    [|eexists; eexists; split; [reflexivity | left; now split]].
  destruct (if truthy (dict_get task_data "rankings" (PyList []))
            then first_three (dict_get task_data "rankings" (PyList []))
            else Ok []) as [top_candidates|e] eqn:Htop; cbn [bind];
    [|eexists; eexists; split; [reflexivity | left; now split]].
  assert (Hlen : (length top_candidates <= 3)%nat).
  { destruct (truthy (dict_get task_data "rankings" (PyList []))).
    - now apply first_three_length in Htop.
    - injection Htop as <-. simpl. lia. }
  destruct top_candidates as [|candidate rest].
  - cbn [bind]. eexists. eexists. split; [reflexivity|]. right.
    split; [reflexivity|]. eexists. split; [reflexivity|]. reflexivity.
  - destruct (candidate_cards 1 (candidate :: rest)) as [cards|e] eqn:Hcards; cbn [bind];
      [|eexists; eexists; split; [reflexivity | left; now split]].
    pose proof (candidate_cards_positions _ _ _ Hcards) as Hpos.
    assert (Hcount : length cards = length (candidate :: rest)).
    { rewrite <- (length_map card_position cards), Hpos. apply positions_length. }
    eexists. eexists. split; [reflexivity|]. right.
    split; [reflexivity|]. eexists. split; [reflexivity|].
    cbn [content]. rewrite Hcount. split; [|split].
    + simpl length in *. lia.
    + exact Hpos.
    + reflexivity.
Qed.

(** ** The insights of a ranking *)

Lemma count_of_cons p s scores :
  count_of p (s :: scores) = (if p s then 1 else 0) + count_of p scores.
Proof.
  unfold count_of. rewrite filter_cons.
  destruct (decide (p s = true)) as [->|H].
  - cbn [length]. lia.
  - destruct (p s); [congruence | lia].
Qed.

Lemma Qle_bool_false a b : Qle_bool a b = false <-> (b < a)%Q.
Proof.
  split.
  - intros H. apply Qnot_le_lt. intros Hle. apply Qle_bool_iff in Hle. congruence.
  - intros H. destruct (Qle_bool a b) eqn:E; auto.
    apply Qle_bool_iff in E. apply Qlt_not_le in H. contradiction.
Qed.

(** A score is in exactly one band. *)
Lemma quality_band s :
  (if high_quality s then 1 else 0) + (if good_quality s then 1 else 0)
  + (if low_quality s then 1 else 0) = 1.
Proof.
  unfold high_quality, good_quality, low_quality.
  destruct (Qltb (7 # 10) s) eqn:Hhigh; destruct (Qle_bool (5 # 10) s) eqn:Hmid;
    destruct (Qle_bool s (7 # 10)) eqn:Hle; destruct (Qltb s (5 # 10)) eqn:Hlow;
    cbn [andb]; try reflexivity; exfalso;
    repeat match goal with
           | H : Qltb _ _ = true |- _ => apply Qltb_true in H
           | H : Qltb _ _ = false |- _ => apply Qltb_false in H
           | H : Qle_bool _ _ = true |- _ => apply Qle_bool_iff in H
           | H : Qle_bool _ _ = false |- _ => apply Qle_bool_false in H
           end; lra.
Qed.

Lemma recommended_between s :
  (if high_quality s then 1 else 0) <= (if recommended s then 1 else 0)
  <= (if high_quality s then 1 else 0) + (if good_quality s then 1 else 0).
Proof.
  unfold high_quality, good_quality, recommended.
  destruct (Qltb (7 # 10) s) eqn:Hhigh; destruct (Qle_bool (5 # 10) s) eqn:Hmid;
    destruct (Qle_bool s (7 # 10)) eqn:Hle; destruct (Qltb (6 # 10) s) eqn:Hrec;
    destruct (Qeq_bool s 0) eqn:Hzero;
    cbn [andb negb]; try lia; exfalso;
    repeat match goal with
           | H : Qltb _ _ = true |- _ => apply Qltb_true in H
           | H : Qltb _ _ = false |- _ => apply Qltb_false in H
           | H : Qle_bool _ _ = true |- _ => apply Qle_bool_iff in H
           | H : Qle_bool _ _ = false |- _ => apply Qle_bool_false in H
           | H : Qeq_bool _ _ = true |- _ => apply Qeq_bool_eq in H
           end; lra.
Qed.

Lemma quality_bands_partition (scores : list Q) :
  count_of high_quality scores + count_of good_quality scores
  + count_of low_quality scores = Z.of_nat (length scores)
  /\ count_of high_quality scores <= count_of recommended scores
     <= count_of high_quality scores + count_of good_quality scores.
Proof.
  induction scores as [|s scores [IH1 IH2]].
  - unfold count_of. simpl. lia.
  - rewrite !count_of_cons.
    pose proof (quality_band s). pose proof (recommended_between s).
    cbn [length]. lia.
Qed.

Section InsightFacts.
Variable round3 : Q -> Q.
Variable format_value : pyval -> string.

Lemma _generate_ranking_insights_counts (rankings : list Ranking.Ranking) :
  rankings <> [] ->
  exists high good low rec,
    insight (_generate_ranking_insights round3 format_value rankings)
      "summary" "total_candidates" = PyInt (Z.of_nat (length rankings))
    /\ insight (_generate_ranking_insights round3 format_value rankings)
         "quality_distribution" "high_quality" = PyInt high
    /\ insight (_generate_ranking_insights round3 format_value rankings)
         "quality_distribution" "good_quality" = PyInt good
    /\ insight (_generate_ranking_insights round3 format_value rankings)
         "quality_distribution" "low_quality" = PyInt low
    /\ insight (_generate_ranking_insights round3 format_value rankings)
         "summary" "recommended_candidates" = PyInt rec
    /\ high + good + low = Z.of_nat (length rankings)
    /\ high <= rec <= high + good.
Proof.
  destruct rankings as [|r rankings]; [contradiction|]. intros _.
  destruct (quality_bands_partition (map Ranking.similarity_score (r :: rankings)))
    as [Hsum Hrec].
  rewrite length_map in Hsum.
  exists (count_of high_quality (map Ranking.similarity_score (r :: rankings))),
    (count_of good_quality (map Ranking.similarity_score (r :: rankings))),
    (count_of low_quality (map Ranking.similarity_score (r :: rankings))),
    (count_of recommended (map Ranking.similarity_score (r :: rankings))).
  repeat (split; [reflexivity|]). split; [exact Hsum | exact Hrec].
Qed.

End InsightFacts.

Section SuccessShape.
Variable str_to_float : string -> option Q.
Variable exn_str : exn -> string.
Context {Database : Type}.
Variable _clear_existing_rankings : Database -> pyval -> Database.
Variable _save_ranking : Database -> Ranking.Ranking -> option Z * Database.
Variable log_activity : Database -> string -> pydict -> Database.
Variable _generate_ranking_insights : list Ranking.Ranking -> pyval.
Variable time_time : Z -> Q.

(** The shape of a successful response. *)
Lemma rank_applications_success_inv db (task_data : pydict) response db' :
  rank_applications str_to_float exn_str _clear_existing_rankings _save_ranking
    log_activity _generate_ranking_insights time_time db task_data = (response, db') ->
  dict_find response "status" = Some (PyStr "success") ->
  exists rankings,
    rankings <> []
    /\ response
       = [("status", PyStr "success");
          ("job_id", dict_get task_data "job_id" PyNone);
          ("total_ranked", PyInt (Z.of_nat (length rankings)));
          ("insights", _generate_ranking_insights rankings);
          ("rankings", PyList (map format_ranking rankings))].
Proof.
  unfold rank_applications.
  destruct (negb (truthy (dict_get task_data "job_id" PyNone))).
  { intros [= <- <-]. discriminate. }
  destruct (negb (truthy (dict_get task_data "comparison_results" (PyList [])))).
  { intros [= <- <-]. discriminate. }
  unfold rank_applications_try.
  destruct (dict_get task_data "comparison_results" (PyList []))
    as [| | | | |results|]; try (intros [= <- <-]; discriminate).
  destruct (score_results str_to_float results) as [sc|e].
  2:{ intros [= <- <-]. discriminate. }
  destruct (save_rankings _ _ _ _ _ _ _ _) as [saved db1].
  destruct saved as [rankings|e].
  2:{ intros [= <- <-]. discriminate. }
  destruct rankings as [|r rankings].
  { intros [= <- <-]. discriminate. }
  intros [= <- <-] _. exists (r :: rankings). split; [discriminate | reflexivity].
Qed.

End SuccessShape.

Section InsightTheorems.
Variable str_to_float : string -> option Q.
Variable exn_str : exn -> string.
Variable round3 : Q -> Q.
Variable format_value : pyval -> string.
Context {Database : Type}.
Variable _clear_existing_rankings : Database -> pyval -> Database.
Variable _save_ranking : Database -> Ranking.Ranking -> option Z * Database.
Variable log_activity : Database -> string -> pydict -> Database.
Variable time_time : Z -> Q.

(** X26: when the scores of the results are finite numbers, in every
    successful response of [rank_applications] the insights account for
    each ranking returned exactly once: [total_candidates] is
    [total_ranked], the number of rankings in the response, which is not 0;
    the three quality bands add up to it; and the number of recommended
    candidates lies between the high band and the high and good bands
    together.  (A score that is not a number would fall in no band.) *)
Theorem insights_account_for_every_ranking db (task_data : pydict)
    (ds : list pydict) response db' :
  dict_get task_data "comparison_results" (PyList []) = PyList (map PyDict ds) ->
  Forall finite_scores ds ->
  rank_applications str_to_float exn_str _clear_existing_rankings _save_ranking
    log_activity (_generate_ranking_insights round3 format_value) time_time db task_data
  = (response, db') ->
  dict_find response "status" = Some (PyStr "success") ->
  exists insights entries total high good low rec,
    dict_find response "insights" = Some insights
    /\ dict_find response "rankings" = Some (PyList entries)
    /\ dict_find response "total_ranked" = Some (PyInt total)
    /\ total = Z.of_nat (length entries)
    /\ 0 < total
    /\ insight insights "summary" "total_candidates" = PyInt total
    /\ insight insights "quality_distribution" "high_quality" = PyInt high
    /\ insight insights "quality_distribution" "good_quality" = PyInt good
    /\ insight insights "quality_distribution" "low_quality" = PyInt low
    /\ insight insights "summary" "recommended_candidates" = PyInt rec
    /\ high + good + low = total
    /\ high <= rec <= high + good.
Proof.
  intros _ _ Hrun Hstatus.
  destruct (rank_applications_success_inv _ _ _ _ _ _ _ _ _ _ _ Hrun Hstatus)
    as (rankings & Hne & ->).
  destruct (_generate_ranking_insights_counts round3 format_value rankings Hne)
    as (high & good & low & rec & Htotal & Hhigh & Hgood & Hlow & Hrec & Hsum & Hbetween).
  exists (_generate_ranking_insights round3 format_value rankings),
    (map format_ranking rankings), (Z.of_nat (length rankings)), high, good, low, rec.
  split; [reflexivity|]. split; [reflexivity|]. split; [reflexivity|].
  split; [now rewrite length_map|].
  split; [destruct rankings; [contradiction | simpl length; lia]|].
  auto 10.
Qed.

End InsightTheorems.

Lemma insights_sample :
  exists insights entries total high good low rec,
    dict_find
      (fst (rank_applications sample_str_to_float sample_exn_str sample_clear sample_save
              sample_log (_generate_ranking_insights sample_round3 sample_format_value)
              sample_time [] sample_task)) "insights" = Some insights
    /\ dict_find
         (fst (rank_applications sample_str_to_float sample_exn_str sample_clear
                 sample_save sample_log
                 (_generate_ranking_insights sample_round3 sample_format_value)
                 sample_time [] sample_task)) "rankings" = Some (PyList entries)
    /\ dict_find
         (fst (rank_applications sample_str_to_float sample_exn_str sample_clear
                 sample_save sample_log
                 (_generate_ranking_insights sample_round3 sample_format_value)
                 sample_time [] sample_task)) "total_ranked" = Some (PyInt total)
    /\ total = Z.of_nat (length entries)
    /\ 0 < total
    /\ insight insights "summary" "total_candidates" = PyInt total
    /\ insight insights "quality_distribution" "high_quality" = PyInt high
    /\ insight insights "quality_distribution" "good_quality" = PyInt good
    /\ insight insights "quality_distribution" "low_quality" = PyInt low
    /\ insight insights "summary" "recommended_candidates" = PyInt rec
    /\ high + good + low = total
    /\ high <= rec <= high + good.
Proof.
  apply (insights_account_for_every_ranking sample_str_to_float sample_exn_str
           sample_round3 sample_format_value sample_clear sample_save sample_log
           sample_time [] sample_task sample_results _
           (snd (rank_applications sample_str_to_float sample_exn_str sample_clear
                   sample_save sample_log
                   (_generate_ranking_insights sample_round3 sample_format_value)
                   sample_time [] sample_task))).
  - reflexivity.
  - repeat constructor.
  - apply surjective_pairing.
  - reflexivity.
Defined.

(** The two sample candidates score 0 and 116/200: one low, one good, none
    recommended. *)
Example insights_sample_bands :
  let insights :=
    _generate_ranking_insights sample_round3 sample_format_value
      [Ranking.mkRanking (Some 1) (PyInt 1) (PyInt 11) (116 # 200) 1 [] (PyStr "Asha");
       Ranking.mkRanking (Some 2) (PyInt 1) (PyInt 21) 0 2 [] (PyStr "Ben")] in
  insight insights "quality_distribution" "high_quality" = PyInt 0
  /\ insight insights "quality_distribution" "good_quality" = PyInt 1
  /\ insight insights "quality_distribution" "low_quality" = PyInt 1
  /\ insight insights "summary" "recommended_candidates" = PyInt 0
  /\ insight insights "summary" "top_score" = PyFloat (116 # 200).
Proof. vm_compute. repeat split. Qed.

(** ** The variance of the scores *)

Lemma fold_left_Qplus_nonneg (l : list Q) :
  Forall (fun x => (0 <= x)%Q) l ->
  forall a, (0 <= a)%Q -> (0 <= fold_left Qplus l a)%Q.
Proof.
  induction 1 as [|x l Hx _ IH]; intros a Ha; simpl; [exact Ha|].
  apply IH. lra.
Qed.

Lemma Qsquare_nonneg (x : Q) : (0 <= x * x)%Q.
Proof. nra. Qed.

Lemma positive_length (A : Type) (l : list A) :
  (length l <? 2)%nat = false -> (0 < inject_Z (Z.of_nat (length l)))%Q.
Proof.
  intros H. apply Nat.ltb_ge in H.
  change 0%Q with (inject_Z 0). rewrite <- Zlt_Qlt. lia.
Qed.

(** X27: the variance that the insights report is never negative, and it
    is zero when there are fewer than two scores. *)
Theorem variance_nonnegative (scores : list Q) :
  (0 <= _calculate_variance scores)%Q
  /\ ((length scores < 2)%nat -> _calculate_variance scores = 0%Q).
Proof.
  unfold _calculate_variance.
  destruct (length scores <? 2)%nat eqn:Hlen.
  - split; [apply Qle_refl | reflexivity].
  - pose proof (positive_length _ _ Hlen) as Hn.
    split.
    + apply Qle_shift_div_l; [exact Hn|].
      rewrite Qmult_0_l. unfold sum_of. apply fold_left_Qplus_nonneg; [|apply Qle_refl].
      apply Forall_map, Forall_forall. intros s _. simpl.
      cbn [Qpower Qpower_positive Pos.iter_op]. apply Qsquare_nonneg.
    + intros H. apply Nat.ltb_ge in Hlen. lia.
Qed.

(** ** Requests are answered once *)

Section Replies.
Variable str_to_float : string -> option Q.
Variable exn_str : exn -> string.
Variable format_value : pyval -> string.
Variable strip : string -> string.
Context {Database : Type}.
Variable _get_job_details : Database -> pyval -> option pydict.
Variable _get_job_applications : Database -> pyval -> list pydict.
Variable _get_resume_text : Database -> pydict -> res string * Database.
Variable compare_resume_job : string -> pyval -> res pyval.
Variable log_activity : Database -> string -> pydict -> Database.
Variable _clear_existing_rankings : Database -> pyval -> Database.
Variable _save_ranking : Database -> Ranking.Ranking -> option Z * Database.
Variable _generate_ranking_insights : list Ranking.Ranking -> pyval.
Variable time_time : Z -> Q.

Lemma rank_applications_status db (task_data : pydict) :
  dict_find
    (fst (rank_applications str_to_float exn_str _clear_existing_rankings _save_ranking
            log_activity _generate_ranking_insights time_time db task_data)) "status"
  = Some (PyStr "success")
  \/ dict_find
       (fst (rank_applications str_to_float exn_str _clear_existing_rankings
               _save_ranking log_activity _generate_ranking_insights time_time db
               task_data)) "status"
     = Some (PyStr "error").
Proof.
  unfold rank_applications.
  destruct (negb (truthy (dict_get task_data "job_id" PyNone))); [now right|].
  destruct (negb (truthy (dict_get task_data "comparison_results" (PyList []))));
    [now right|].
  unfold rank_applications_try.
  destruct (dict_get task_data "comparison_results" (PyList []))
    as [| | | | |results|]; try (now right).
  destruct (score_results str_to_float results) as [sc|e]; [|now right].
  destruct (save_rankings _ _ _ _ _ _ _ _) as [saved db1].
  destruct saved as [rankings|e]; [|now right].
  destruct rankings as [|r rankings]; [now right | now left].
Qed.

Lemma compare_job_applications_status db (task_data : pydict) :
  dict_find
    (fst (compare_job_applications str_to_float exn_str format_value strip
            _get_job_details _get_job_applications _get_resume_text compare_resume_job
            log_activity db task_data)) "status"
  = Some (PyStr "success")
  \/ dict_find
       (fst (compare_job_applications str_to_float exn_str format_value strip
               _get_job_details _get_job_applications _get_resume_text
               compare_resume_job log_activity db task_data)) "status"
     = Some (PyStr "error").
Proof.
  unfold compare_job_applications.
  destruct (negb (truthy (dict_get task_data "job_id" PyNone))); [now right|].
  destruct (_get_job_details db (dict_get task_data "job_id" PyNone))
    as [[|item job_details]|]; try (now right).
  destruct (_get_job_applications db (dict_get task_data "job_id" PyNone))
    as [|app applications]; [now right|].
  destruct (compare_applications _ _ _ _ _ _ _ _ _ _) as [[entries|e] db1];
    cbn [bind]; [|now right].
  destruct (successful_comparisons entries) as [n|e]; cbn [bind]; [now left | now right].
Qed.

(** X28: the ranking agent answers every request exactly once: the first
    message it sends goes to the sender of the request and carries the
    request's message id, as a response or as an error.  It sends at most
    one more message, to the communication agent, and only after a response
    whose status is [success]. *)
Theorem ranking_request_answered_once db (message : AgentMessage) :
  message_type message = MessageType.REQUEST ->
  exists reply rest db',
    ranking_receive_message str_to_float exn_str format_value _clear_existing_rankings
      _save_ranking log_activity _generate_ranking_insights time_time db message
    = (reply :: rest, db')
    /\ to reply = sender message
    /\ in_reply_to reply = Some (message_id message)
    /\ (kind reply = MessageType.RESPONSE \/ kind reply = MessageType.ERROR)
    /\ (rest = []
        \/ exists onward response,
             rest = [onward]
             /\ to onward = "communication_agent"
             /\ in_reply_to onward = Some (message_id message)
             /\ kind reply = MessageType.RESPONSE
             /\ body reply = PyDict response
             /\ dict_find response "status" = Some (PyStr "success")).
Proof.
  intros Htype. unfold ranking_receive_message. rewrite Htype.
  destruct (payload message) as [| | | | | |task_data];
    try (eexists; eexists; eexists; split; [reflexivity|]; cbn; auto 6; fail).
  destruct (eq_str (dict_get task_data "action" PyNone) "rank_applications");
    [|eexists; eexists; eexists; split; [reflexivity|]; cbn; auto 6].
  pose proof (rank_applications_status db task_data) as Hstatus.
  destruct (rank_applications _ _ _ _ _ _ _ db task_data) as [result db1].
  cbn [fst] in Hstatus. unfold dict_item.
  destruct Hstatus as [Hs|Hs]; rewrite Hs; cbn [eq_str String.eqb Ascii.eqb Bool.eqb andb].
  - destruct (truthy (dict_get result "rankings" PyNone)).
    + eexists; eexists; eexists; split; [reflexivity|]. cbn.
      split; [reflexivity|]. split; [reflexivity|]. split; [now left|].
      right. eexists. exists result. auto 7.
    + eexists; eexists; eexists; split; [reflexivity|]; cbn; auto 6.
  - eexists; eexists; eexists; split; [reflexivity|]; cbn; auto 6.
Qed.

(** X29: the comparison agent answers every request exactly once, to the
    sender and under the request's message id, and sends at most one more
    message, the request to the ranking agent, only after a response whose
    status is [success]. *)
Theorem comparison_request_answered_once db (message : AgentMessage) :
  message_type message = MessageType.REQUEST ->
  exists reply rest db',
    comparison_receive_message str_to_float exn_str format_value strip _get_job_details
      _get_job_applications _get_resume_text compare_resume_job log_activity db message
    = (reply :: rest, db')
    /\ to reply = sender message
    /\ in_reply_to reply = Some (message_id message)
    /\ (kind reply = MessageType.RESPONSE \/ kind reply = MessageType.ERROR)
    /\ (rest = []
        \/ exists onward response,
             rest = [onward]
             /\ to onward = "ranking_agent"
             /\ in_reply_to onward = Some (message_id message)
             /\ kind reply = MessageType.RESPONSE
             /\ body reply = PyDict response
             /\ dict_find response "status" = Some (PyStr "success")).
Proof.
  intros Htype. unfold comparison_receive_message. rewrite Htype.
  destruct (payload message) as [| | | | | |task_data];
    try (eexists; eexists; eexists; split; [reflexivity|]; cbn; auto 6; fail).
  destruct (eq_str (dict_get task_data "action" PyNone) "compare_applications");
    [|eexists; eexists; eexists; split; [reflexivity|]; cbn; auto 6].
  pose proof (compare_job_applications_status db task_data) as Hstatus.
  destruct (compare_job_applications _ _ _ _ _ _ _ _ _ db task_data) as [result db1].
  cbn [fst] in Hstatus. unfold dict_item.
  destruct Hstatus as [Hs|Hs]; rewrite Hs; cbn [eq_str String.eqb Ascii.eqb Bool.eqb andb].
  - destruct (truthy (dict_get result "comparison_results" PyNone)).
    + eexists; eexists; eexists; split; [reflexivity|]. cbn.
      split; [reflexivity|]. split; [reflexivity|]. split; [now left|].
      right. eexists. exists result. auto 7.
    + eexists; eexists; eexists; split; [reflexivity|]; cbn; auto 6.
  - eexists; eexists; eexists; split; [reflexivity|]; cbn; auto 6.
Qed.

End Replies.

Lemma ranking_request_answered_sample :
  exists reply rest db',
    ranking_receive_message sample_str_to_float sample_exn_str sample_format_value
      sample_clear sample_save sample_log sample_insights sample_time [] rank_request
    = (reply :: rest, db')
    /\ to reply = sender rank_request
    /\ in_reply_to reply = Some (message_id rank_request)
    /\ (kind reply = MessageType.RESPONSE \/ kind reply = MessageType.ERROR)
    /\ (rest = []
        \/ exists onward response,
             rest = [onward]
             /\ to onward = "communication_agent"
             /\ in_reply_to onward = Some (message_id rank_request)
             /\ kind reply = MessageType.RESPONSE
             /\ body reply = PyDict response
             /\ dict_find response "status" = Some (PyStr "success")).
Proof.
  apply (ranking_request_answered_once sample_str_to_float sample_exn_str
           sample_format_value sample_log sample_clear sample_save sample_insights
           sample_time [] rank_request).
  reflexivity.
Defined.

Lemma comparison_request_answered_sample :
  exists reply rest db',
    comparison_receive_message sample_str_to_float sample_exn_str sample_format_value
      sample_strip sample_job_row sample_applications sample_resume_text
      sample_compare_resume_job sample_log [] compare_request
    = (reply :: rest, db')
    /\ to reply = sender compare_request
    /\ in_reply_to reply = Some (message_id compare_request)
    /\ (kind reply = MessageType.RESPONSE \/ kind reply = MessageType.ERROR)
    /\ (rest = []
        \/ exists onward response,
             rest = [onward]
             /\ to onward = "ranking_agent"
             /\ in_reply_to onward = Some (message_id compare_request)
             /\ kind reply = MessageType.RESPONSE
             /\ body reply = PyDict response
             /\ dict_find response "status" = Some (PyStr "success")).
Proof.
  apply (comparison_request_answered_once sample_str_to_float sample_exn_str
           sample_format_value sample_strip sample_job_row sample_applications
           sample_resume_text sample_compare_resume_job sample_log [] compare_request).
  reflexivity.
Defined.
